(** * khlone: the anthropic brain CLI supplier

    A shallow embedding of
    - [getOneBrainOutputFromStreamJson.ts]: the nd-JSON stream decoder, its
      finalizer and the episode/series reconciliation it performs, and
    - [genBrainCli.ts]: the handle that supervises the CLI process,
    together with the properties the specification states about them.

    JavaScript strings are rendered as [string] (one character per code
    unit below 256), [T | null] and optional fields as [option T], arrays
    as [list].  What [JSON.parse] returns is a JSON value of any shape:
    the decoder reads it with the property accesses, the tests and the
    conversions of the source, and a handler that throws is a handler
    that completes abruptly.  Built-ins of the platform that the
    repository only calls (number arithmetic, [Number.parseFloat],
    [toFixed], [JSON.parse], the conversions of values that are not of
    the expected type, the decoding of a Buffer, [JSON.stringify],
    sha256) are interfaces; a reference instance over exact rationals is
    given for concrete runs. *)

From Stdlib Require Import String Ascii List Bool Arith ZArith QArith Lia.
From Stdlib Require Import DecimalString Strings.Byte.
Import ListNotations.
Open Scope string_scope.
Open Scope list_scope.
Open Scope nat_scope.

Set Implicit Arguments.

(* ================================================================== *)
(** * JavaScript helpers *)

(** [a ?? b] *)
Definition nullish {A : Type} (a b : option A) : option A :=
  match a with
  | Some x => Some x
  | None => b
  end.

(** [a ?? b] where [b] cannot be null *)
Definition nullishOr {A : Type} (a : option A) (b : A) : A :=
  match a with
  | Some x => x
  | None => b
  end.

Notation "a ?? b" := (nullish a b) (at level 61, left associativity).

(** string concatenation, [a + b] on strings *)
Infix "+++" := String.append (at level 60, right associativity).

(** a [string | null] inside a template literal *)
Definition tpl (s : option string) : string := nullishOr s "null".

(** a number that is an array length inside a template literal *)
Definition tplNat (n : nat) : string := NilZero.string_of_uint (Nat.to_uint n).

(** truthiness of a string: non-empty *)
Definition truthyStr (s : string) : bool :=
  match s with
  | EmptyString => false
  | String _ _ => true
  end.

(** truthiness of a [string | undefined] *)
Definition truthyOptStr (s : option string) : bool :=
  match s with
  | Some t => truthyStr t
  | None => false
  end.

(** [a === b] on [string | null] *)
Definition optStrEqb (a b : option string) : bool :=
  match a, b with
  | Some x, Some y => String.eqb x y
  | None, None => true
  | _, _ => false
  end.

(** [s.startsWith(p)] *)
Definition startsWith (s p : string) : bool := String.prefix p s.

(** [arr.join(sep)] *)
Definition join (sep : string) (arr : list string) : string := String.concat sep arr.

(** the line feed *)
Definition LF : ascii := "010"%char.

(** white space of [String.prototype.trim] among the code units below 256 *)
Definition isWhiteSpace (c : ascii) : bool :=
  let n := nat_of_ascii c in
  ((9 <=? n) && (n <=? 13)) || (n =? 32) || (n =? 160).

Fixpoint trimStart (s : string) : string :=
  match s with
  | EmptyString => EmptyString
  | String c r => if isWhiteSpace c then trimStart r else s
  end.

Fixpoint trimEnd (s : string) : string :=
  match s with
  | EmptyString => EmptyString
  | String c r =>
      let r' := trimEnd r in
      if isWhiteSpace c && negb (truthyStr r') then EmptyString else String c r'
  end.

(** [s.trim()] *)
Definition trim (s : string) : string := trimEnd (trimStart s).

(** [s.split('\n')]: never empty, the last element is the text after the
    last line feed *)
Fixpoint split_LF (s : string) : list string :=
  match s with
  | EmptyString => [EmptyString]
  | String c r =>
      if Ascii.eqb c LF then EmptyString :: split_LF r
      else match split_LF r with
           | [] => [String c EmptyString]
           | h :: t => String c h :: t
           end
  end.

(** [arr[arr.length - 1] ?? null] *)
Definition lastOpt {A : Type} (l : list A) : option A := last (map Some l) None.

(** [arr.slice(0, -1)] *)
Definition sliceInit {A : Type} (l : list A) : list A := removelast l.

(* ================================================================== *)
(** * JSON values *)

(** What [JSON.parse] returns.  A number is kept as its literal; the
    platform turns it into a number where one is needed. *)
#[warnings="-register-all"] Inductive Json : Type :=
| JNull
| JBool (b : bool)
| JNum (literal : string)
| JStr (s : string)
| JArr (items : list Json)
| JObj (fields : list (string * Json)).

(** the value [JSON.parse] binds to [key] in an object: the last of the
    members of that name *)
Fixpoint member (key : string) (fields : list (string * Json)) : option Json :=
  match fields with
  | [] => None
  | (name, value) :: rest =>
      match member key rest with
      | Some later => Some later
      | None => if String.eqb name key then Some value else None
      end
  end.

(** [v.key] for a value that is not null, for the names the decoder
    reads: the member of an object, and undefined ([None]) for an object
    without it, a number, a string, a boolean and an array *)
Definition getProp (v : Json) (key : string) : option Json :=
  match v with
  | JObj fields => member key fields
  | _ => None
  end.

(** [v == null] for what a property access gave: undefined or null *)
Definition isNullish (v : option Json) : bool :=
  match v with
  | None => true
  | Some JNull => true
  | Some _ => false
  end.

(** [v ?? other] where [other] is a captured variable, null as [None] *)
Definition coalesce (v other : option Json) : option Json :=
  if isNullish v then other else v.

(** [v?.key] *)
Definition optChain (v : option Json) (key : string) : option Json :=
  match v with
  | None => None
  | Some JNull => None
  | Some x => getProp x key
  end.

(** [v === s] for a string [s] *)
Definition isStr (v : option Json) (s : string) : bool :=
  match v with
  | Some (JStr t) => String.eqb t s
  | _ => false
  end.

(** what [for (const x of v)] visits: the items of an array, the
    characters of a string; [None] for a value that is not iterable *)
Definition iterate (v : Json) : option (list Json) :=
  match v with
  | JArr items => Some items
  | JStr s => Some (map (fun c => JStr (String c EmptyString)) (list_ascii_of_string s))
  | _ => None
  end.

(* ================================================================== *)
(** * Domain objects of rhachet, as this package constructs and reads them

    The constructors of rhachet are taken as record construction. *)

Record BrainExchange : Type := mkExchange {
  exchange_hash : string;
  exchange_input : string;
  (** [output: outputText], the value as it is *)
  exchange_output : Json;
  exchange_exid : option string
}.

Record BrainEpisode : Type := mkEpisode {
  episode_hash : string;
  episode_exid : option string;
  episode_exchanges : list BrainExchange
}.

Record BrainSeries : Type := mkSeries {
  series_hash : string;
  series_exid : option string;
  series_episodes : list BrainEpisode
}.

(** [spec.cost.cash]: IsoPrice strings such as [$0.000001] *)
Record CashRates : Type := mkRates {
  rate_input : string;
  rate_output : string;
  rate_cache_get : string;
  rate_cache_set : string
}.

Record BrainSpec : Type := mkSpec {
  spec_cost_cash : CashRates
}.

(** sha256 as hex, from node's crypto, of a string *)
Class Digest : Type := { sha256 : string -> string }.

(* ================================================================== *)
(** * Reconciliation of the new exchange into the series

    The tail of [finalize], lines 311-356, with the closure variables it
    reads as arguments. *)

Section Reconciliation.
Context {digest : Digest}.
Variable seriesPrior : option BrainSeries.
Variable sessionId : option string.
Variable compactionDetected : bool.
Variable exchange : BrainExchange.

Definition episodesPrior : list BrainEpisode :=
  match seriesPrior with
  | Some s => series_episodes s
  | None => []
  end.

Definition episodeLatest : option BrainEpisode := lastOpt episodesPrior.

Definition isSameContextWindow : bool :=
  negb compactionDetected &&
  match episodeLatest with
  | Some latest =>
      match sessionId with
      | Some _ => optStrEqb (episode_exid latest) sessionId
      | None => false
      end
  | None => false
  end.

Definition isCompactionSplit : bool :=
  negb isSameContextWindow &&
  compactionDetected &&
  match sessionId with
  | Some sid =>
      match episodeLatest with
      | Some latest =>
          match episode_exid latest with
          | Some exid => String.eqb exid sid || startsWith exid (sid +++ "/")
          | None => false
          end
      | None => false
      end
  | None => false
  end.

Definition episodeExid : option string :=
  if isCompactionSplit
  then Some (tpl sessionId +++ "/" +++ tplNat (length episodesPrior))
  else sessionId.

Definition episode : BrainEpisode :=
  if isSameContextWindow
  then
    let exchanges :=
      match episodeLatest with
      | Some latest => episode_exchanges latest ++ [exchange]
      | None => [exchange]
      end in
    {| episode_hash :=
         sha256 (tpl sessionId +++ ":" +++ join ":" (map exchange_hash exchanges));
       episode_exid := episodeExid;
       episode_exchanges := exchanges |}
  else
    {| episode_hash :=
         sha256 (nullishOr sessionId "ephemeral" +++ ":" +++ exchange_hash exchange);
       episode_exid := episodeExid;
       episode_exchanges := [exchange] |}.

Definition episodesForSeries : list BrainEpisode :=
  if isSameContextWindow
  then sliceInit episodesPrior ++ [episode]
  else episodesPrior ++ [episode].

Definition series : BrainSeries :=
  {| series_hash := sha256 (nullishOr sessionId "ephemeral");
     series_exid := sessionId;
     series_episodes := episodesForSeries |}.

End Reconciliation.

(* ================================================================== *)
(** * The platform's numbers, conversions and JSON decoding *)

(** JavaScript numbers, as far as the decoder uses them. *)
Class JsNumber (number : Type) : Type := {
  num_zero : number;
  num_add : number -> number -> number;
  num_mul : number -> number -> number;
  (** truthiness: false on zero and on NaN *)
  num_truthy : number -> bool;
  (** the length of a string as a number *)
  num_of_nat : nat -> number;
  (** the number [JSON.parse] makes of a number literal *)
  num_of_json : string -> number;
  (** [Number.parseFloat] *)
  parseFloat : string -> number;
  (** [value.toFixed(digits)] *)
  toFixed : number -> nat -> string
}.

(** [JSON.parse], the conversions JavaScript applies to a value that is
    not of the type the operator expects, and the decoding of a Buffer.
    A conversion that throws gives [None]. *)
Class JsonCodec (number : Type) : Type := {
  (** [JSON.parse(text)], [None] when it throws *)
  JSON_parse : string -> option Json;
  (** the string a template literal makes of a value that is not a string *)
  templateString : Json -> option string;
  (** the string that [+=] on a string appends for a value that is not a
      string *)
  plusString : Json -> option string;
  (** the number [*] makes of a value that is not a number *)
  timesNumber : Json -> option number;
  (** [buffer.toString()] *)
  Buffer_toString : list byte -> string
}.

(** ** The output *)

Record BrainOutputMetrics (number : Type) : Type := mkMetrics {
  size_tokens_input : Json;
  size_tokens_output : Json;
  size_tokens_cache_get : Json;
  size_tokens_cache_set : Json;
  size_chars_input : number;
  (** [outputText.length], undefined for a value without one *)
  size_chars_output : option Json;
  size_chars_cache_get : number;
  size_chars_cache_set : number;
  cost_time_milliseconds : Json;
  cost_cash_total : string;
  cost_cash_deets_input : string;
  cost_cash_deets_output : string;
  cost_cash_deets_cache_get : string;
  cost_cash_deets_cache_set : string
}.

Record BrainOutput (number : Type) : Type := mkOutput {
  (** [output: outputText], the value as it is *)
  output : Json;
  metrics : BrainOutputMetrics number;
  output_episode : BrainEpisode;
  output_series : BrainSeries
}.

(** how the promise was settled: [onResolve(brainOutput)] or
    [onReject(new UnexpectedCodePathError(message, { error }))] *)
Inductive Settlement (number : Type) : Type :=
| Resolved (brainOutput : BrainOutput number)
| Rejected (message : string) (error : string).

Arguments Rejected {number} message error.

(** how a call ends, with the captured variables as they are then: it
    returns, or it throws a TypeError that nothing in the decoder
    catches *)
Inductive Completion (A : Type) : Type :=
| Returns (state : A)
| Throws (state : A).

Definition after {A : Type} (c : Completion A) : A :=
  match c with
  | Returns a => a
  | Throws a => a
  end.

Definition threw {A : Type} (c : Completion A) : bool :=
  match c with
  | Returns _ => false
  | Throws _ => true
  end.

(** the statements after a call that may throw *)
Definition andThen {A : Type} (c : Completion A) (rest : A -> Completion A)
  : Completion A :=
  match c with
  | Returns a => rest a
  | Throws a => Throws a
  end.

(* ================================================================== *)
(** * The stream decoder: getOneBrainOutputFromStreamJson *)

(** The variables captured by the promise executor, then what the
    executor does to the world: the calls of [onResolve]/[onReject] in the
    order they were made, and the number of calls of [detachListeners].
    A variable declared [T | null] is [None] while it is null; the
    counters and the result text hold what was assigned, of whatever
    type. *)
Record Decoder (number : Type) : Type := mkDecoder {
  textAccumulated : string;
  sessionId : option Json;
  tokensInput : Json;
  tokensOutput : Json;
  tokensCacheGet : Json;
  tokensCacheSet : Json;
  costUsd : option Json;
  durationMs : option Json;
  resultText : option Json;
  compactionDetected : bool;
  resolved : bool;
  buffer : string;
  settled : list (Settlement number);
  detachCalls : nat
}.

(** [input] of getOneBrainOutputFromStreamJson; [stdout] is the source of
    the stream events below. *)
Record DecodeInput : Type := mkDecodeInput {
  prompt : string;
  spec : BrainSpec;
  seriesPrior : option BrainSeries
}.

(** [chunk: Buffer | string] *)
Inductive Chunk : Type :=
| Text (text : string)
| Buffer (bytes : list byte).

(** what [stdout] emits *)
Inductive StreamEvent : Type :=
| Data (chunk : Chunk)
| End
| Error (message : string).

(** ** Assignments to one captured variable *)

Section DecoderState.
Variable number : Type.

Definition set_textAccumulated (v : string) (d : Decoder number) : Decoder number :=
  mkDecoder v (sessionId d) (tokensInput d) (tokensOutput d)
    (tokensCacheGet d) (tokensCacheSet d) (costUsd d) (durationMs d)
    (resultText d) (compactionDetected d) (resolved d) (buffer d) (settled d)
    (detachCalls d).

Definition set_sessionId (v : option Json) (d : Decoder number) : Decoder number :=
  mkDecoder (textAccumulated d) v (tokensInput d) (tokensOutput d)
    (tokensCacheGet d) (tokensCacheSet d) (costUsd d) (durationMs d)
    (resultText d) (compactionDetected d) (resolved d) (buffer d) (settled d)
    (detachCalls d).

Definition set_tokensInput (v : Json) (d : Decoder number) : Decoder number :=
  mkDecoder (textAccumulated d) (sessionId d) v (tokensOutput d)
    (tokensCacheGet d) (tokensCacheSet d) (costUsd d) (durationMs d)
    (resultText d) (compactionDetected d) (resolved d) (buffer d) (settled d)
    (detachCalls d).

Definition set_tokensOutput (v : Json) (d : Decoder number) : Decoder number :=
  mkDecoder (textAccumulated d) (sessionId d) (tokensInput d) v
    (tokensCacheGet d) (tokensCacheSet d) (costUsd d) (durationMs d)
    (resultText d) (compactionDetected d) (resolved d) (buffer d) (settled d)
    (detachCalls d).

Definition set_tokensCacheGet (v : Json) (d : Decoder number) : Decoder number :=
  mkDecoder (textAccumulated d) (sessionId d) (tokensInput d) (tokensOutput d)
    v (tokensCacheSet d) (costUsd d) (durationMs d) (resultText d)
    (compactionDetected d) (resolved d) (buffer d) (settled d) (detachCalls d).

Definition set_tokensCacheSet (v : Json) (d : Decoder number) : Decoder number :=
  mkDecoder (textAccumulated d) (sessionId d) (tokensInput d) (tokensOutput d)
    (tokensCacheGet d) v (costUsd d) (durationMs d) (resultText d)
    (compactionDetected d) (resolved d) (buffer d) (settled d) (detachCalls d).

Definition set_costUsd (v : option Json) (d : Decoder number) : Decoder number :=
  mkDecoder (textAccumulated d) (sessionId d) (tokensInput d) (tokensOutput d)
    (tokensCacheGet d) (tokensCacheSet d) v (durationMs d) (resultText d)
    (compactionDetected d) (resolved d) (buffer d) (settled d) (detachCalls d).

Definition set_durationMs (v : option Json) (d : Decoder number) : Decoder number :=
  mkDecoder (textAccumulated d) (sessionId d) (tokensInput d) (tokensOutput d)
    (tokensCacheGet d) (tokensCacheSet d) (costUsd d) v (resultText d)
    (compactionDetected d) (resolved d) (buffer d) (settled d) (detachCalls d).

Definition set_resultText (v : option Json) (d : Decoder number) : Decoder number :=
  mkDecoder (textAccumulated d) (sessionId d) (tokensInput d) (tokensOutput d)
    (tokensCacheGet d) (tokensCacheSet d) (costUsd d) (durationMs d) v
    (compactionDetected d) (resolved d) (buffer d) (settled d) (detachCalls d).

Definition set_compactionDetected (v : bool) (d : Decoder number) : Decoder number :=
  mkDecoder (textAccumulated d) (sessionId d) (tokensInput d) (tokensOutput d)
    (tokensCacheGet d) (tokensCacheSet d) (costUsd d) (durationMs d)
    (resultText d) v (resolved d) (buffer d) (settled d) (detachCalls d).

Definition set_resolved (v : bool) (d : Decoder number) : Decoder number :=
  mkDecoder (textAccumulated d) (sessionId d) (tokensInput d) (tokensOutput d)
    (tokensCacheGet d) (tokensCacheSet d) (costUsd d) (durationMs d)
    (resultText d) (compactionDetected d) v (buffer d) (settled d)
    (detachCalls d).

Definition set_buffer (v : string) (d : Decoder number) : Decoder number :=
  mkDecoder (textAccumulated d) (sessionId d) (tokensInput d) (tokensOutput d)
    (tokensCacheGet d) (tokensCacheSet d) (costUsd d) (durationMs d)
    (resultText d) (compactionDetected d) (resolved d) v (settled d)
    (detachCalls d).

Definition set_settled (v : list (Settlement number)) (d : Decoder number) : Decoder number :=
  mkDecoder (textAccumulated d) (sessionId d) (tokensInput d) (tokensOutput d)
    (tokensCacheGet d) (tokensCacheSet d) (costUsd d) (durationMs d)
    (resultText d) (compactionDetected d) (resolved d) (buffer d) v
    (detachCalls d).

Definition set_detachCalls (v : nat) (d : Decoder number) : Decoder number :=
  mkDecoder (textAccumulated d) (sessionId d) (tokensInput d) (tokensOutput d)
    (tokensCacheGet d) (tokensCacheSet d) (costUsd d) (durationMs d)
    (resultText d) (compactionDetected d) (resolved d) (buffer d) (settled d)
    v.

End DecoderState.

Section StreamDecoder.
Context {number : Type} {jsNumber : JsNumber number}.
Context {digest : Digest} {codec : JsonCodec number}.
Variable input : DecodeInput.

(** ** Values as the operators of the source read them *)

(** truthiness *)
Definition truthy (v : option Json) : bool :=
  match v with
  | None => false
  | Some JNull => false
  | Some (JBool b) => b
  | Some (JNum literal) => num_truthy (num_of_json literal)
  | Some (JStr s) => truthyStr s
  | Some (JArr _) => true
  | Some (JObj _) => true
  end.

(** the string of a value inside a template literal *)
Definition toTemplate (v : Json) : option string :=
  match v with
  | JStr s => Some s
  | _ => templateString v
  end.

(** the string [text += v] appends *)
Definition toPlus (v : Json) : option string :=
  match v with
  | JStr s => Some s
  | _ => plusString v
  end.

(** the number of [rate * v] *)
Definition toNumber (v : Json) : option number :=
  match v with
  | JNum literal => Some (num_of_json literal)
  | _ => timesNumber v
  end.

(** [v.length] for a value that is not null *)
Definition lengthOf (v : Json) : option Json :=
  match v with
  | JStr s => Some (JNum (tplNat (String.length s)))
  | JArr items => Some (JNum (tplNat (length items)))
  | JObj fields => member "length" fields
  | _ => None
  end.

(** [chunk.toString()] *)
Definition chunkText (chunk : Chunk) : string :=
  match chunk with
  | Text text => text
  | Buffer bytes => Buffer_toString bytes
  end.

(** the executor's initial bindings *)
Definition decoderInit : Decoder number :=
  {| textAccumulated := "";
     sessionId := None;
     tokensInput := JNum "0";
     tokensOutput := JNum "0";
     tokensCacheGet := JNum "0";
     tokensCacheSet := JNum "0";
     costUsd := None;
     durationMs := None;
     resultText := None;
     compactionDetected := false;
     resolved := false;
     buffer := "";
     settled := [];
     detachCalls := 0 |}.

(** [/[^0-9.-]/] does not match [c] *)
Definition isPriceChar (c : ascii) : bool :=
  let n := nat_of_ascii c in
  ((48 <=? n) && (n <=? 57)) || (n =? 46) || (n =? 45).

(** [price.replace(/[^0-9.-]/g, '')] *)
Fixpoint cleaned (price : string) : string :=
  match price with
  | EmptyString => EmptyString
  | String c r => if isPriceChar c then String c (cleaned r) else cleaned r
  end.

Definition getOneNumericFromIsoPrice (price : string) : number :=
  let n := parseFloat (cleaned price) in
  if num_truthy n then n else num_zero.

Definition getOneIsoPrice (value : number) : string := "$" +++ toFixed value 10.

(** a currency prefix, without digit, dot or minus sign, and a decimal
    string, made of those only *)
Definition isPrefixedDecimal (currency decimal : string) : bool :=
  forallb (fun c => negb (isPriceChar c)) (list_ascii_of_string currency)
  && forallb isPriceChar (list_ascii_of_string decimal).

(** [getOneIsoPrice] of a value of any type: [value.toFixed] is a function
    on numbers only *)
Definition getOneIsoPriceOf (value : Json) : option string :=
  match value with
  | JNum literal => Some (getOneIsoPrice (num_of_json literal))
  | _ => None
  end.

(** ** finalize *)

Definition detachListeners (d : Decoder number) : Decoder number :=
  set_detachCalls (S (detachCalls d)) d.

Definition onResolve (brainOutput : BrainOutput number) (d : Decoder number) : Decoder number :=
  set_settled (settled d ++ [Resolved brainOutput]) d.

Definition onReject (message error : string) (d : Decoder number) : Decoder number :=
  set_settled (settled d ++ [Rejected message error]) d.

(** [resultText ?? textAccumulated] *)
Definition outputText (d : Decoder number) : Json :=
  match coalesce (resultText d) None with
  | Some text => text
  | None => JStr (textAccumulated d)
  end.

Definition rates : CashRates := spec_cost_cash (spec input).

(** [getOneNumericFromIsoPrice(rate) * tokens] *)
Definition costOf (rate : string) (tokens : Json) : option number :=
  option_map (num_mul (getOneNumericFromIsoPrice rate)) (toNumber tokens).

Definition costInput (d : Decoder number) : option number :=
  costOf (rate_input rates) (tokensInput d).

Definition costOutput (d : Decoder number) : option number :=
  costOf (rate_output rates) (tokensOutput d).

Definition costCacheGet (d : Decoder number) : option number :=
  costOf (rate_cache_get rates) (tokensCacheGet d).

Definition costCacheSet (d : Decoder number) : option number :=
  costOf (rate_cache_set rates) (tokensCacheSet d).

(** [costInput + costOutput + costCacheGet + costCacheSet] *)
Definition costDerived (d : Decoder number) : option number :=
  match costInput d, costOutput d, costCacheGet d, costCacheSet d with
  | Some i, Some o, Some g, Some s => Some (num_add (num_add (num_add i o) g) s)
  | _, _, _, _ => None
  end.

(** [getOneIsoPrice(costTotalNum)], where
    [costTotalNum = costUsd ?? costInput + costOutput + ...] *)
Definition costTotal (d : Decoder number) : option string :=
  match coalesce (costUsd d) None with
  | Some vendor => getOneIsoPriceOf vendor
  | None => option_map getOneIsoPrice (costDerived d)
  end.

(** [durationMs != null ? durationMs : 0] *)
Definition costTime (d : Decoder number) : Json :=
  match coalesce (durationMs d) None with
  | Some duration => duration
  | None => JNum "0"
  end.

Definition decoderMetrics (d : Decoder number) : option (BrainOutputMetrics number) :=
  match costInput d, costOutput d, costCacheGet d, costCacheSet d, costTotal d with
  | Some forInput, Some forOutput, Some forCacheGet, Some forCacheSet, Some total =>
      Some {| size_tokens_input := tokensInput d;
              size_tokens_output := tokensOutput d;
              size_tokens_cache_get := tokensCacheGet d;
              size_tokens_cache_set := tokensCacheSet d;
              size_chars_input := num_of_nat (String.length (prompt input));
              size_chars_output := lengthOf (outputText d);
              size_chars_cache_get := num_zero;
              size_chars_cache_set := num_zero;
              cost_time_milliseconds := costTime d;
              cost_cash_total := total;
              cost_cash_deets_input := getOneIsoPrice forInput;
              cost_cash_deets_output := getOneIsoPrice forOutput;
              cost_cash_deets_cache_get := getOneIsoPrice forCacheGet;
              cost_cash_deets_cache_set := getOneIsoPrice forCacheSet |}
  | _, _, _, _, _ => None
  end.

Definition decoderExchange (d : Decoder number) : option BrainExchange :=
  match toTemplate (outputText d) with
  | Some text =>
      Some {| exchange_hash := sha256 (prompt input +++ ":" +++ text);
              exchange_input := prompt input;
              exchange_output := outputText d;
              exchange_exid := None |}
  | None => None
  end.

(** the session id as the reconciliation and the digest read it: null,
    or a string; the digest of the series throws on a value that is
    neither *)
Definition sessionOf (d : Decoder number) : option (option string) :=
  match coalesce (sessionId d) None with
  | None => Some None
  | Some (JStr sid) => Some (Some sid)
  | Some _ => None
  end.

(** the output [finalize] builds, [None] when a step of the construction
    throws *)
Definition brainOutput (d : Decoder number) : option (BrainOutput number) :=
  match decoderMetrics d, decoderExchange d, sessionOf d with
  | Some metrics, Some exchange, Some sid =>
      Some {| output := outputText d;
              metrics := metrics;
              output_episode :=
                episode (seriesPrior input) sid (compactionDetected d) exchange;
              output_series :=
                series (seriesPrior input) sid (compactionDetected d) exchange |}
  | _, _, _ => None
  end.

Definition finalize (d : Decoder number) : Completion (Decoder number) :=
  if resolved d then Returns d
  else
    let d := set_resolved true d in
    let d := detachListeners d in
    match brainOutput d with
    | Some out => Returns (onResolve out d)
    | None => Throws d
    end.

(** ** processLine and processStreamEvent *)

(** [if (n) target = n] for a counter of a usage object *)
Definition whenTruthy (n : option Json) (set : Json -> Decoder number -> Decoder number)
  (d : Decoder number) : Decoder number :=
  match n with
  | Some v => if truthy n then set v d else d
  | None => d
  end.

(** the four guarded assignments made from a usage object *)
Definition takeUsage (usage : Json) (d : Decoder number) : Decoder number :=
  let d := whenTruthy (getProp usage "input_tokens") (@set_tokensInput number) d in
  let d := whenTruthy (getProp usage "output_tokens") (@set_tokensOutput number) d in
  let d := whenTruthy (getProp usage "cache_creation_input_tokens")
             (@set_tokensCacheSet number) d in
  whenTruthy (getProp usage "cache_read_input_tokens") (@set_tokensCacheGet number) d.

(** [if (usage) { ... }] *)
Definition takeUsageOpt (usage : option Json) (d : Decoder number) : Decoder number :=
  match usage with
  | Some u => if truthy usage then takeUsage u d else d
  | None => d
  end.

(** [if (cond && text) textAccumulated += text] *)
Definition takeText (cond : bool) (text : option Json) (d : Decoder number)
  : Completion (Decoder number) :=
  match text with
  | Some v =>
      if cond && truthy text then
        match toPlus v with
        | Some s => Returns (set_textAccumulated (textAccumulated d +++ s) d)
        | None => Throws d
        end
      else Returns d
  | None => Returns d
  end.

(** one turn of the loop over [message.content] *)
Definition takeBlock (block : Json) (d : Decoder number) : Completion (Decoder number) :=
  match block with
  | JNull => Throws d
  | _ => takeText (isStr (getProp block "type") "text") (getProp block "text") d
  end.

Fixpoint takeBlocks (blocks : list Json) (d : Decoder number)
  : Completion (Decoder number) :=
  match blocks with
  | [] => Returns d
  | block :: rest => andThen (takeBlock block d) (takeBlocks rest)
  end.

(** [if (message?.content) for (const block of message.content) ...] *)
Definition takeContent (message : option Json) (d : Decoder number)
  : Completion (Decoder number) :=
  match optChain message "content" with
  | Some content =>
      if truthy (Some content) then
        match iterate content with
        | Some blocks => takeBlocks blocks d
        | None => Throws d
        end
      else Returns d
  | None => Returns d
  end.

Definition processStreamEvent (event : Json) (d : Decoder number)
  : Completion (Decoder number) :=
  let innerType := getProp event "type" in
  if isStr innerType "message_start" then
    let message := getProp event "message" in
    Returns (whenTruthy (optChain (optChain message "usage") "input_tokens")
               (@set_tokensInput number) d)
  else if isStr innerType "content_block_delta" then
    let delta := getProp event "delta" in
    takeText (isStr (optChain delta "type") "text_delta") (optChain delta "text") d
  else if isStr innerType "message_delta" then
    Returns (takeUsageOpt (getProp event "usage") d)
  else Returns d.

(** what the [result] branch assigns before it calls [finalize] *)
Definition takeResult (event : Json) (d : Decoder number) : Decoder number :=
  let d := set_sessionId (coalesce (getProp event "session_id") (sessionId d)) d in
  let d := set_costUsd (coalesce (getProp event "cost_usd") (costUsd d)) d in
  let d := set_durationMs (coalesce (getProp event "duration_ms") (durationMs d)) d in
  let d := set_resultText (coalesce (getProp event "result") (resultText d)) d in
  let d := takeUsageOpt (getProp event "usage") d in
  let totalCost := getProp event "total_cost" in
  if negb (isNullish totalCost) && isNullish (costUsd d)
  then set_costUsd totalCost d
  else d.

(** the branch of [processLine] for an assistant envelope *)
Definition takeAssistant (event : Json) (d : Decoder number)
  : Completion (Decoder number) :=
  let message := getProp event "message" in
  andThen (takeContent message d)
    (fun d =>
       let d := takeUsageOpt (optChain message "usage") d in
       Returns (set_sessionId (coalesce (getProp event "session_id") (sessionId d)) d)).

(** the branches of [processLine], by [event.type] *)
Definition takeEvent (event : Json) (d : Decoder number)
  : Completion (Decoder number) :=
  let eventType := getProp event "type" in
  if isStr eventType "result" then finalize (takeResult event d)
  else if isStr eventType "assistant" then takeAssistant event d
  else if isStr eventType "stream_event" then
    match getProp event "event" with
    | Some inner =>
        if truthy (Some inner) then processStreamEvent inner d else Returns d
    | None => Returns d
    end
  else if isStr eventType "system" then
    let d := set_sessionId (coalesce (getProp event "session_id") (sessionId d)) d in
    if isStr (getProp event "subtype") "compact_boundary"
    then Returns (set_compactionDetected true d)
    else Returns d
  else if isStr eventType "compact_boundary" then
    Returns (set_compactionDetected true d)
  else Returns d.

(** [processLine] from [const eventType = event.type] on: the access
    throws on null *)
Definition processEvent (event : Json) (d : Decoder number)
  : Completion (Decoder number) :=
  match event with
  | JNull => Throws d
  | _ => takeEvent event d
  end.

Definition processLine (line : string) (d : Decoder number)
  : Completion (Decoder number) :=
  let trimmed := trim line in
  if negb (truthyStr trimmed) then Returns d
  else
    match JSON_parse trimmed with
    | None => Returns d
    | Some event => processEvent event d
    end.

(** ** The stream handlers *)

(** [for (const line of lines) { processLine(line); if (resolved) return; }] *)
Fixpoint processLines (lines : list string) (d : Decoder number)
  : Completion (Decoder number) :=
  match lines with
  | [] => Returns d
  | line :: rest =>
      andThen (processLine line d)
        (fun d => if resolved d then Returns d else processLines rest d)
  end.

Definition onDataHandler (chunk : Chunk) (d : Decoder number)
  : Completion (Decoder number) :=
  if resolved d then Returns d
  else
    let d := set_buffer (buffer d +++ chunkText chunk) d in
    let lines := split_LF (buffer d) in
    let d := set_buffer (last lines "") d in
    processLines (removelast lines) d.

Definition onEndHandler (d : Decoder number) : Completion (Decoder number) :=
  andThen (if truthyStr (trim (buffer d)) then processLine (buffer d) d else Returns d)
    (fun d => if negb (resolved d) then finalize d else Returns d).

Definition onErrorHandler (message : string) (d : Decoder number)
  : Completion (Decoder number) :=
  if resolved d then Returns d
  else
    let d := set_resolved true d in
    let d := detachListeners d in
    Returns (onReject "stream error while read of brain output" message d).

(** the handler wired for an event of [stdout] *)
Definition handle (e : StreamEvent) (d : Decoder number) : Completion (Decoder number) :=
  match e with
  | Data chunk => onDataHandler chunk d
  | End => onEndHandler d
  | Error message => onErrorHandler message d
  end.

(** one event of [stdout], delivered: what a handler throws goes to the
    emitter of the event, and the captured variables stay as the handler
    left them *)
Definition deliver (d : Decoder number) (e : StreamEvent) : Decoder number :=
  after (handle e d).

(** the decoder after the events of a stream, in order *)
Definition decode (events : list StreamEvent) (d : Decoder number) : Decoder number :=
  fold_left deliver events d.

(** ** The stream as text *)

Definition concatAll (parts : list string) : string :=
  fold_right String.append "" parts.

(** what the [data] events of a stream carry, each chunk as its handler
    reads it, concatenated *)
Fixpoint streamText (events : list StreamEvent) : string :=
  match events with
  | [] => EmptyString
  | Data chunk :: rest => chunkText chunk +++ streamText rest
  | _ :: rest => streamText rest
  end.

(** the lines of a text that a line feed ends *)
Definition completeLines (text : string) : list string :=
  removelast (split_LF text).

(** the text after the last line feed *)
Definition trailingLine (text : string) : string := last (split_LF text) "".

(** the value of a line, if the line is not blank and is JSON *)
Definition envelopeOf (line : string) : option Json :=
  if truthyStr (trim line) then JSON_parse (trim line) else None.

(** the value is an envelope of the given kind *)
Definition kindIs (event : Json) (kind : string) : bool :=
  isStr (getProp event "type") kind.

(** [processLine] takes the [result] branch on the line *)
Definition isResultLine (line : string) : bool :=
  match envelopeOf line with
  | Some event => kindIs event "result"
  | None => false
  end.

(** the line is not JSON, or a value without a session_id that is not
    null *)
Definition lacksSessionId (line : string) : bool :=
  match JSON_parse (trim line) with
  | Some event => isNullish (getProp event "session_id")
  | None => true
  end.

(** ** Lines on which [processLine] throws

    Outside the [result] branch, whether [processLine] throws is decided
    by the line alone. *)

Definition textThrows (cond : bool) (text : option Json) : bool :=
  match text with
  | Some v =>
      cond && truthy text &&
      match toPlus v with
      | Some _ => false
      | None => true
      end
  | None => false
  end.

Definition blockThrows (block : Json) : bool :=
  match block with
  | JNull => true
  | _ => textThrows (isStr (getProp block "type") "text") (getProp block "text")
  end.

Definition contentThrows (message : option Json) : bool :=
  match optChain message "content" with
  | Some content =>
      truthy (Some content) &&
      match iterate content with
      | Some blocks => existsb blockThrows blocks
      | None => true
      end
  | None => false
  end.

Definition innerThrows (inner : Json) : bool :=
  if isStr (getProp inner "type") "message_start" then false
  else if isStr (getProp inner "type") "content_block_delta" then
    textThrows (isStr (optChain (getProp inner "delta") "type") "text_delta")
      (optChain (getProp inner "delta") "text")
  else false.

Definition branchThrows (event : Json) : bool :=
  if kindIs event "result" then false
  else if kindIs event "assistant" then contentThrows (getProp event "message")
  else if kindIs event "stream_event" then
    match getProp event "event" with
    | Some inner => truthy (Some inner) && innerThrows inner
    | None => false
    end
  else false.

Definition eventThrows (event : Json) : bool :=
  match event with
  | JNull => true
  | _ => branchThrows event
  end.

(** the line is JSON null, or an assistant envelope or a text delta whose
    text cannot be taken *)
Definition lineThrows (line : string) : bool :=
  match envelopeOf line with
  | Some event => eventThrows event
  | None => false
  end.

(** the decoder after the given lines, one [processLine] each *)
Definition absorb (lines : list string) (d : Decoder number) : Decoder number :=
  fold_left (fun d line => after (processLine line d)) lines d.

(** ** What a stream says

    The text and the session id of a stream, line by line, after the
    table of envelope kinds of the specification: an [assistant] envelope
    adds its text blocks and a [content_block_delta] of kind [text_delta]
    adds its text; [system], [assistant] and [result] envelopes carry the
    session id. *)

Definition textOf (cond : bool) (text : option Json) : string :=
  match text with
  | Some v => if cond && truthy text then nullishOr (toPlus v) "" else ""
  | None => ""
  end.

Definition blockText (block : Json) : string :=
  textOf (isStr (getProp block "type") "text") (getProp block "text").

Definition contentText (message : option Json) : string :=
  match optChain message "content" with
  | Some content =>
      if truthy (Some content)
      then concatAll (map blockText (nullishOr (iterate content) []))
      else ""
  | None => ""
  end.

Definition innerText (inner : Json) : string :=
  if isStr (getProp inner "type") "message_start" then ""
  else if isStr (getProp inner "type") "content_block_delta" then
    textOf (isStr (optChain (getProp inner "delta") "type") "text_delta")
      (optChain (getProp inner "delta") "text")
  else "".

Definition eventText (event : Json) : string :=
  if kindIs event "result" then ""
  else if kindIs event "assistant" then contentText (getProp event "message")
  else if kindIs event "stream_event" then
    match getProp event "event" with
    | Some inner => if truthy (Some inner) then innerText inner else ""
    | None => ""
    end
  else "".

Definition eventSessionId (event : Json) : option Json :=
  if kindIs event "result" || kindIs event "assistant" || kindIs event "system"
  then getProp event "session_id"
  else None.

Definition lineText (line : string) : string :=
  match envelopeOf line with
  | Some event => eventText event
  | None => ""
  end.

Definition lineSessionId (line : string) : option Json :=
  match envelopeOf line with
  | Some event => eventSessionId event
  | None => None
  end.

(** the incremental text of the lines, in order *)
Definition textOfLines (lines : list string) : string :=
  concatAll (map lineText lines).

(** the session id the lines leave, starting from [seen] *)
Definition sessionIdAfter (lines : list string) (seen : option Json)
  : option Json :=
  fold_left (fun seen line => coalesce (lineSessionId line) seen) lines seen.

(** ** Relations between two states of the decoder *)

(** the decoder was settled exactly once and detached its listeners
    exactly once *)
Definition finalizedOnce (d : Decoder number) : Prop :=
  resolved d = true /\ length (settled d) = 1 /\ detachCalls d = 1.

(** from [d] to [d'] nothing was settled or detached, and the buffer and
    what only a [result] envelope assigns are the same *)
Definition sameControl (d d' : Decoder number) : Prop :=
  resolved d' = resolved d /\ settled d' = settled d
  /\ detachCalls d' = detachCalls d /\ buffer d' = buffer d
  /\ resultText d' = resultText d /\ costUsd d' = costUsd d
  /\ durationMs d' = durationMs d.

(** from [d] to [d'] nothing was settled or detached, and the buffer is
    the same *)
Definition sameFlow (d d' : Decoder number) : Prop :=
  resolved d' = resolved d /\ settled d' = settled d
  /\ detachCalls d' = detachCalls d /\ buffer d' = buffer d.

(** from [d] to [d'] the decoder either did not finalize, or went from
    unresolved to resolved with one detachment and at most one
    settlement *)
Definition advance (d d' : Decoder number) : Prop :=
  (resolved d' = resolved d /\ settled d' = settled d
   /\ detachCalls d' = detachCalls d)
  \/ (resolved d = false /\ resolved d' = true
      /\ detachCalls d' = S (detachCalls d)
      /\ (settled d' = settled d
          \/ exists settlement, settled d' = settled d ++ [settlement])).

End StreamDecoder.

(* ================================================================== *)
(** * The handle: genBrainCli *)

Module GenBrainCli.

Inductive BrainCliMode : Type := Dispatch | Interact.

Inductive TaskMode : Type := Ask | Act.

(** AnthropicBrainCliConfig *)
Record Config : Type := mkConfig {
  config_slug : string;
  config_binary : string;
  config_model : string;
  config_spec : BrainSpec;
  config_tools_ask : list string;
  config_tools_act : list string
}.

Definition config_tools (config : Config) (taskMode : TaskMode) : list string :=
  match taskMode with
  | Ask => config_tools_ask config
  | Act => config_tools_act config
  end.

(** [input.series?.exid], when truthy *)
Definition resumeArgs (series : option BrainSeries) : list string :=
  match series with
  | Some s =>
      match series_exid s with
      | Some exid => if truthyStr exid then ["--resume"; exid] else []
      | None => []
      end
  | None => []
  end.

Definition getOneDispatchArgs (config : Config) (taskMode : TaskMode)
  (series : option BrainSeries) : list string :=
  ["-p"; "--model"; config_model config; "--output-format"; "stream-json";
   "--input-format"; "stream-json"; "--verbose"]
  ++ ["--allowedTools"; join "," (config_tools config taskMode)]
  ++ resumeArgs series.

Definition getOneInteractArgs (config : Config) (series : option BrainSeries)
  : list string :=
  ["--model"; config_model config] ++ resumeArgs series.

(** [executor.instance] *)
Record Instance : Type := mkInstance {
  pid : nat;
  mode : BrainCliMode
}.

(** what exit listeners receive *)
Record ExitInfo : Type := mkExitInfo {
  code : nat;
  signal : option string
}.

(** the message [ask] and [act] serialize onto stdin *)
Record UserMessage : Type := mkUserMessage {
  content : string;
  session_id : option string
}.

(** What the handle does to the world, in order.  A process object is
    named by the index of its spawn among all spawns of the handle, so two
    references are equal exactly when they are the same object.
    [ExitNotified] is not an action of the handle: it marks, in the same
    order, the moment the exit notification of a process is delivered. *)
Inductive Effect : Type :=
| Spawn (proc : nat) (binary : string) (args : list string)
| PtySpawn (proc : nat) (binary : string) (args : list string)
| Kill (proc : nat) (signal : string)
| PtyKill (proc : nat)
| StdinWrite (proc : nat) (data : string)
| PtyWrite (proc : nat) (data : string)
| PtyResize (proc : nat) (cols rows : nat)
| DataCallback (cb : nat) (text : string)
| ExitCallback (cb : nat) (info : ExitInfo)
| ExitNotified (proc : nat).

(** The mutable handle state of the closure, the allocator of process
    objects and the effects so far.  Registered callbacks are named by
    numbers. *)
Record Supervisor : Type := mkSupervisor {
  instance : option Instance;
  series : option BrainSeries;
  lastTaskMode : option TaskMode;
  childProcess : option nat;
  ptyProcess : option nat;
  dataListeners : list nat;
  exitListeners : list nat;
  spawnCount : nat;
  effects : list Effect
}.

Definition set_instance (v : option Instance) (s : Supervisor) : Supervisor :=
  mkSupervisor v (series s) (lastTaskMode s) (childProcess s) (ptyProcess s)
    (dataListeners s) (exitListeners s) (spawnCount s) (effects s).

Definition set_series (v : option BrainSeries) (s : Supervisor) : Supervisor :=
  mkSupervisor (instance s) v (lastTaskMode s) (childProcess s) (ptyProcess s)
    (dataListeners s) (exitListeners s) (spawnCount s) (effects s).

Definition set_lastTaskMode (v : option TaskMode) (s : Supervisor) : Supervisor :=
  mkSupervisor (instance s) (series s) v (childProcess s) (ptyProcess s)
    (dataListeners s) (exitListeners s) (spawnCount s) (effects s).

Definition set_childProcess (v : option nat) (s : Supervisor) : Supervisor :=
  mkSupervisor (instance s) (series s) (lastTaskMode s) v (ptyProcess s)
    (dataListeners s) (exitListeners s) (spawnCount s) (effects s).

Definition set_ptyProcess (v : option nat) (s : Supervisor) : Supervisor :=
  mkSupervisor (instance s) (series s) (lastTaskMode s) (childProcess s) v
    (dataListeners s) (exitListeners s) (spawnCount s) (effects s).

Definition set_dataListeners (v : list nat) (s : Supervisor) : Supervisor :=
  mkSupervisor (instance s) (series s) (lastTaskMode s) (childProcess s)
    (ptyProcess s) v (exitListeners s) (spawnCount s) (effects s).

Definition set_exitListeners (v : list nat) (s : Supervisor) : Supervisor :=
  mkSupervisor (instance s) (series s) (lastTaskMode s) (childProcess s)
    (ptyProcess s) (dataListeners s) v (spawnCount s) (effects s).

Definition set_spawnCount (v : nat) (s : Supervisor) : Supervisor :=
  mkSupervisor (instance s) (series s) (lastTaskMode s) (childProcess s)
    (ptyProcess s) (dataListeners s) (exitListeners s) v (effects s).

Definition set_effects (v : list Effect) (s : Supervisor) : Supervisor :=
  mkSupervisor (instance s) (series s) (lastTaskMode s) (childProcess s)
    (ptyProcess s) (dataListeners s) (exitListeners s) (spawnCount s) v.

(** the result of a call on the handle: it returned, it threw an
    UnexpectedCodePathError, or its promise has not settled *)
Inductive Call (A : Type) : Type :=
| Returned (value : A) (s : Supervisor)
| Threw (message : string) (s : Supervisor)
| Pending (s : Supervisor).

Arguments Threw {A} message s.
Arguments Pending {A} s.

(** what the environment delivers to the handle *)
Inductive Event : Type :=
| CallBoot (mode : BrainCliMode)
| CallKill
| ChildData (text : string)
| PtyData (data : string)
| ChildExit (proc : nat) (code : option nat) (signal : option string)
| PtyExit (proc : nat) (exitCode : nat) (signal : option nat).

(** Reading a log of effects: no process is spawned while [waiting], the
    processes whose termination was requested and whose exit was not yet
    notified, is not empty. *)
Fixpoint awaitsExits (waiting : list nat) (log : list Effect) : bool :=
  match log with
  | [] => true
  | Kill proc _ :: rest => awaitsExits (proc :: waiting) rest
  | PtyKill proc :: rest => awaitsExits (proc :: waiting) rest
  | ExitNotified proc :: rest =>
      awaitsExits (filter (fun p => negb (Nat.eqb p proc)) waiting) rest
  | Spawn _ _ _ :: rest =>
      match waiting with
      | [] => awaitsExits [] rest
      | _ :: _ => false
      end
  | PtySpawn _ _ _ :: rest =>
      match waiting with
      | [] => awaitsExits [] rest
      | _ :: _ => false
      end
  | _ :: rest => awaitsExits waiting rest
  end.

Section Handle.
Context {number : Type} {jsNumber : JsNumber number}.
Context {digest : Digest} {codec : JsonCodec number}.
Variable config : Config.
(** the pid the operating system gives to the n-th spawned process *)
Variable pidOf : nat -> nat.
(** [JSON.stringify] of the user message *)
Variable JSON_stringify : UserMessage -> string.

Definition init : Supervisor :=
  {| instance := None;
     series := None;
     lastTaskMode := None;
     childProcess := None;
     ptyProcess := None;
     dataListeners := [];
     exitListeners := [];
     spawnCount := 0;
     effects := [] |}.

Definition perform (e : Effect) (s : Supervisor) : Supervisor :=
  set_effects (effects s ++ [e]) s.

Definition performAll (es : list Effect) (s : Supervisor) : Supervisor :=
  set_effects (effects s ++ es) s.

(** ** The hooks wired on a spawned process *)

(** stdout or stderr data of a child, data of a pty:
    [for (const cb of dataListeners) cb(text)] *)
Definition onProcData (text : string) (s : Supervisor) : Supervisor :=
  performAll (map (fun cb => DataCallback cb text) (dataListeners s)) s.

(** the exit hook [wireChildProcessHooks] puts on [proc] *)
Definition onChildExit (proc : nat) (code : option nat) (signal : option string)
  (s : Supervisor) : Supervisor :=
  match childProcess s with
  | Some current =>
      if Nat.eqb current proc then
        let s := set_instance None s in
        let s := set_childProcess None s in
        let info := {| code := nullishOr code 1; signal := signal ?? None |} in
        performAll (map (fun cb => ExitCallback cb info) (exitListeners s)) s
      else s
  | None => s
  end.

(** the exit hook [wirePtyProcessHooks] puts on [proc] *)
Definition onPtyExit (proc : nat) (exitCode : nat) (signal : option nat)
  (s : Supervisor) : Supervisor :=
  match ptyProcess s with
  | Some current =>
      if Nat.eqb current proc then
        let s := set_instance None s in
        let s := set_ptyProcess None s in
        let info := {| code := exitCode; signal := option_map tplNat signal |} in
        performAll (map (fun cb => ExitCallback cb info) (exitListeners s)) s
      else s
  | None => s
  end.

(** ** Process lifecycle *)

Definition killCurrentProcess (s : Supervisor) : Supervisor :=
  let s :=
    match childProcess s with
    | Some proc => perform (Kill proc "SIGTERM") s
    | None => s
    end in
  let s :=
    match ptyProcess s with
    | Some proc => perform (PtyKill proc) s
    | None => s
    end in
  set_instance None s.

(** the dispatch branch of [boot], after [killCurrentProcess] *)
Definition spawnDispatch (s : Supervisor) : Supervisor :=
  let taskMode := nullishOr (lastTaskMode s) Ask in
  let s := set_lastTaskMode (Some taskMode) s in
  let args := getOneDispatchArgs config taskMode (series s) in
  let proc := spawnCount s in
  let s := set_spawnCount (S proc) s in
  let s := perform (Spawn proc (config_binary config) args) s in
  let s := set_childProcess (Some proc) s in
  set_instance (Some {| pid := pidOf proc; mode := Dispatch |}) s.

(** the interact branch of [boot], after [killCurrentProcess] *)
Definition spawnInteract (s : Supervisor) : Supervisor :=
  let args := getOneInteractArgs config (series s) in
  let proc := spawnCount s in
  let s := set_spawnCount (S proc) s in
  let s := perform (PtySpawn proc (config_binary config) args) s in
  let s := set_ptyProcess (Some proc) s in
  set_instance (Some {| pid := pidOf proc; mode := Interact |}) s.

(** [executor.boot]; its promise resolves with no value *)
Definition boot (bootMode : BrainCliMode) (s : Supervisor) : Supervisor :=
  let s := killCurrentProcess s in
  match bootMode with
  | Dispatch => spawnDispatch s
  | Interact => spawnInteract s
  end.

(** [executor.kill] *)
Definition kill (s : Supervisor) : Supervisor := killCurrentProcess s.

(** ** Dispatch *)

Definition userLine (prompt : string) (s : Supervisor) : string :=
  JSON_stringify
    {| content := prompt;
       session_id := match series s with
                     | Some sr => series_exid sr
                     | None => None
                     end |}
  +++ String LF EmptyString.

(** the stdout hook of the child sees the chunks the decoder sees *)
Definition relay (s : Supervisor) (e : StreamEvent) : Supervisor :=
  match e with
  | Data chunk => onProcData (chunkText chunk) s
  | _ => s
  end.

(** [await getOneBrainOutputFromStreamJson(...)] then [series = ...],
    where [events] is what the stdout of the child emits from then on and
    nothing else is delivered meanwhile *)
Definition collect (prompt : string) (events : list StreamEvent) (s : Supervisor)
  : Call (BrainOutput number) :=
  let input :=
    {| prompt := prompt; spec := config_spec config; seriesPrior := series s |} in
  let s := fold_left relay events s in
  match settled (decode input events decoderInit) with
  | Resolved brainOutput :: _ =>
      Returned brainOutput (set_series (Some (output_series brainOutput)) s)
  | Rejected message _ :: _ => Threw message s
  | [] => Pending s
  end.

Definition ask (prompt : string) (events : list StreamEvent) (s : Supervisor)
  : Call (BrainOutput number) :=
  match instance s with
  | None => Threw "cannot ask: no live process. call executor.boot first" s
  | Some inst =>
      match mode inst with
      | Interact =>
          Threw "cannot ask: handle is in interact mode. boot dispatch first" s
      | Dispatch =>
          let s :=
            match lastTaskMode s with
            | Some Ask => s
            | _ => boot Dispatch (set_lastTaskMode (Some Ask) s)
            end in
          match childProcess s with
          | None => Threw "dispatch process has no stdin" s
          | Some proc =>
              let s := perform (StdinWrite proc (userLine prompt s)) s in
              collect prompt events s
          end
      end
  end.

Definition act (prompt : string) (events : list StreamEvent) (s : Supervisor)
  : Call (BrainOutput number) :=
  match instance s with
  | None => Threw "cannot act: no live process. call executor.boot first" s
  | Some inst =>
      match mode inst with
      | Interact =>
          Threw "cannot act: handle is in interact mode. boot dispatch first" s
      | Dispatch =>
          let s :=
            match lastTaskMode s with
            | Some Act => s
            | _ => boot Dispatch (set_lastTaskMode (Some Act) s)
            end in
          match childProcess s with
          | None => Threw "dispatch process has no stdin" s
          | Some proc =>
              let s := perform (StdinWrite proc (userLine prompt s)) s in
              collect prompt events s
          end
      end
  end.

(** ** Terminal *)

(** [terminal.write] *)
Definition write (data : string) (s : Supervisor) : Call unit :=
  match instance s with
  | None => Threw "cannot write: no live process" s
  | Some inst =>
      match mode inst, childProcess s, ptyProcess s with
      | Dispatch, Some proc, _ => Returned tt (perform (StdinWrite proc data) s)
      | Interact, _, Some proc => Returned tt (perform (PtyWrite proc data) s)
      | _, _, _ => Threw "cannot write: process handle not available" s
      end
  end.


(** [terminal.onData] *)
Definition onData (cb : nat) (s : Supervisor) : Supervisor :=
  set_dataListeners (dataListeners s ++ [cb]) s.

(** [terminal.onExit] *)
Definition onExit (cb : nat) (s : Supervisor) : Supervisor :=
  set_exitListeners (exitListeners s ++ [cb]) s.

(** ** Histories *)

(** An event is delivered when the handle is idle.  [boot] is the call
    awaited to its end; its dispatch branch runs without suspension, and
    nothing is delivered while its interact branch awaits the import of
    node-pty. *)
Definition step (s : Supervisor) (e : Event) : Supervisor :=
  match e with
  | CallBoot bootMode => boot bootMode s
  | CallKill => kill s
  | ChildData text => onProcData text s
  | PtyData data => onProcData data s
  | ChildExit proc code signal =>
      onChildExit proc code signal (perform (ExitNotified proc) s)
  | PtyExit proc exitCode signal =>
      onPtyExit proc exitCode signal (perform (ExitNotified proc) s)
  end.

Definition run (history : list Event) (s : Supervisor) : Supervisor :=
  fold_left step history s.

(** the termination requests [killCurrentProcess] makes in [s] *)
Definition killRequests (s : Supervisor) : list Effect :=
  match childProcess s with
  | Some proc => [Kill proc "SIGTERM"]
  | None => []
  end
  ++ match ptyProcess s with
     | Some proc => [PtyKill proc]
     | None => []
     end.





End Handle.

End GenBrainCli.

(* ================================================================== *)
(** * A reference platform, for concrete runs

    Numbers are exact rationals with a NaN, [parseFloat] reads a signed
    decimal literal, the digest is symbolic, [JSON.parse] knows the
    values of a small table by their text, and the conversions cover the
    values of the runs. *)

Module Reference.

(** [None] is NaN *)
Definition number : Type := option Q.

Definition lift2 (f : Q -> Q -> Q) (a b : number) : number :=
  match a, b with
  | Some x, Some y => Some (Qred (f x y))
  | _, _ => None
  end.

Definition nonZero (a : number) : bool :=
  match a with
  | Some x => negb (Qeq_bool x 0)
  | None => false
  end.

Definition digitOf (c : ascii) : option Z :=
  let n := nat_of_ascii c in
  if (48 <=? n) && (n <=? 57) then Some (Z.of_nat (n - 48)) else None.

(** the digits at the head of [s]: their value after [acc], how many they
    are after [count], and the rest of [s] *)
Fixpoint readDigits (s : string) (acc : Z) (count : nat) : Z * nat * string :=
  match s with
  | EmptyString => (acc, count, EmptyString)
  | String c r =>
      match digitOf c with
      | Some v => readDigits r (acc * 10 + v)%Z (S count)
      | None => (acc, count, s)
      end
  end.

(** the longest prefix of [s] that is a decimal literal, NaN if none *)
Definition parseDecimal (s : string) : number :=
  let '(negative, s1) :=
    match s with
    | String "-"%char r => (true, r)
    | String "+"%char r => (false, r)
    | _ => (false, s)
    end in
  let '(whole, nWhole, s2) := readDigits s1 0%Z 0 in
  let '(frac, nFrac) :=
    match s2 with
    | String "."%char r => let '(v, n, _) := readDigits r 0%Z 0 in (v, n)
    | _ => (0%Z, 0)
    end in
  if nWhole + nFrac =? 0 then None
  else
    let scale := (10 ^ Z.of_nat nFrac)%Z in
    let q := Qred (Qmake (whole * scale + frac) (Z.to_pos scale)) in
    Some (if negative then Qred (Qopp q) else q).

Fixpoint zeros (n : nat) : string :=
  match n with
  | 0 => EmptyString
  | S k => String "0"%char (zeros k)
  end.

(** [x.toFixed(f)]: the nearest multiple of [10^-f], ties away from zero *)
Definition toFixedQ (x : number) (f : nat) : string :=
  match x with
  | None => "NaN"
  | Some q =>
      let a := Z.abs (Qnum q) in
      let b := Zpos (Qden q) in
      let scale := (10 ^ Z.of_nat f)%Z in
      let n := ((2 * a * scale + b) / (2 * b))%Z in
      let digits := NilZero.string_of_uint (N.to_uint (Z.to_N n)) in
      let padded := zeros (S f - String.length digits) +++ digits in
      let cut := String.length padded - f in
      (if (Qnum q <? 0)%Z then "-" else "")
      +++ substring 0 cut padded
      +++ (if f =? 0 then "" else "." +++ substring cut f padded)
  end.

#[export] Instance exactNumber : JsNumber number :=
  {| num_zero := Some 0%Q;
     num_add := lift2 Qplus;
     num_mul := lift2 Qmult;
     num_truthy := nonZero;
     num_of_nat := fun n => Some (inject_Z (Z.of_nat n));
     num_of_json := parseDecimal;
     parseFloat := parseDecimal;
     toFixed := toFixedQ |}.

(** the digest of [x] is the term [sha256(x)] *)
#[export] Instance symbolicDigest : Digest :=
  {| sha256 := fun x => "sha256(" +++ x +++ ")" |}.

(** ** JSON text *)

Definition quote : string := String "034"%char EmptyString.

Definition jsonString (s : string) : string := quote +++ s +++ quote.

Definition jsonField (key value : string) : string := jsonString key +++ ":" +++ value.

Definition jsonObject (fields : list string) : string := "{" +++ join "," fields +++ "}".

(** the JSON text of a value whose strings need no escape *)
Fixpoint stringify (v : Json) : string :=
  match v with
  | JNull => "null"
  | JBool true => "true"
  | JBool false => "false"
  | JNum literal => literal
  | JStr s => jsonString s
  | JArr items => "[" +++ join "," (map stringify items) +++ "]"
  | JObj fields =>
      "{" +++ join ","
                (map (fun field =>
                        match field with
                        | (name, value) => jsonString name +++ ":" +++ stringify value
                        end)
                   fields)
      +++ "}"
  end.

(** [{"type":"system","session_id":"sess-abc-123"}] *)
Definition envelopeSystem : Json :=
  JObj [("type", JStr "system"); ("session_id", JStr "sess-abc-123")].

Definition lineSystem : string := stringify envelopeSystem.

(** [{"type":"assistant","message":{"content":[{"type":"text","text":"partial output"}]}}] *)
Definition envelopeAssistant : Json :=
  JObj [("type", JStr "assistant");
        ("message",
         JObj [("content",
                JArr [JObj [("type", JStr "text"); ("text", JStr "partial output")]])])].

Definition lineAssistant : string := stringify envelopeAssistant.

(** [{"type":"result","result":"the answer is 4","session_id":"sess-abc-123","cost_usd":0.003,"duration_ms":1234}] *)
Definition envelopeResult : Json :=
  JObj [("type", JStr "result");
        ("result", JStr "the answer is 4");
        ("session_id", JStr "sess-abc-123");
        ("cost_usd", JNum "0.003");
        ("duration_ms", JNum "1234")].

Definition lineResult : string := stringify envelopeResult.

(** [{"type":"stream_event","event":{"type":"message_delta","usage":{"input_tokens":500,"output_tokens":20}}}] *)
Definition envelopeUsage : Json :=
  JObj [("type", JStr "stream_event");
        ("event",
         JObj [("type", JStr "message_delta");
               ("usage",
                JObj [("input_tokens", JNum "500"); ("output_tokens", JNum "20")])])].

Definition lineUsage : string := stringify envelopeUsage.

(** [null] *)
Definition lineNull : string := stringify JNull.

(** [{"type":"assistant","message":{"content":[{"type":"text","text":"kept"},null,{"type":"text","text":"lost"}]}}] *)
Definition envelopeNullBlock : Json :=
  JObj [("type", JStr "assistant");
        ("message",
         JObj [("content",
                JArr [JObj [("type", JStr "text"); ("text", JStr "kept")];
                      JNull;
                      JObj [("type", JStr "text"); ("text", JStr "lost")]])])].

Definition lineNullBlock : string := stringify envelopeNullBlock.

(** [{"type":"result","result":"done","cost_usd":0.00000000004}] *)
Definition envelopeTinyCost : Json :=
  JObj [("type", JStr "result");
        ("result", JStr "done");
        ("cost_usd", JNum "0.00000000004")].

Definition lineTinyCost : string := stringify envelopeTinyCost.

(** [{"type":"result","result":"done","cost_usd":"0.003"}] *)
Definition envelopeTextCost : Json :=
  JObj [("type", JStr "result");
        ("result", JStr "done");
        ("cost_usd", JStr "0.003")].

Definition lineTextCost : string := stringify envelopeTextCost.

(** the values the codec of the runs knows; every other text is not JSON
    to it *)
Definition knownValues : list Json :=
  [envelopeSystem; envelopeAssistant; envelopeResult; envelopeUsage; JNull;
   envelopeNullBlock; envelopeTinyCost; envelopeTextCost].

Fixpoint lookupLine (table : list Json) (text : string) : option Json :=
  match table with
  | [] => None
  | value :: rest =>
      if String.eqb (stringify value) text then Some value else lookupLine rest text
  end.

(** the string of a value that is not a string, for the values of the
    runs: null, booleans and numbers written as their literal *)
Definition plainString (v : Json) : option string :=
  match v with
  | JNull => Some "null"
  | JBool true => Some "true"
  | JBool false => Some "false"
  | JNum literal => Some literal
  | JStr s => Some s
  | JArr _ => None
  | JObj _ => Some "[object Object]"
  end.

(** the number of a value that is not a number, for the values of the
    runs: null and booleans; NaN for the others *)
Definition plainNumber (v : Json) : option number :=
  match v with
  | JNull => Some (Some 0%Q)
  | JBool true => Some (Some 1%Q)
  | JBool false => Some (Some 0%Q)
  | JNum literal => Some (parseDecimal literal)
  | _ => Some None
  end.

(** a byte below 128 is its character; the bytes of the runs are *)
Definition asciiText (bytes : list byte) : string :=
  string_of_list_ascii (map ascii_of_byte bytes).

#[export] Instance tableCodec : JsonCodec number :=
  {| JSON_parse := lookupLine knownValues;
     templateString := plainString;
     plusString := plainString;
     timesNumber := plainNumber;
     Buffer_toString := asciiText |}.

(** ** Inputs *)

Definition newline : string := String LF EmptyString.

Definition demoRates : CashRates :=
  {| rate_input := "$0.000005";
     rate_output := "$0.000025";
     rate_cache_get := "$0.0000005";
     rate_cache_set := "$0.00000625" |}.

Definition decodeInput : DecodeInput :=
  {| prompt := "what is 2+2?";
     spec := {| spec_cost_cash := demoRates |};
     seriesPrior := None |}.

Definition exchangeOne : BrainExchange :=
  {| exchange_hash := "exchange-1-hash";
     exchange_input := "first prompt";
     exchange_output := JStr "first output";
     exchange_exid := None |}.

Definition exchangeTwo : BrainExchange :=
  {| exchange_hash := "exchange-2-hash";
     exchange_input := "second prompt";
     exchange_output := JStr "second output";
     exchange_exid := None |}.

Definition episodeSame : BrainEpisode :=
  {| episode_hash := "episode-1-hash";
     episode_exid := Some "sess-same";
     episode_exchanges := [exchangeOne] |}.

Definition seriesSame : BrainSeries :=
  {| series_hash := "series-hash";
     series_exid := Some "sess-same";
     series_episodes := [episodeSame] |}.

Definition haikuConfig : GenBrainCli.Config :=
  {| GenBrainCli.config_slug := "claude@anthropic/claude/haiku";
     GenBrainCli.config_binary := "claude";
     GenBrainCli.config_model := "claude-haiku-4-5";
     GenBrainCli.config_spec := {| spec_cost_cash := demoRates |};
     GenBrainCli.config_tools_ask := ["Read"; "Grep"; "Glob"; "WebSearch"; "WebFetch"];
     GenBrainCli.config_tools_act :=
       ["Read"; "Grep"; "Glob"; "Edit"; "Write"; "Bash"; "WebSearch"; "WebFetch"] |}.

(** pids start at 1000 *)
Definition pidOf (n : nat) : nat := 1000 + n.

Definition stringifyUser (m : GenBrainCli.UserMessage) : string :=
  jsonObject
    ([jsonField "type" (jsonString "user");
      jsonField "message"
        (jsonObject [jsonField "role" (jsonString "user");
                     jsonField "content" (jsonString (GenBrainCli.content m))])]
     ++ match GenBrainCli.session_id m with
        | Some sid => [jsonField "session_id" (jsonString sid)]
        | None => []
        end).

(** what a settled decoder resolved with: output, series id, number of
    exchanges per episode, time cost and total cash cost *)
Definition resolvedWith (d : Decoder number)
  : list (option (Json * option string * list nat * Json * string)) :=
  map (fun settlement =>
         match settlement with
         | Resolved out =>
             Some (output out,
                   series_exid (output_series out),
                   map (fun e => length (episode_exchanges e))
                     (series_episodes (output_series out)),
                   cost_time_milliseconds (metrics out),
                   cost_cash_total (metrics out))
         | Rejected _ _ => None
         end)
      (settled d).

Definition emptyOutput : BrainOutput number :=
  {| output := JNull;
     metrics :=
       {| size_tokens_input := JNull;
          size_tokens_output := JNull;
          size_tokens_cache_get := JNull;
          size_tokens_cache_set := JNull;
          size_chars_input := None;
          size_chars_output := None;
          size_chars_cache_get := None;
          size_chars_cache_set := None;
          cost_time_milliseconds := JNull;
          cost_cash_total := "";
          cost_cash_deets_input := "";
          cost_cash_deets_output := "";
          cost_cash_deets_cache_get := "";
          cost_cash_deets_cache_set := "" |};
     output_episode :=
       {| episode_hash := ""; episode_exid := None; episode_exchanges := [] |};
     output_series :=
       {| series_hash := ""; series_exid := None; series_episodes := [] |} |}.

(** the output a decoder resolved its promise with, [emptyOutput] if it
    did not *)
Definition outputOf (d : Decoder number) : BrainOutput number :=
  match settled d with
  | Resolved out :: _ => out
  | _ => emptyOutput
  end.

(** the output of a stream that is the result line *)
Definition outputResult : BrainOutput number :=
  outputOf (decode decodeInput [Data (Text (lineResult +++ newline))] decoderInit).

(** the bytes of a text of the runs *)
Definition bytesOf (text : string) : list byte :=
  map byte_of_ascii (list_ascii_of_string text).

End Reference.

(* ================================================================== *)
(** * The outcome of a stream, line by line *)

Section StreamOutcome.
Context {number : Type} {jsNumber : JsNumber number}.
Context {digest : Digest} {codec : JsonCodec number}.
Variable input : DecodeInput.

(** the value is an envelope of one of the kinds [processLine] has a
    branch for *)
Definition knownKind (event : Json) : bool :=
  kindIs event "result"
  || kindIs event "assistant"
  || kindIs event "stream_event"
  || kindIs event "system"
  || kindIs event "compact_boundary".

(** a line [processLine] returns from without an assignment: blank, not
    JSON, or a value that is not null and not an envelope of a known
    kind *)
Definition isNoise (line : string) : bool :=
  match envelopeOf line with
  | Some JNull => false
  | Some event => negb (knownKind event)
  | None => true
  end.

(** the lines given to [processLine] until one throws or the decoder is
    resolved, then the [finalize] of the end of the stream if it is not *)
Definition settleLines (lines : list string) (d : Decoder number) : Decoder number :=
  after (andThen (processLines input lines d)
           (fun d => if resolved d then Returns d else finalize input d)).

(** no line makes [processLine] throw outside the [result] branch *)
Definition quiet (lines : list string) : bool :=
  forallb (fun line => negb (lineThrows line)) lines.

(** the same completion, of the state with another buffer *)
Definition withBuffer (b : string) (c : Completion (Decoder number))
  : Completion (Decoder number) :=
  match c with
  | Returns d => Returns (set_buffer b d)
  | Throws d => Throws (set_buffer b d)
  end.

(** from [d] to [d'] the compaction flag, if set, is still set and each
    token counter, if truthy, is still truthy *)
Definition observedKept (d d' : Decoder number) : Prop :=
  (compactionDetected d = true -> compactionDetected d' = true)
  /\ (truthy (Some (tokensInput d)) = true -> truthy (Some (tokensInput d')) = true)
  /\ (truthy (Some (tokensOutput d)) = true -> truthy (Some (tokensOutput d')) = true)
  /\ (truthy (Some (tokensCacheGet d)) = true -> truthy (Some (tokensCacheGet d')) = true)
  /\ (truthy (Some (tokensCacheSet d)) = true -> truthy (Some (tokensCacheSet d')) = true).

End StreamOutcome.

(* ================================================================== *)
(** * Brain slugs and the routing to a supplier *)

(** [s.indexOf(c)] for a character, [None] for -1 *)
Fixpoint indexOf (c : ascii) (s : string) : option nat :=
  match s with
  | EmptyString => None
  | String x r => if Ascii.eqb x c then Some 0 else option_map S (indexOf c r)
  end.

(** [s.slice(n)] *)
Fixpoint sliceFrom (n : nat) (s : string) : string :=
  match n, s with
  | 0, _ => s
  | S k, String _ r => sliceFrom k r
  | S _, EmptyString => EmptyString
  end.

(** [s.slice(0, n)] *)
Fixpoint sliceTo (n : nat) (s : string) : string :=
  match n, s with
  | 0, _ => EmptyString
  | S k, String x r => String x (sliceTo k r)
  | S _, EmptyString => EmptyString
  end.

(** [s.indexOf(c) + 1], which is 0 when the character is absent *)
Definition indexAfter (c : ascii) (s : string) : nat :=
  match indexOf c s with
  | Some i => i + 1
  | None => 0
  end.

(** a value, or a BadRequestError with its message *)
Inductive Checked (A : Type) : Type :=
| Passed (value : A)
| BadRequestError (message : string).

Arguments BadRequestError {A} message.

Definition getOneSupplierSlugFromBrainSlug (slug : string) : Checked string :=
  match indexOf "@" slug with
  | None => BadRequestError "invalid brain slug: no @ separator"
  | Some atIndex =>
      let afterAt := sliceFrom (atIndex + 1) slug in
      match indexOf "/" afterAt with
      | None => BadRequestError "invalid brain slug: no / after supplier"
      | Some slashIndex => Passed (sliceTo slashIndex afterAt)
      end
  end.

(** getOneAtomSlug of BrainCli.config *)
Definition getOneAtomSlug (cliSlug : string) : string :=
  let afterAt := sliceFrom (indexAfter "@" cliSlug) cliSlug in
  sliceFrom (indexAfter "/" afterAt) afterAt.

Module BrainCliConfig.
Import GenBrainCli.

Definition TOOLS_ASK : list string := ["Read"; "Grep"; "Glob"; "WebSearch"; "WebFetch"].

Definition TOOLS_ACT : list string :=
  ["Read"; "Grep"; "Glob"; "Edit"; "Write"; "Bash"; "WebSearch"; "WebFetch"].

(** what this package reads of an entry of CONFIG_BY_ATOM_SLUG *)
Record AtomConfig : Type := mkAtomConfig {
  atom_model : string;
  atom_spec : BrainSpec
}.

(** the keys of CONFIG_BY_CLI_SLUG *)
Definition cliSlugs : list string :=
  ["claude@anthropic/claude/haiku";
   "claude@anthropic/claude/sonnet";
   "claude@anthropic/claude/opus";
   "claude@anthropic/claude/haiku/v4.5";
   "claude@anthropic/claude/sonnet/v4";
   "claude@anthropic/claude/sonnet/v4.5";
   "claude@anthropic/claude/opus/v4.5"].

Section Config.
(** CONFIG_BY_ATOM_SLUG of the package rhachet-brains-anthropic *)
Variable CONFIG_BY_ATOM_SLUG : string -> AtomConfig.

Definition getOneConfig (cliSlug : string) : Config :=
  let atomSlug := getOneAtomSlug cliSlug in
  let atomConfig := CONFIG_BY_ATOM_SLUG atomSlug in
  {| config_slug := cliSlug;
     config_binary := "claude";
     config_model := atom_model atomConfig;
     config_spec := atom_spec atomConfig;
     config_tools_ask := TOOLS_ASK;
     config_tools_act := TOOLS_ACT |}.

(** [CONFIG_BY_CLI_SLUG[slug]]: each key is bound to the config built
    from it.  The lookup is read for slugs that are not names of
    properties every object inherits ([constructor], [toString], ...);
    the slugs the router passes on hold an [@] and are none of them. *)
Definition CONFIG_BY_CLI_SLUG (slug : string) : option Config :=
  if existsb (String.eqb slug) cliSlugs then Some (getOneConfig slug) else None.

(** the head of genBrainCli of the supplier: the config the handle is
    built on; the handle starts in the state [init] *)
Definition genAnthropicBrainCli (slug : string) : Checked Config :=
  match CONFIG_BY_CLI_SLUG slug with
  | Some config => Passed config
  | None => BadRequestError "unrecognized anthropic brain CLI slug"
  end.

(** genBrainCli of rhachet: the routing by supplier *)
Definition genBrainCli (slug : string) : Checked Config :=
  match getOneSupplierSlugFromBrainSlug slug with
  | BadRequestError message => BadRequestError message
  | Passed supplierSlug =>
      if String.eqb supplierSlug "anthropic" then genAnthropicBrainCli slug
      else BadRequestError
             ("unsupported brain supplier: '" +++ supplierSlug
              +++ "' (from slug '" +++ slug +++ "')")
  end.

End Config.

(** a table of atom configs for the runs *)
Definition demoAtomConfigs (atomSlug : string) : AtomConfig :=
  {| atom_model := "model:" +++ atomSlug;
     atom_spec :=
       {| spec_cost_cash :=
            {| rate_input := "$0.000005";
               rate_output := "$0.000025";
               rate_cache_get := "$0.0000005";
               rate_cache_set := "$0.00000625" |} |} |}.

End BrainCliConfig.

(* ================================================================== *)
(** * The states a handle reaches *)

Module HandleReach.
Import GenBrainCli.

(** the handle after a call *)
Definition callState {A : Type} (c : Call A) : Supervisor :=
  match c with
  | Returned _ s => s
  | Threw _ s => s
  | Pending s => s
  end.

Section Reach.
Context {number : Type} {jsNumber : JsNumber number}.
Context {digest : Digest} {codec : JsonCodec number}.
Variable config : Config.
Variable pidOf : nat -> nat.
Variable JSON_stringify : UserMessage -> string.




End Reach.

End HandleReach.

(* ================================================================== *)
(** * Facts about lists and strings *)

Lemma lastOpt_app {A : Type} (l : list A) (x : A) : lastOpt (l ++ [x]) = Some x.
Proof.
  unfold lastOpt. rewrite map_app. simpl. apply last_last.
Qed.

Lemma lastOpt_inv {A : Type} (l : list A) (x : A) :
  lastOpt l = Some x -> l = sliceInit l ++ [x].
Proof.
  unfold lastOpt, sliceInit.
  destruct l as [|a l] using rev_ind; simpl.
  - discriminate.
  - rewrite map_app. simpl. rewrite last_last. intros [= ->].
    now rewrite removelast_last.
Qed.

Lemma length_sliceInit_snoc {A : Type} (l : list A) (x y : A) :
  lastOpt l = Some x -> length (sliceInit l ++ [y]) = length l.
Proof.
  intros H. rewrite (lastOpt_inv l H) at 2. now rewrite !length_app.
Qed.


Lemma append_assoc (a b c : string) : (a +++ b) +++ c = a +++ (b +++ c).
Proof. induction a as [|x a IH]; simpl; [reflexivity | now rewrite IH]. Qed.

Lemma append_empty_r (a : string) : a +++ "" = a.
Proof. induction a as [|x a IH]; simpl; [reflexivity | now rewrite IH]. Qed.

Lemma last_app_nonempty {A : Type} (l r : list A) (d : A) :
  r <> [] -> last (l ++ r) d = last r d.
Proof.
  intros H. destruct (exists_last H) as (r' & x & ->).
  now rewrite app_assoc, !last_last.
Qed.

(** ** Line framing *)

Lemma split_LF_nonempty (s : string) : split_LF s <> [].
Proof.
  destruct s as [|c r]; simpl; [discriminate|].
  destruct (Ascii.eqb c LF); [discriminate|].
  destruct (split_LF r); discriminate.
Qed.

Lemma split_LF_frames (s : string) :
  split_LF s = removelast (split_LF s) ++ [last (split_LF s) ""].
Proof. apply app_removelast_last, split_LF_nonempty. Qed.

(** splitting a text in two pieces: the lines of the first piece, then the
    lines of its unfinished last line followed by the second piece *)
Lemma split_LF_app (a b : string) :
  split_LF (a +++ b)
  = removelast (split_LF a) ++ split_LF (last (split_LF a) "" +++ b).
Proof.
  induction a as [|c r IH]; [reflexivity|].
  change (String c r +++ b) with (String c (r +++ b)).
  cbn [split_LF]. destruct (Ascii.eqb c LF) eqn:E.
  - rewrite IH.
    destruct (split_LF r) as [|h t] eqn:S; [now apply split_LF_nonempty in S|].
    reflexivity.
  - rewrite IH.
    destruct (split_LF r) as [|h t] eqn:S; [now apply split_LF_nonempty in S|].
    destruct t as [|h2 t2].
    + cbn [removelast last app].
      change (String c h +++ b) with (String c (h +++ b)).
      cbn [split_LF]. now rewrite E.
    + reflexivity.
Qed.

Lemma removelast_split_LF_app (a b : string) :
  removelast (split_LF (a +++ b))
  = removelast (split_LF a) ++ removelast (split_LF (last (split_LF a) "" +++ b)).
Proof.
  rewrite split_LF_app. apply removelast_app, split_LF_nonempty.
Qed.

Lemma last_split_LF_app (a b : string) :
  last (split_LF (a +++ b)) "" = last (split_LF (last (split_LF a) "" +++ b)) "".
Proof.
  rewrite split_LF_app. apply last_app_nonempty, split_LF_nonempty.
Qed.

(** the text after the last line feed holds no line feed *)
Lemma split_LF_last (s : string) :
  split_LF (last (split_LF s) "") = [last (split_LF s) ""].
Proof.
  induction s as [|c r IH]; [reflexivity|].
  cbn [split_LF]. destruct (Ascii.eqb c LF) eqn:E.
  - destruct (split_LF r) as [|h t] eqn:S; [now apply split_LF_nonempty in S|].
    exact IH.
  - destruct (split_LF r) as [|h t] eqn:S; [now apply split_LF_nonempty in S|].
    destruct t as [|h2 t2].
    + cbn [last] in *. cbn [split_LF]. rewrite E, IH. reflexivity.
    + exact IH.
Qed.

(* ================================================================== *)
(** * Facts about the reconciliation *)

Section ReconciliationFacts.
Context {digest : Digest}.

(** with the compaction flag set the exchange never continues an episode *)
Lemma compaction_excludes_continuation (prior : option BrainSeries)
  (sid : option string) : isSameContextWindow prior sid true = false.
Proof. reflexivity. Qed.

(** the three situations the specification lists for a new window *)
Lemma no_session_is_new_window (prior : option BrainSeries) (compaction : bool) :
  isSameContextWindow prior None compaction = false
  /\ isCompactionSplit prior None compaction = false.
Proof.
  unfold isCompactionSplit, isSameContextWindow.
  destruct compaction, (episodeLatest prior); simpl; auto.
Qed.

Lemma no_prior_episode_is_new_window (prior : option BrainSeries)
  (sid : option string) (compaction : bool) :
  episodeLatest prior = None ->
  isSameContextWindow prior sid compaction = false
  /\ isCompactionSplit prior sid compaction = false.
Proof.
  intros H. unfold isCompactionSplit, isSameContextWindow. rewrite H.
  destruct compaction, sid; simpl; auto.
Qed.

Lemma other_session_is_new_window (prior : option BrainSeries)
  (latest : BrainEpisode) (sid : string) (compaction : bool) :
  episodeLatest prior = Some latest ->
  optStrEqb (episode_exid latest) (Some sid) = false ->
  (compaction = true ->
   forall exid, episode_exid latest = Some exid ->
                startsWith exid (sid +++ "/") = false) ->
  isSameContextWindow prior (Some sid) compaction = false
  /\ isCompactionSplit prior (Some sid) compaction = false.
Proof.
  intros Hl Hne Hbase. unfold isCompactionSplit, isSameContextWindow.
  rewrite Hl, Hne. destruct compaction; simpl; auto.
  split; [reflexivity|].
  destruct (episode_exid latest) as [exid|] eqn:E; [|reflexivity].
  simpl in Hne. rewrite Hne. simpl. now apply Hbase.
Qed.

(** C2 (compaction split).  For every prior series whose latest episode
    has an identifier equal to the observed session id, or starting with
    that session id followed by a slash, when the compaction flag is set
    and the session id is not null: the continuation case does not apply,
    and the series after reconciliation is the prior episodes followed by
    one new episode, so one more episode than before; the new episode is
    named by the session id, a slash and the number of prior episodes, and
    holds exactly the new exchange. *)
Theorem compaction_split_appends_suffixed_episode :
  forall (prior : BrainSeries) (latest : BrainEpisode) (sid exid : string)
         (exchange : BrainExchange),
    lastOpt (series_episodes prior) = Some latest ->
    episode_exid latest = Some exid ->
    exid = sid \/ startsWith exid (sid +++ "/") = true ->
    let after := series (Some prior) (Some sid) true exchange in
    let added := episode (Some prior) (Some sid) true exchange in
    isSameContextWindow (Some prior) (Some sid) true = false
    /\ series_episodes after = series_episodes prior ++ [added]
    /\ length (series_episodes after) = length (series_episodes prior) + 1
    /\ episode_exid added
       = Some (sid +++ "/" +++ tplNat (length (series_episodes prior)))
    /\ episode_exchanges added = [exchange].
Proof.
  intros prior latest sid exid exchange Hlast Hexid Hbase after added.
  assert (Hsplit : isCompactionSplit (Some prior) (Some sid) true = true).
  { unfold isCompactionSplit, isSameContextWindow, episodeLatest, episodesPrior.
    rewrite Hlast, Hexid. simpl.
    destruct Hbase as [-> | ->].
    - now rewrite String.eqb_refl.
    - apply orb_true_r. }
  subst after added.
  unfold series, episodesForSeries, episode, episodeExid.
  rewrite Hsplit, compaction_excludes_continuation. simpl.
  repeat split; try reflexivity.
  rewrite length_app. reflexivity.
Qed.

(** C3 (continuation).  For every prior series whose latest episode has
    the observed, non-null session id as its identifier, when the
    compaction flag is not set: the series after reconciliation is the
    prior series with its latest episode replaced, in place, by an episode
    with the same identifier, the prior exchanges followed by the new one
    (one more exchange than before) and the hash recomputed over the
    exchange hashes; the number of episodes is unchanged. *)
Theorem continuation_extends_latest_episode :
  forall (prior : BrainSeries) (latest : BrainEpisode) (sid : string)
         (exchange : BrainExchange),
    lastOpt (series_episodes prior) = Some latest ->
    episode_exid latest = Some sid ->
    let after := series (Some prior) (Some sid) false exchange in
    let extended :=
      {| episode_hash :=
           sha256 (sid +++ ":" +++
                   join ":" (map exchange_hash (episode_exchanges latest ++ [exchange])));
         episode_exid := episode_exid latest;
         episode_exchanges := episode_exchanges latest ++ [exchange] |} in
    series_episodes prior = sliceInit (series_episodes prior) ++ [latest]
    /\ series_episodes after = sliceInit (series_episodes prior) ++ [extended]
    /\ episode (Some prior) (Some sid) false exchange = extended
    /\ length (series_episodes after) = length (series_episodes prior)
    /\ length (episode_exchanges extended) = length (episode_exchanges latest) + 1.
Proof.
  intros prior latest sid exchange Hlast Hexid after extended.
  assert (Hsame : isSameContextWindow (Some prior) (Some sid) false = true).
  { unfold isSameContextWindow, episodeLatest, episodesPrior.
    rewrite Hlast, Hexid. simpl. apply String.eqb_refl. }
  assert (Hepisode : episode (Some prior) (Some sid) false exchange = extended).
  { unfold episode, episodeExid, isCompactionSplit.
    rewrite Hsame. unfold episodeLatest, episodesPrior. rewrite Hlast.
    subst extended. simpl. now rewrite Hexid. }
  assert (Hafter : series_episodes after
                   = sliceInit (series_episodes prior) ++ [extended]).
  { subst after. unfold series, episodesForSeries. simpl.
    rewrite Hsame, Hepisode. reflexivity. }
  repeat split.
  - now apply lastOpt_inv.
  - exact Hafter.
  - exact Hepisode.
  - rewrite Hafter. now apply length_sliceInit_snoc with (x := latest).
  - subst extended. simpl. now rewrite length_app.
Qed.


End ReconciliationFacts.

(* ================================================================== *)
(** * Facts about the stream decoder *)

Ltac break_match :=
  match goal with
  | |- context [match ?x with _ => _ end] => destruct x eqn:?
  end.

Ltac by_cases := intros; repeat break_match; simpl; auto.

Lemma after_andThen {A : Type} (c : Completion A) (rest : A -> Completion A) :
  after (andThen c rest)
  = match c with
    | Returns a => after (rest a)
    | Throws a => a
    end.
Proof. destruct c; reflexivity. Qed.

Lemma threw_andThen {A : Type} (c : Completion A) (rest : A -> Completion A) :
  threw (andThen c rest)
  = match c with
    | Returns a => threw (rest a)
    | Throws _ => true
    end.
Proof. destruct c; reflexivity. Qed.

Section DecoderFacts.
Context {number : Type} {jsNumber : JsNumber number}.
Context {digest : Digest} {codec : JsonCodec number}.
Variable input : DecodeInput.

(** ** What each step leaves alone *)

Lemma sameControl_refl (d : Decoder number) : sameControl d d.
Proof. repeat split. Qed.

Lemma sameControl_trans (a b c : Decoder number) :
  sameControl a b -> sameControl b c -> sameControl a c.
Proof.
  unfold sameControl. intros (H1 & H2 & H3 & H4 & H5 & H6 & H7)
                                 (K1 & K2 & K3 & K4 & K5 & K6 & K7).
  repeat split; congruence.
Qed.

Lemma sameControl_flow (d d' : Decoder number) : sameControl d d' -> sameFlow d d'.
Proof. intros (H1 & H2 & H3 & H4 & _). repeat split; assumption. Qed.

Lemma takeUsageOpt_control (usage : option Json) (d : Decoder number) :
  sameControl d (takeUsageOpt usage d).
Proof.
  unfold takeUsageOpt, takeUsage, whenTruthy, sameControl.
  repeat break_match; repeat split.
Qed.

Lemma takeText_control (cond : bool) (text : option Json) (d : Decoder number) :
  sameControl d (after (takeText cond text d)).
Proof. unfold takeText, sameControl. repeat break_match; repeat split. Qed.

Lemma takeBlock_control (block : Json) (d : Decoder number) :
  sameControl d (after (takeBlock block d)).
Proof.
  unfold takeBlock. destruct block; try apply takeText_control. apply sameControl_refl.
Qed.

Lemma takeBlocks_control (blocks : list Json) (d : Decoder number) :
  sameControl d (after (takeBlocks blocks d)).
Proof.
  revert d. induction blocks as [|block blocks IH]; intros d; simpl.
  - apply sameControl_refl.
  - rewrite after_andThen. pose proof (takeBlock_control block d) as H.
    destruct (takeBlock block d) as [d1|d1]; simpl in H; [|exact H].
    exact (sameControl_trans H (IH d1)).
Qed.

Lemma takeContent_control (message : option Json) (d : Decoder number) :
  sameControl d (after (takeContent message d)).
Proof.
  unfold takeContent. repeat break_match; simpl; try apply sameControl_refl.
  apply takeBlocks_control.
Qed.

Lemma processStreamEvent_control (event : Json) (d : Decoder number) :
  sameControl d (after (processStreamEvent event d)).
Proof.
  unfold processStreamEvent. repeat break_match; simpl;
    try apply sameControl_refl; try apply takeUsageOpt_control;
    try apply takeText_control.
  unfold whenTruthy, sameControl. repeat break_match; repeat split.
Qed.

Lemma takeResult_flow (event : Json) (d : Decoder number) :
  sameFlow d (takeResult event d).
Proof.
  unfold takeResult.
  set (d4 := set_resultText _ _).
  assert (H4 : sameFlow d d4) by (subst d4; repeat split).
  pose proof (sameControl_flow (takeUsageOpt_control (getProp event "usage") d4)) as H5.
  unfold sameFlow in *. destruct H4 as (A1 & A2 & A3 & A4), H5 as (B1 & B2 & B3 & B4).
  destruct (negb _ && _); repeat split; simpl; congruence.
Qed.

Lemma takeAssistant_control (event : Json) (d : Decoder number) :
  sameControl d (after (takeAssistant event d)).
Proof.
  unfold takeAssistant. rewrite after_andThen.
  pose proof (takeContent_control (getProp event "message") d) as H.
  destruct (takeContent _ d) as [d1|d1]; simpl in H; [|exact H].
  simpl. eapply sameControl_trans; [exact H|].
  eapply sameControl_trans; [apply takeUsageOpt_control|]. repeat split.
Qed.

Lemma processEvent_null (d : Decoder number) : processEvent input JNull d = Throws d.
Proof. reflexivity. Qed.

Lemma processEvent_takeEvent (event : Json) (d : Decoder number) :
  event <> JNull -> processEvent input event d = takeEvent input event d.
Proof. destruct event; try reflexivity. congruence. Qed.

Lemma eventThrows_branch (event : Json) :
  event <> JNull -> eventThrows event = branchThrows event.
Proof. destruct event; try reflexivity. congruence. Qed.

Lemma takeEvent_control (event : Json) (d : Decoder number) :
  kindIs event "result" = false ->
  sameControl d (after (takeEvent input event d)).
Proof.
  intros T. unfold takeEvent. unfold kindIs in T. rewrite T.
  repeat break_match; simpl; try apply sameControl_refl;
    try apply takeAssistant_control; try apply processStreamEvent_control;
    repeat split.
Qed.

(** outside the [result] branch nothing is settled or detached *)
Lemma processEvent_control (event : Json) (d : Decoder number) :
  kindIs event "result" = false ->
  sameControl d (after (processEvent input event d)).
Proof.
  intros T. destruct event; exact (takeEvent_control _ d T).
Qed.

(** ** finalize *)

Lemma finalize_resolved (d : Decoder number) :
  resolved d = true -> finalize input d = Returns d.
Proof. intros H. unfold finalize. now rewrite H. Qed.

(** the output does not depend on the control variables *)
Lemma brainOutput_finalizing (d : Decoder number) :
  brainOutput input (detachListeners (set_resolved true d)) = brainOutput input d.
Proof. reflexivity. Qed.

Lemma finalize_unresolved (d : Decoder number) :
  resolved d = false ->
  finalize input d
  = match brainOutput input d with
    | Some out => Returns (onResolve out (detachListeners (set_resolved true d)))
    | None => Throws (detachListeners (set_resolved true d))
    end.
Proof. intros H. unfold finalize. rewrite H, brainOutput_finalizing. reflexivity. Qed.

(** what a call of [finalize] on an unresolved decoder leaves *)
Lemma finalize_leaves (d : Decoder number) :
  resolved d = false ->
  resolved (after (finalize input d)) = true
  /\ detachCalls (after (finalize input d)) = S (detachCalls d)
  /\ buffer (after (finalize input d)) = buffer d
  /\ settled (after (finalize input d))
     = match brainOutput input d with
       | Some out => settled d ++ [Resolved out]
       | None => settled d
       end
  /\ threw (finalize input d)
     = match brainOutput input d with
       | Some _ => false
       | None => true
       end.
Proof.
  intros H. rewrite (finalize_unresolved d H).
  destruct (brainOutput input d); simpl; auto.
Qed.

(** ** At most one finalization *)

Lemma advance_refl (d : Decoder number) : advance d d.
Proof. left. repeat split. Qed.

Lemma advance_trans (a b c : Decoder number) :
  advance a b -> advance b c -> advance a c.
Proof.
  unfold advance.
  intros [(H1 & H2 & H3) | (H1 & H2 & H3 & H4)]
         [(K1 & K2 & K3) | (K1 & K2 & K3 & K4)].
  - left. repeat split; congruence.
  - right. repeat split; try congruence.
    destruct K4 as [K4 | [s K4]]; [left | right; exists s]; congruence.
  - right. repeat split; try congruence.
    destruct H4 as [H4 | [s H4]]; [left | right; exists s]; congruence.
  - congruence.
Qed.

Lemma sameFlow_advance (d d' : Decoder number) : sameFlow d d' -> advance d d'.
Proof. intros (H1 & H2 & H3 & _). left. auto. Qed.

Lemma sameControl_advance (d d' : Decoder number) : sameControl d d' -> advance d d'.
Proof. intros H. now apply sameFlow_advance, sameControl_flow. Qed.

Lemma finalize_advance (d : Decoder number) : advance d (after (finalize input d)).
Proof.
  destruct (resolved d) eqn:R.
  - rewrite finalize_resolved by assumption. apply advance_refl.
  - destruct (finalize_leaves d R) as (H1 & H2 & _ & H4 & _).
    right. repeat split; try assumption.
    rewrite H4. destruct (brainOutput input d) as [out|]; [right; now exists (Resolved out) | now left].
Qed.

Lemma processEvent_result (event : Json) (d : Decoder number) :
  kindIs event "result" = true ->
  processEvent input event d = finalize input (takeResult event d).
Proof.
  intros T. rewrite processEvent_takeEvent by (intros ->; discriminate).
  unfold takeEvent. unfold kindIs in T. now rewrite T.
Qed.

Lemma processEvent_advance (event : Json) (d : Decoder number) :
  advance d (after (processEvent input event d)).
Proof.
  destruct (kindIs event "result") eqn:T.
  - rewrite (processEvent_result event d T). eapply advance_trans; [|apply finalize_advance].
    apply sameFlow_advance, takeResult_flow.
  - now apply sameControl_advance, processEvent_control.
Qed.

Lemma processLine_advance (line : string) (d : Decoder number) :
  advance d (after (processLine input line d)).
Proof.
  unfold processLine. repeat break_match; try apply advance_refl.
  apply processEvent_advance.
Qed.

Lemma processLines_advance (lines : list string) (d : Decoder number) :
  advance d (after (processLines input lines d)).
Proof.
  revert d. induction lines as [|line lines IH]; intros d; simpl.
  - apply advance_refl.
  - rewrite after_andThen. pose proof (processLine_advance line d) as H.
    destruct (processLine input line d) as [d1|d1]; simpl in H; [|exact H].
    destruct (resolved d1); [exact H|].
    exact (advance_trans H (IH d1)).
Qed.

Lemma onDataHandler_advance (chunk : Chunk) (d : Decoder number) :
  advance d (after (onDataHandler input chunk d)).
Proof.
  unfold onDataHandler. destruct (resolved d) eqn:R; [apply advance_refl|].
  eapply advance_trans; [|apply processLines_advance].
  left. repeat split.
Qed.

Lemma onEndHandler_advance (d : Decoder number) :
  advance d (after (onEndHandler input d)).
Proof.
  unfold onEndHandler. rewrite after_andThen.
  set (c := if truthyStr (trim (buffer d)) then _ else _).
  assert (H1 : advance d (after c)).
  { subst c. destruct (truthyStr _); [apply processLine_advance | apply advance_refl]. }
  destruct c as [d1|d1]; simpl in H1; [|exact H1].
  destruct (resolved d1); simpl; [assumption|].
  eapply advance_trans; [exact H1 | apply finalize_advance].
Qed.

Lemma onErrorHandler_advance (message : string) (d : Decoder number) :
  advance d (after (onErrorHandler message d)).
Proof.
  unfold onErrorHandler. destruct (resolved d) eqn:R; [apply advance_refl|].
  right. repeat split; simpl; try assumption.
  right. eexists. reflexivity.
Qed.

Lemma deliver_advance (d : Decoder number) (e : StreamEvent) :
  advance d (deliver input d e).
Proof.
  unfold deliver. destruct e; simpl.
  - apply onDataHandler_advance.
  - apply onEndHandler_advance.
  - apply onErrorHandler_advance.
Qed.

Lemma decode_advance (events : list StreamEvent) (d : Decoder number) :
  advance d (decode input events d).
Proof.
  unfold decode. revert d. induction events as [|e events IH]; intros d; simpl.
  - apply advance_refl.
  - eapply advance_trans; [apply deliver_advance | apply IH].
Qed.

(** The decoder never finalizes twice.  Whatever the stream delivers,
    chunks of data, ends and errors in any order, also when handlers
    throw, the decoder is either unresolved and has settled and detached
    nothing, or is resolved and has detached its listeners once and
    settled its promise at most once. *)
Lemma decode_at_most_once (events : list StreamEvent) :
  let d := decode input events decoderInit in
  (resolved d = false /\ settled d = [] /\ detachCalls d = 0)
  \/ (resolved d = true /\ detachCalls d = 1 /\ length (settled d) <= 1).
Proof.
  destruct (decode_advance events decoderInit)
    as [(H1 & H2 & H3) | (H1 & H2 & H3 & H4)]; simpl.
  - left. auto.
  - right. repeat split; try assumption.
    destruct H4 as [H4 | [s H4]]; rewrite H4; simpl; lia.
Qed.

(** once resolved, nothing more is settled or detached *)
Lemma resolved_stays (events : list StreamEvent) (d : Decoder number) :
  resolved d = true ->
  resolved (decode input events d) = true
  /\ settled (decode input events d) = settled d
  /\ detachCalls (decode input events d) = detachCalls d.
Proof.
  intros R. destruct (decode_advance events d) as [(H1 & H2 & H3) | (H1 & _)];
    [|congruence].
  repeat split; congruence.
Qed.


(** ** The branch a line takes *)

Lemma processLine_envelope (line : string) (d : Decoder number) :
  processLine input line d
  = match envelopeOf line with
    | Some event => processEvent input event d
    | None => Returns d
    end.
Proof.
  unfold processLine, envelopeOf. destruct (truthyStr (trim line)); reflexivity.
Qed.

Lemma kindIs_null (kind : string) : kindIs JNull kind = false.
Proof. reflexivity. Qed.

Lemma isResultLine_inv (line : string) :
  isResultLine line = true ->
  exists event, envelopeOf line = Some event /\ kindIs event "result" = true.
Proof.
  unfold isResultLine. destruct (envelopeOf line) as [event|]; [|discriminate].
  intros H. now exists event.
Qed.

Lemma processLine_result (line : string) (event : Json) (d : Decoder number) :
  envelopeOf line = Some event -> kindIs event "result" = true ->
  processLine input line d = finalize input (takeResult event d).
Proof.
  intros E T. rewrite processLine_envelope, E. now apply processEvent_result.
Qed.

(** ** Where a line throws *)

Lemma takeText_threw (cond : bool) (text : option Json) (d : Decoder number) :
  threw (takeText cond text d) = textThrows cond text.
Proof.
  unfold takeText, textThrows. destruct text as [v|]; [|reflexivity].
  destruct (cond && truthy (Some v)); [|reflexivity].
  destruct (toPlus v); reflexivity.
Qed.

Lemma takeBlock_threw (block : Json) (d : Decoder number) :
  threw (takeBlock block d) = blockThrows block.
Proof. destruct block; try apply takeText_threw. reflexivity. Qed.

Lemma takeBlocks_threw (blocks : list Json) (d : Decoder number) :
  threw (takeBlocks blocks d) = existsb blockThrows blocks.
Proof.
  revert d. induction blocks as [|block blocks IH]; intros d; simpl; [reflexivity|].
  rewrite threw_andThen, <- (takeBlock_threw block d).
  destruct (takeBlock block d) as [d1|d1]; simpl; [apply IH | reflexivity].
Qed.

Lemma takeContent_threw (message : option Json) (d : Decoder number) :
  threw (takeContent message d) = contentThrows message.
Proof.
  unfold takeContent, contentThrows.
  destruct (optChain message "content") as [content|]; [|reflexivity].
  destruct (truthy (Some content)); [|reflexivity].
  destruct (iterate content) as [blocks|]; [apply takeBlocks_threw | reflexivity].
Qed.

Lemma takeAssistant_threw (event : Json) (d : Decoder number) :
  threw (takeAssistant event d) = contentThrows (getProp event "message").
Proof.
  unfold takeAssistant. rewrite threw_andThen, <- (takeContent_threw _ d).
  destruct (takeContent _ d); reflexivity.
Qed.

Lemma processStreamEvent_threw (inner : Json) (d : Decoder number) :
  threw (processStreamEvent inner d) = innerThrows inner.
Proof.
  unfold processStreamEvent, innerThrows.
  destruct (isStr (getProp inner "type") "message_start"); [reflexivity|].
  destruct (isStr (getProp inner "type") "content_block_delta");
    [apply takeText_threw|].
  destruct (isStr (getProp inner "type") "message_delta"); reflexivity.
Qed.

Lemma takeEvent_threw (event : Json) (d : Decoder number) :
  kindIs event "result" = false ->
  threw (takeEvent input event d) = branchThrows event.
Proof.
  intros T. unfold takeEvent, branchThrows. rewrite T. unfold kindIs in *. rewrite T.
  destruct (isStr _ "assistant"); [apply takeAssistant_threw|].
  destruct (isStr _ "stream_event").
  { destruct (getProp event "event") as [inner|]; [|reflexivity].
    destruct (truthy (Some inner)); [apply processStreamEvent_threw | reflexivity]. }
  repeat break_match; reflexivity.
Qed.

Lemma processEvent_threw (event : Json) (d : Decoder number) :
  kindIs event "result" = false ->
  threw (processEvent input event d) = eventThrows event.
Proof.
  intros T. destruct event; try exact (takeEvent_threw _ d T). all: reflexivity.
Qed.

(** a line that is not a [result] envelope settles and detaches nothing,
    and whether it throws is decided by the line *)
Lemma processLine_other (line : string) (d : Decoder number) :
  isResultLine line = false ->
  sameControl d (after (processLine input line d))
  /\ threw (processLine input line d) = lineThrows line.
Proof.
  intros H. rewrite processLine_envelope. unfold isResultLine, lineThrows in *.
  destruct (envelopeOf line) as [event|]; [|split; [apply sameControl_refl | reflexivity]].
  split; [now apply processEvent_control | now apply processEvent_threw].
Qed.

Lemma processLines_other (lines : list string) (d : Decoder number) :
  existsb isResultLine lines = false ->
  sameControl d (after (processLines input lines d)).
Proof.
  revert d. induction lines as [|line lines IH]; intros d H; simpl in *.
  - apply sameControl_refl.
  - apply orb_false_iff in H. destruct H as [H1 H2].
    rewrite after_andThen. destruct (processLine_other line d H1) as [C _].
    destruct (processLine input line d) as [d1|d1]; simpl in C; [|exact C].
    destruct (resolved d1); [exact C|].
    exact (sameControl_trans C (IH d1 H2)).
Qed.

(** ** The captured session id *)

(** from [d] to [d'] the session id is the same, or was assigned a value
    that is not null *)
Lemma coalesce_session (v : option Json) (d : Decoder number) :
  sessionId (set_sessionId (coalesce v (sessionId d)) d) = sessionId d
  \/ exists x, sessionId (set_sessionId (coalesce v (sessionId d)) d) = Some x
               /\ x <> JNull.
Proof.
  unfold coalesce. destruct v as [[]|]; simpl; auto; right; eexists; split;
    try reflexivity; discriminate.
Qed.

Lemma takeUsageOpt_sessionId (usage : option Json) (d : Decoder number) :
  sessionId (takeUsageOpt usage d) = sessionId d.
Proof. unfold takeUsageOpt, takeUsage, whenTruthy. by_cases. Qed.

Lemma takeText_sessionId (cond : bool) (text : option Json) (d : Decoder number) :
  sessionId (after (takeText cond text d)) = sessionId d.
Proof. unfold takeText. by_cases. Qed.

Lemma takeBlocks_sessionId (blocks : list Json) (d : Decoder number) :
  sessionId (after (takeBlocks blocks d)) = sessionId d.
Proof.
  revert d. induction blocks as [|block blocks IH]; intros d; simpl; [reflexivity|].
  rewrite after_andThen.
  assert (H : sessionId (after (takeBlock block d)) = sessionId d)
    by (destruct block; try apply takeText_sessionId; reflexivity).
  destruct (takeBlock block d) as [d1|d1]; simpl in H; [|exact H].
  now rewrite IH.
Qed.

Lemma takeContent_sessionId (message : option Json) (d : Decoder number) :
  sessionId (after (takeContent message d)) = sessionId d.
Proof.
  unfold takeContent. repeat break_match; try reflexivity. apply takeBlocks_sessionId.
Qed.

Lemma processStreamEvent_sessionId (inner : Json) (d : Decoder number) :
  sessionId (after (processStreamEvent inner d)) = sessionId d.
Proof.
  unfold processStreamEvent, whenTruthy.
  repeat break_match; try reflexivity;
    try apply takeUsageOpt_sessionId; apply takeText_sessionId.
Qed.

Lemma takeResult_sessionId (event : Json) (d : Decoder number) :
  sessionId (takeResult event d)
  = coalesce (getProp event "session_id") (sessionId d).
Proof.
  unfold takeResult. set (d4 := set_resultText _ _).
  assert (H : sessionId (takeUsageOpt (getProp event "usage") d4)
              = coalesce (getProp event "session_id") (sessionId d))
    by (rewrite takeUsageOpt_sessionId; reflexivity).
  destruct (negb _ && _); exact H.
Qed.

Lemma takeAssistant_sessionId (event : Json) (d : Decoder number) :
  sessionId (after (takeAssistant event d))
  = if threw (takeAssistant event d) then sessionId d
    else coalesce (getProp event "session_id") (sessionId d).
Proof.
  unfold takeAssistant. rewrite after_andThen, threw_andThen.
  pose proof (takeContent_sessionId (getProp event "message") d) as H.
  destruct (takeContent _ d) as [d1|d1]; simpl in *; [|exact H].
  now rewrite takeUsageOpt_sessionId, H.
Qed.

Lemma finalize_sessionId (d : Decoder number) :
  sessionId (after (finalize input d)) = sessionId d.
Proof. unfold finalize. by_cases. Qed.

Lemma coalesce_cases (v other : option Json) :
  coalesce v other = other \/ exists x, coalesce v other = Some x /\ x <> JNull.
Proof.
  unfold coalesce. destruct v as [[]|]; simpl; auto; right; eexists; split;
    try reflexivity; discriminate.
Qed.

(** a step leaves the session id as it is or assigns a value that is not
    null *)
Lemma takeEvent_session_cases (event : Json) (d : Decoder number) :
  kindIs event "result" = false ->
  sessionId (after (takeEvent input event d)) = sessionId d
  \/ exists x, sessionId (after (takeEvent input event d)) = Some x /\ x <> JNull.
Proof.
  intros T. unfold takeEvent. unfold kindIs in T. rewrite T.
  destruct (isStr _ "assistant").
  { rewrite takeAssistant_sessionId. destruct (threw _); auto. apply coalesce_cases. }
  destruct (isStr _ "stream_event").
  { repeat break_match; auto. rewrite processStreamEvent_sessionId. auto. }
  destruct (isStr _ "system").
  { destruct (isStr _ "compact_boundary"); cbn [after sessionId set_compactionDetected];
      apply coalesce_session. }
  destruct (isStr _ "compact_boundary"); auto.
Qed.

Lemma processEvent_session_cases (event : Json) (d : Decoder number) :
  sessionId (after (processEvent input event d)) = sessionId d
  \/ exists x, sessionId (after (processEvent input event d)) = Some x /\ x <> JNull.
Proof.
  destruct (kindIs event "result") eqn:T.
  - rewrite (processEvent_result event d T), finalize_sessionId, takeResult_sessionId.
    apply coalesce_cases.
  - destruct event; try exact (takeEvent_session_cases _ d T). all: now left.
Qed.

Lemma processLine_session_cases (line : string) (d : Decoder number) :
  sessionId (after (processLine input line d)) = sessionId d
  \/ exists x, sessionId (after (processLine input line d)) = Some x /\ x <> JNull.
Proof.
  rewrite processLine_envelope. destruct (envelopeOf line); [|now left].
  apply processEvent_session_cases.
Qed.

(** steps that leave the session id or assign a value that is not null
    compose *)
Lemma session_cases_trans (first second third : option Json) :
  second = first \/ (exists x, second = Some x /\ x <> JNull) ->
  third = second \/ (exists x, third = Some x /\ x <> JNull) ->
  third = first \/ (exists x, third = Some x /\ x <> JNull).
Proof. intros [-> | H] [-> | K]; auto. Qed.

Lemma processLines_session_cases (lines : list string) (d : Decoder number) :
  sessionId (after (processLines input lines d)) = sessionId d
  \/ exists x, sessionId (after (processLines input lines d)) = Some x /\ x <> JNull.
Proof.
  revert d. induction lines as [|line lines IH]; intros d; simpl; [now left|].
  rewrite after_andThen.
  pose proof (processLine_session_cases line d) as K.
  destruct (processLine input line d) as [d1|d1]; simpl in K; [|exact K].
  destruct (resolved d1); [exact K|].
  exact (session_cases_trans K (IH d1)).
Qed.

Lemma deliver_session_cases (d : Decoder number) (e : StreamEvent) :
  sessionId (deliver input d e) = sessionId d
  \/ exists x, sessionId (deliver input d e) = Some x /\ x <> JNull.
Proof.
  unfold deliver. destruct e as [chunk| |message]; simpl.
  - unfold onDataHandler. destruct (resolved d); [now left|].
    apply (processLines_session_cases _ (set_buffer _ (set_buffer _ d))).
  - unfold onEndHandler. rewrite after_andThen.
    set (c := if truthyStr (trim (buffer d)) then _ else _).
    assert (K : sessionId (after c) = sessionId d
                \/ exists x, sessionId (after c) = Some x /\ x <> JNull).
    { subst c. destruct (truthyStr _); [|now left].
      apply processLine_session_cases. }
    destruct c as [d1|d1]; simpl in K; [|exact K].
    destruct (resolved d1); simpl; [exact K|]. now rewrite finalize_sessionId.
  - unfold onErrorHandler. destruct (resolved d); now left.
Qed.

(** over any events the session id stays as it is or becomes a value that
    is not null *)
Lemma decode_session_cases (events : list StreamEvent) (d : Decoder number) :
  sessionId (decode input events d) = sessionId d
  \/ exists x, sessionId (decode input events d) = Some x /\ x <> JNull.
Proof.
  unfold decode. revert d. induction events as [|e events IH]; intros d; simpl.
  - now left.
  - exact (session_cases_trans (deliver_session_cases d e) (IH (deliver input d e))).
Qed.

Lemma takeEvent_without_session (event : Json) (d : Decoder number) :
  kindIs event "result" = false ->
  isNullish (getProp event "session_id") = true ->
  sessionId (after (takeEvent input event d)) = sessionId d.
Proof.
  intros T L.
  assert (C : coalesce (getProp event "session_id") (sessionId d) = sessionId d)
    by (unfold coalesce; now rewrite L).
  unfold takeEvent. unfold kindIs in T. rewrite T.
  destruct (isStr _ "assistant").
  { rewrite takeAssistant_sessionId. destruct (threw _); auto. }
  destruct (isStr _ "stream_event").
  { repeat break_match; auto. apply processStreamEvent_sessionId. }
  destruct (isStr _ "system").
  { destruct (isStr _ "compact_boundary"); cbn [after sessionId set_compactionDetected];
      exact C. }
  destruct (isStr _ "compact_boundary"); auto.
Qed.

Lemma processEvent_without_session (event : Json) (d : Decoder number) :
  isNullish (getProp event "session_id") = true ->
  sessionId (after (processEvent input event d)) = sessionId d.
Proof.
  intros L. destruct (kindIs event "result") eqn:T.
  - rewrite (processEvent_result event d T), finalize_sessionId, takeResult_sessionId.
    unfold coalesce. now rewrite L.
  - destruct event; try exact (takeEvent_without_session _ d T L). all: reflexivity.
Qed.

Lemma processLine_without_session (line : string) (d : Decoder number) :
  lacksSessionId line = true ->
  sessionId (after (processLine input line d)) = sessionId d.
Proof.
  unfold lacksSessionId, processLine. intros L.
  destruct (negb (truthyStr (trim line))); [reflexivity|].
  destruct (JSON_parse (trim line)) as [event|]; [|reflexivity].
  now apply processEvent_without_session.
Qed.

(** C10 (the session id is never reset).  Once the decoder has captured a
    session id, it holds a session id after any further events of the
    stream, also when a handler throws, and that one is not null if the
    captured one is not; and a line that is not JSON or whose value has no
    session_id field, or a null one, leaves the captured value as it
    is. *)
Theorem session_id_never_reset :
  forall (events : list StreamEvent) (d : Decoder number) (captured : Json),
    sessionId d = Some captured ->
    (exists latest,
       sessionId (decode input events d) = Some latest
       /\ (captured <> JNull -> latest <> JNull))
    /\ (forall line,
          lacksSessionId line = true ->
          sessionId (after (processLine input line d)) = Some captured).
Proof.
  intros events d captured H. split.
  - destruct (decode_session_cases events d) as [E | (x & E & N)].
    + exists captured. split; [congruence | auto].
    + exists x. split; [exact E | auto].
  - intros line L. now rewrite processLine_without_session.
Qed.

(** ** The buffer does not influence what a line does *)

Lemma withBuffer_after (b : string) (c : Completion (Decoder number)) :
  after (withBuffer b c) = set_buffer b (after c).
Proof. destruct c; reflexivity. Qed.

Lemma withBuffer_threw (b : string) (c : Completion (Decoder number)) :
  threw (withBuffer b c) = threw c.
Proof. destruct c; reflexivity. Qed.

Lemma withBuffer_andThen (b : string) (c : Completion (Decoder number))
  (rest rest' : Decoder number -> Completion (Decoder number)) :
  (forall d, rest (set_buffer b d) = withBuffer b (rest' d)) ->
  andThen (withBuffer b c) rest = withBuffer b (andThen c rest').
Proof. intros H. destruct c; simpl; [apply H | reflexivity]. Qed.

Lemma set_buffer_same (d : Decoder number) : set_buffer (buffer d) d = d.
Proof. now destruct d. Qed.

Lemma takeUsageOpt_set_buffer (b : string) (usage : option Json) (d : Decoder number) :
  takeUsageOpt usage (set_buffer b d) = set_buffer b (takeUsageOpt usage d).
Proof. unfold takeUsageOpt, takeUsage, whenTruthy. by_cases. Qed.

Lemma takeText_set_buffer (b : string) (cond : bool) (text : option Json)
  (d : Decoder number) :
  takeText cond text (set_buffer b d) = withBuffer b (takeText cond text d).
Proof. unfold takeText. by_cases. Qed.

Lemma takeBlock_set_buffer (b : string) (block : Json) (d : Decoder number) :
  takeBlock block (set_buffer b d) = withBuffer b (takeBlock block d).
Proof. destruct block; try apply takeText_set_buffer. reflexivity. Qed.

Lemma takeBlocks_set_buffer (b : string) (blocks : list Json) (d : Decoder number) :
  takeBlocks blocks (set_buffer b d) = withBuffer b (takeBlocks blocks d).
Proof.
  revert d. induction blocks as [|block blocks IH]; intros d; simpl; [reflexivity|].
  rewrite takeBlock_set_buffer. now apply withBuffer_andThen.
Qed.

Lemma takeContent_set_buffer (b : string) (message : option Json) (d : Decoder number) :
  takeContent message (set_buffer b d) = withBuffer b (takeContent message d).
Proof.
  unfold takeContent. repeat break_match; try reflexivity. apply takeBlocks_set_buffer.
Qed.

Lemma processStreamEvent_set_buffer (b : string) (inner : Json) (d : Decoder number) :
  processStreamEvent inner (set_buffer b d)
  = withBuffer b (processStreamEvent inner d).
Proof.
  unfold processStreamEvent, whenTruthy.
  repeat break_match; try reflexivity; try apply takeText_set_buffer.
  simpl. now rewrite takeUsageOpt_set_buffer.
Qed.

Lemma takeResult_set_buffer (b : string) (event : Json) (d : Decoder number) :
  takeResult event (set_buffer b d) = set_buffer b (takeResult event d).
Proof.
  unfold takeResult.
  set (d4 := set_resultText _ (set_durationMs _ (set_costUsd _ (set_sessionId _ d)))).
  change (set_resultText _ _) with (set_buffer b d4).
  rewrite takeUsageOpt_set_buffer.
  change (costUsd (set_buffer b (takeUsageOpt (getProp event "usage") d4)))
    with (costUsd (takeUsageOpt (getProp event "usage") d4)).
  by_cases.
Qed.

Lemma takeAssistant_set_buffer (b : string) (event : Json) (d : Decoder number) :
  takeAssistant event (set_buffer b d) = withBuffer b (takeAssistant event d).
Proof.
  unfold takeAssistant. rewrite takeContent_set_buffer.
  apply withBuffer_andThen. intros d1. now rewrite takeUsageOpt_set_buffer.
Qed.

Lemma finalize_set_buffer (b : string) (d : Decoder number) :
  finalize input (set_buffer b d) = withBuffer b (finalize input d).
Proof.
  unfold finalize. change (resolved (set_buffer b d)) with (resolved d).
  destruct (resolved d); [reflexivity|].
  change (brainOutput input (detachListeners (set_resolved true (set_buffer b d))))
    with (brainOutput input (detachListeners (set_resolved true d))).
  destruct (brainOutput input _); reflexivity.
Qed.

Lemma takeEvent_set_buffer (b : string) (event : Json) (d : Decoder number) :
  takeEvent input event (set_buffer b d) = withBuffer b (takeEvent input event d).
Proof.
  unfold takeEvent. repeat break_match; try reflexivity.
  - now rewrite takeResult_set_buffer, finalize_set_buffer.
  - apply takeAssistant_set_buffer.
  - apply processStreamEvent_set_buffer.
Qed.

Lemma processEvent_set_buffer (b : string) (event : Json) (d : Decoder number) :
  processEvent input event (set_buffer b d)
  = withBuffer b (processEvent input event d).
Proof. destruct event; try apply takeEvent_set_buffer. reflexivity. Qed.

Lemma processLine_set_buffer (b line : string) (d : Decoder number) :
  processLine input line (set_buffer b d) = withBuffer b (processLine input line d).
Proof.
  unfold processLine. repeat break_match; try reflexivity.
  apply processEvent_set_buffer.
Qed.

Lemma processLines_set_buffer (b : string) (lines : list string) (d : Decoder number) :
  processLines input lines (set_buffer b d)
  = withBuffer b (processLines input lines d).
Proof.
  revert d. induction lines as [|line lines IH]; intros d; simpl; [reflexivity|].
  rewrite processLine_set_buffer. apply withBuffer_andThen. intros d1.
  change (resolved (set_buffer b d1)) with (resolved d1).
  destruct (resolved d1); [reflexivity | apply IH].
Qed.

(** ** The loop over the lines *)

Lemma processLines_app (l1 l2 : list string) (d : Decoder number) :
  resolved d = false ->
  processLines input (l1 ++ l2) d
  = andThen (processLines input l1 d)
      (fun d1 => if resolved d1 then Returns d1 else processLines input l2 d1).
Proof.
  revert d. induction l1 as [|line l1 IH]; intros d R; simpl.
  - now rewrite R.
  - destruct (processLine input line d) as [d1|d1]; simpl; [|reflexivity].
    destruct (resolved d1) eqn:R1; simpl; [now rewrite R1 | now apply IH].
Qed.

Lemma processLine_blank (line : string) (d : Decoder number) :
  truthyStr (trim line) = false -> processLine input line d = Returns d.
Proof. intros H. unfold processLine. now rewrite H. Qed.

(** a loop that throws on quiet lines threw in [finalize], after the
    decoder was marked resolved *)
Lemma processLine_quiet (line : string) (d : Decoder number) :
  lineThrows line = false -> resolved d = false ->
  threw (processLine input line d) = true ->
  resolved (after (processLine input line d)) = true.
Proof.
  intros Q R T. destruct (isResultLine line) eqn:I.
  - destruct (isResultLine_inv line I) as (event & E & K).
    rewrite (processLine_result line d E K) in *.
    apply finalize_leaves. destruct (takeResult_flow event d) as (C & _). congruence.
  - destruct (processLine_other line d I) as [_ H]. congruence.
Qed.

Lemma processLines_quiet (lines : list string) (d : Decoder number) :
  quiet lines = true -> resolved d = false ->
  threw (processLines input lines d) = true ->
  resolved (after (processLines input lines d)) = true.
Proof.
  revert d. induction lines as [|line lines IH]; intros d Q R T; simpl in *;
    [discriminate|].
  apply andb_true_iff in Q. destruct Q as [Q1 Q2]. apply negb_true_iff in Q1.
  pose proof (processLine_quiet line d Q1 R) as H.
  destruct (processLine input line d) as [d1|d1]; simpl in *; [|now apply H].
  destruct (resolved d1) eqn:R1; simpl in *; [discriminate | now apply IH].
Qed.

(** ** The data handler, chunk by chunk, and the lines of the text *)

Lemma streamText_chunks (chunks : list Chunk) :
  streamText (map Data chunks) = concatAll (map chunkText chunks).
Proof. induction chunks as [|c chunks IH]; simpl; [reflexivity | now rewrite IH]. Qed.

Lemma onDataHandler_lines (chunk : Chunk) (d : Decoder number) :
  resolved d = false ->
  onDataHandler input chunk d
  = withBuffer (trailingLine (buffer d +++ chunkText chunk))
      (processLines input (completeLines (buffer d +++ chunkText chunk)) d).
Proof.
  intros R. unfold onDataHandler. rewrite R.
  rewrite <- processLines_set_buffer. reflexivity.
Qed.

(** the decoder after chunks of data, from an unresolved state whose
    buffer holds no line feed, when the loop over the complete lines of
    the text throws only in [finalize]: resolved with what that loop
    settled, or unresolved with the state the loop reaches and the rest of
    the text in the buffer *)
Lemma decode_chunks_lines (chunks : list Chunk) :
  forall (d : Decoder number),
    resolved d = false ->
    split_LF (buffer d) = [buffer d] ->
    let text := buffer d +++ streamText (map Data chunks) in
    let c := processLines input (completeLines text) d in
    (threw c = true -> resolved (after c) = true) ->
    (resolved (after c) = false ->
     decode input (map Data chunks) d = set_buffer (trailingLine text) (after c))
    /\ (resolved (after c) = true ->
        resolved (decode input (map Data chunks) d) = true
        /\ settled (decode input (map Data chunks) d) = settled (after c)
        /\ detachCalls (decode input (map Data chunks) d) = detachCalls (after c)).
Proof.
  induction chunks as [|chunk chunks IH]; intros d R B text c; subst text c.
  - cbn [map streamText]. rewrite append_empty_r.
    unfold completeLines, trailingLine. rewrite B. cbn [removelast last processLines after].
    intros _. split; [intros _; symmetry; apply set_buffer_same | congruence].
  - cbn [map streamText]. rewrite <- append_assoc.
    unfold completeLines, trailingLine.
    rewrite (removelast_split_LF_app (buffer d +++ chunkText chunk)).
    rewrite (last_split_LF_app (buffer d +++ chunkText chunk)).
    fold (completeLines (buffer d +++ chunkText chunk))
         (trailingLine (buffer d +++ chunkText chunk)).
    set (b1 := trailingLine (buffer d +++ chunkText chunk)).
    set (l1 := completeLines (buffer d +++ chunkText chunk)).
    set (rest := streamText (map Data chunks)).
    fold (completeLines (b1 +++ rest)) (trailingLine (b1 +++ rest)).
    set (l2 := completeLines (b1 +++ rest)).
    change (decode input (Data chunk :: map Data chunks) d)
      with (decode input (map Data chunks) (after (onDataHandler input chunk d))).
    rewrite (onDataHandler_lines chunk d R). fold b1 l1.
    rewrite withBuffer_after, processLines_app by assumption.
    destruct (processLines input l1 d) as [p1|p1] eqn:C1; cbn [andThen after threw].
    + destruct (resolved p1) eqn:R1; cbn [after threw].
      * intros _. split; [congruence|]. intros _.
        exact (resolved_stays (map Data chunks) (set_buffer b1 p1) R1).
      * intros H.
        assert (B1 : split_LF (buffer (set_buffer b1 p1)) = [buffer (set_buffer b1 p1)])
          by apply split_LF_last.
        pose proof (IH (set_buffer b1 p1) R1 B1) as K. cbn zeta in K.
        change (buffer (set_buffer b1 p1)) with b1 in K. fold rest l2 in K.
        fold (trailingLine (b1 +++ rest)) in K.
        rewrite processLines_set_buffer, withBuffer_after, withBuffer_threw in K.
        destruct (K H) as [U V]. split.
        -- intros R2. rewrite (U R2). reflexivity.
        -- intros R2. exact (V R2).
    + intros H. specialize (H eq_refl). split; [congruence|]. intros _.
      exact (resolved_stays (map Data chunks) (set_buffer b1 p1) H).
Qed.

Lemma decode_data_lines (chunks : list Chunk) :
  let text := streamText (map Data chunks) in
  let c := processLines input (completeLines text) decoderInit in
  (threw c = true -> resolved (after c) = true) ->
  (resolved (after c) = false ->
   decode input (map Data chunks) decoderInit = set_buffer (trailingLine text) (after c))
  /\ (resolved (after c) = true ->
      resolved (decode input (map Data chunks) decoderInit) = true
      /\ settled (decode input (map Data chunks) decoderInit) = settled (after c)
      /\ detachCalls (decode input (map Data chunks) decoderInit)
         = detachCalls (after c)).
Proof. exact (decode_chunks_lines chunks decoderInit eq_refl eq_refl). Qed.

(** ** Lines that are not result envelopes *)

Lemma absorb_app (l1 l2 : list string) (d : Decoder number) :
  absorb input (l1 ++ l2) d = absorb input l2 (absorb input l1 d).
Proof. unfold absorb. apply fold_left_app. Qed.

Lemma absorb_other (lines : list string) (d : Decoder number) :
  existsb isResultLine lines = false -> sameControl d (absorb input lines d).
Proof.
  unfold absorb. revert d. induction lines as [|line lines IH]; intros d H; simpl in *.
  - apply sameControl_refl.
  - apply orb_false_iff in H. destruct H as [H1 H2].
    destruct (processLine_other line d H1) as [C _].
    exact (sameControl_trans C (IH _ H2)).
Qed.

(** over quiet lines without a [result] envelope the loop returns, with
    one [processLine] done for each line *)
Lemma processLines_absorb (lines : list string) (d : Decoder number) :
  resolved d = false ->
  existsb isResultLine lines = false ->
  quiet lines = true ->
  processLines input lines d = Returns (absorb input lines d).
Proof.
  unfold absorb. revert d. induction lines as [|line lines IH]; intros d R H Q; simpl in *.
  - reflexivity.
  - apply orb_false_iff in H. destruct H as [H1 H2].
    apply andb_true_iff in Q. destruct Q as [Q1 Q2]. apply negb_true_iff in Q1.
    destruct (processLine_other line d H1) as [(C & _) T]. rewrite Q1 in T.
    destruct (processLine input line d) as [d1|d1]; simpl in *; [|discriminate].
    rewrite C, R. apply IH; congruence.
Qed.

(** in a chunk of data, the lines after a line that throws are not
    processed: the handler throws with the state the lines before left,
    and the text after the last line feed in the buffer *)
Lemma onDataHandler_aborts (chunk : Chunk) (d : Decoder number)
  (before rest : list string) (line : string) :
  resolved d = false ->
  completeLines (buffer d +++ chunkText chunk) = before ++ line :: rest ->
  existsb isResultLine before = false ->
  quiet before = true ->
  isResultLine line = false ->
  lineThrows line = true ->
  onDataHandler input chunk d
  = Throws (set_buffer (trailingLine (buffer d +++ chunkText chunk))
              (after (processLine input line (absorb input before d)))).
Proof.
  intros R L H Q I T. rewrite (onDataHandler_lines chunk d R), L.
  rewrite processLines_app by assumption.
  rewrite (processLines_absorb before d R H Q). cbn [andThen].
  destruct (absorb_other before d H) as (C & _). rewrite C, R. cbn [processLines].
  destruct (processLine_other line (absorb input before d) I) as [_ K]. rewrite T in K.
  destruct (processLine input line _) as [d1|d1]; simpl in K; [discriminate|].
  reflexivity.
Qed.

(** ** Data without a result line leaves the decoder unresolved *)

Lemma data_unresolved (chunks : list Chunk) :
  forall (d : Decoder number),
    resolved d = false ->
    split_LF (buffer d) = [buffer d] ->
    existsb isResultLine
      (completeLines (buffer d +++ streamText (map Data chunks))) = false ->
    let d' := decode input (map Data chunks) d in
    resolved d' = false /\ settled d' = settled d /\ detachCalls d' = detachCalls d
    /\ buffer d' = trailingLine (buffer d +++ streamText (map Data chunks)).
Proof.
  induction chunks as [|chunk chunks IH]; intros d R B H d'; subst d'.
  - cbn [map streamText decode fold_left]. rewrite append_empty_r.
    repeat split; try assumption. unfold trailingLine. now rewrite B.
  - cbn [map streamText] in *. rewrite <- append_assoc in *.
    unfold completeLines, trailingLine in *.
    rewrite (removelast_split_LF_app (buffer d +++ chunkText chunk)) in H.
    rewrite (last_split_LF_app (buffer d +++ chunkText chunk)).
    fold (completeLines (buffer d +++ chunkText chunk)) in H.
    fold (trailingLine (buffer d +++ chunkText chunk)) in *.
    set (b1 := trailingLine (buffer d +++ chunkText chunk)) in *.
    set (l1 := completeLines (buffer d +++ chunkText chunk)) in *.
    rewrite existsb_app in H. apply orb_false_iff in H. destruct H as [H1 H2].
    change (decode input (Data chunk :: map Data chunks) d)
      with (decode input (map Data chunks) (after (onDataHandler input chunk d))).
    rewrite (onDataHandler_lines chunk d R). fold b1 l1. rewrite withBuffer_after.
    destruct (processLines_other l1 d H1) as (C1 & C2 & C3 & _).
    set (p1 := after (processLines input l1 d)) in *.
    destruct (IH (set_buffer b1 p1)) as (K1 & K2 & K3 & K4).
    + cbn. congruence.
    + apply split_LF_last.
    + exact H2.
    + repeat split; try assumption; cbn in K2, K3; congruence.
Qed.

(** ** The total cost *)

Lemma cleaned_decimal (decimal : string) :
  forallb isPriceChar (list_ascii_of_string decimal) = true ->
  cleaned decimal = decimal.
Proof.
  induction decimal as [|c r IH]; simpl; [reflexivity|].
  intros H. apply andb_true_iff in H. destruct H as [H1 H2].
  now rewrite H1, IH.
Qed.

Lemma cleaned_currency (currency rest : string) :
  forallb (fun c => negb (isPriceChar c)) (list_ascii_of_string currency) = true ->
  cleaned (currency +++ rest) = cleaned rest.
Proof.
  induction currency as [|c r IH]; simpl; [reflexivity|].
  intros H. apply andb_true_iff in H. destruct H as [H1 H2].
  apply negb_true_iff in H1. now rewrite H1, IH.
Qed.

(** the rate of a currency-prefixed decimal string is the number of the
    decimal string, and zero when that is NaN or zero *)
Lemma rate_of_prefixed_decimal (currency decimal : string) :
  isPrefixedDecimal currency decimal = true ->
  getOneNumericFromIsoPrice (currency +++ decimal)
  = if num_truthy (parseFloat decimal) then parseFloat decimal else num_zero.
Proof.
  unfold isPrefixedDecimal, getOneNumericFromIsoPrice. intros H.
  apply andb_true_iff in H. destruct H as [H1 H2].
  now rewrite (cleaned_currency _ decimal H1), (cleaned_decimal _ H2).
Qed.

(** the output a call of [finalize] resolved with is the one built from
    the variables *)
Lemma finalize_output (d : Decoder number) (out : BrainOutput number) :
  resolved d = false ->
  settled (after (finalize input d)) = settled d ++ [Resolved out] ->
  brainOutput input d = Some out.
Proof.
  intros R H. destruct (finalize_leaves d R) as (_ & _ & _ & S & _).
  rewrite S in H. destruct (brainOutput input d) as [o|].
  - apply app_inv_head in H. now injection H as ->.
  - apply (f_equal (@length _)) in H. rewrite length_app in H. simpl in H. lia.
Qed.

(** C5 (total cost), as the code has it.  For every call of [finalize]
    that resolves the promise, with the prices of the spec being currency
    prefixes followed by decimal strings: the token counts are numbers
    for the multiplication, and each category cost of the output is the
    price, a dollar sign and ten decimals, of the rate times the token
    count of the category, the rate being the number parsed from the
    decimal string, zero if that is NaN.  If a vendor-reported cost was
    observed, it is a number and the total of the output is its price,
    that value written with ten decimals; otherwise the total is the price
    of the sum of the four category costs. *)
Theorem total_cost_is_price_of_vendor_cost_or_derived_sum :
  forall (d : Decoder number) (out : BrainOutput number)
         (currencyInput decimalInput currencyOutput decimalOutput : string)
         (currencyCacheGet decimalCacheGet currencyCacheSet decimalCacheSet : string),
    resolved d = false ->
    settled (after (finalize input d)) = settled d ++ [Resolved out] ->
    rate_input (rates input) = currencyInput +++ decimalInput ->
    rate_output (rates input) = currencyOutput +++ decimalOutput ->
    rate_cache_get (rates input) = currencyCacheGet +++ decimalCacheGet ->
    rate_cache_set (rates input) = currencyCacheSet +++ decimalCacheSet ->
    isPrefixedDecimal currencyInput decimalInput = true ->
    isPrefixedDecimal currencyOutput decimalOutput = true ->
    isPrefixedDecimal currencyCacheGet decimalCacheGet = true ->
    isPrefixedDecimal currencyCacheSet decimalCacheSet = true ->
    let rate := fun decimal =>
                  if num_truthy (parseFloat decimal) then parseFloat decimal
                  else num_zero in
    exists (countInput countOutput countCacheGet countCacheSet : number),
      toNumber (tokensInput d) = Some countInput
      /\ toNumber (tokensOutput d) = Some countOutput
      /\ toNumber (tokensCacheGet d) = Some countCacheGet
      /\ toNumber (tokensCacheSet d) = Some countCacheSet
      /\ cost_cash_deets_input (metrics out)
         = "$" +++ toFixed (num_mul (rate decimalInput) countInput) 10
      /\ cost_cash_deets_output (metrics out)
         = "$" +++ toFixed (num_mul (rate decimalOutput) countOutput) 10
      /\ cost_cash_deets_cache_get (metrics out)
         = "$" +++ toFixed (num_mul (rate decimalCacheGet) countCacheGet) 10
      /\ cost_cash_deets_cache_set (metrics out)
         = "$" +++ toFixed (num_mul (rate decimalCacheSet) countCacheSet) 10
      /\ (forall vendor,
            costUsd d = Some vendor -> vendor <> JNull ->
            exists literal,
              vendor = JNum literal
              /\ cost_cash_total (metrics out)
                 = "$" +++ toFixed (num_of_json literal) 10)
      /\ (isNullish (costUsd d) = true ->
          cost_cash_total (metrics out)
          = "$" +++ toFixed
                      (num_add
                         (num_add
                            (num_add (num_mul (rate decimalInput) countInput)
                               (num_mul (rate decimalOutput) countOutput))
                            (num_mul (rate decimalCacheGet) countCacheGet))
                         (num_mul (rate decimalCacheSet) countCacheSet))
                      10).
Proof.
  intros d out cI dI cO dO cG dG cS dS R H EI EO EG ES PI PO PG PS rate.
  pose proof (finalize_output d out R H) as B.
  unfold brainOutput in B.
  destruct (decoderMetrics input d) as [m|] eqn:M; [|discriminate].
  destruct (decoderExchange input d); [|discriminate].
  destruct (sessionOf d); [|discriminate].
  injection B as <-. cbn [metrics].
  unfold decoderMetrics, costInput, costOutput, costCacheGet, costCacheSet, costOf in M.
  rewrite EI, EO, EG, ES in M.
  rewrite (rate_of_prefixed_decimal _ _ PI), (rate_of_prefixed_decimal _ _ PO),
    (rate_of_prefixed_decimal _ _ PG), (rate_of_prefixed_decimal _ _ PS) in M.
  fold (rate dI) (rate dO) (rate dG) (rate dS) in M.
  destruct (toNumber (tokensInput d)) as [nI|] eqn:TI; [|discriminate].
  destruct (toNumber (tokensOutput d)) as [nO|] eqn:TO; [|discriminate].
  destruct (toNumber (tokensCacheGet d)) as [nG|] eqn:TG; [|discriminate].
  destruct (toNumber (tokensCacheSet d)) as [nS|] eqn:TS; [|discriminate].
  cbn [option_map] in M.
  destruct (costTotal input d) as [total|] eqn:T; [|discriminate].
  injection M as <-. cbn.
  exists nI, nO, nG, nS. do 8 (split; [reflexivity|]).
  unfold costTotal, costDerived, costInput, costOutput, costCacheGet, costCacheSet,
    costOf in T.
  split.
  - intros vendor V N. rewrite V in T. unfold coalesce in T.
    destruct vendor; try congruence; cbn in T; try discriminate.
    injection T as <-. now eexists.
  - intros V. unfold coalesce in T. rewrite V in T.
    rewrite EI, EO, EG, ES in T.
    rewrite (rate_of_prefixed_decimal _ _ PI), (rate_of_prefixed_decimal _ _ PO),
      (rate_of_prefixed_decimal _ _ PG), (rate_of_prefixed_decimal _ _ PS) in T.
    rewrite TI, TO, TG, TS in T. cbn in T. injection T as <-. reflexivity.
Qed.

End DecoderFacts.
(* ================================================================== *)
(** * Facts about the handle *)

Module GenBrainCliFacts.
Import GenBrainCli.

Section HandleFacts.
Context {number : Type} {jsNumber : JsNumber number}.
Context {digest : Digest} {codec : JsonCodec number}.
Variable config : Config.
Variable pidOf : nat -> nat.
Variable JSON_stringify : UserMessage -> string.

(** ** boot *)

Lemma killCurrentProcess_effects (s : Supervisor) :
  effects (killCurrentProcess s) = effects s ++ killRequests s.
Proof.
  unfold killCurrentProcess, killRequests, perform.
  destruct (childProcess s) eqn:C; destruct (ptyProcess s) eqn:P;
    simpl; rewrite ?P; simpl; rewrite <- ?app_assoc, ?app_nil_r; reflexivity.
Qed.


Lemma killCurrentProcess_processes (s : Supervisor) :
  childProcess (killCurrentProcess s) = childProcess s
  /\ ptyProcess (killCurrentProcess s) = ptyProcess s
  /\ instance (killCurrentProcess s) = None.
Proof.
  unfold killCurrentProcess, perform.
  destruct (childProcess s) eqn:C; destruct (ptyProcess s) eqn:P;
    simpl; rewrite ?P; simpl; auto.
Qed.



(** ** The reference guard of the exit hooks *)

Lemma onChildExit_other (proc : nat) (code : option nat) (signal : option string)
  (s : Supervisor) :
  childProcess s <> Some proc -> onChildExit proc code signal s = s.
Proof.
  intros H. unfold onChildExit. destruct (childProcess s) as [current|]; [|reflexivity].
  destruct (Nat.eqb current proc) eqn:E; [|reflexivity].
  apply Nat.eqb_eq in E. congruence.
Qed.

Lemma onPtyExit_other (proc exitCode : nat) (signal : option nat) (s : Supervisor) :
  ptyProcess s <> Some proc -> onPtyExit proc exitCode signal s = s.
Proof.
  intros H. unfold onPtyExit. destruct (ptyProcess s) as [current|]; [|reflexivity].
  destruct (Nat.eqb current proc) eqn:E; [|reflexivity].
  apply Nat.eqb_eq in E. congruence.
Qed.

(** an exit notification changes the handle only if the reference stored
    for its transport is the process that exited *)
Lemma exit_honored_only_if_stored (s : Supervisor) (proc : nat) :
  (forall code signal,
     onChildExit proc code signal s <> s -> childProcess s = Some proc)
  /\ (forall exitCode signal,
        onPtyExit proc exitCode signal s <> s -> ptyProcess s = Some proc).
Proof.
  split.
  - intros code signal H. destruct (childProcess s) as [current|] eqn:C.
    + destruct (Nat.eq_dec current proc) as [->|N]; [reflexivity|].
      exfalso. apply H, onChildExit_other. congruence.
    + exfalso. apply H, onChildExit_other. congruence.
  - intros exitCode signal H. destruct (ptyProcess s) as [current|] eqn:C.
    + destruct (Nat.eq_dec current proc) as [->|N]; [reflexivity|].
      exfalso. apply H, onPtyExit_other. congruence.
    + exfalso. apply H, onPtyExit_other. congruence.
Qed.






(** C8, at the failing input.  A handle booted into one transport and
    then rebooted into the other keeps the reference of the replaced
    process in the variable of the first transport; when the exit
    notification of the replaced process arrives, the guard of its hook
    finds that reference and sets [instance] to null, although [instance]
    describes the replacement, which stays stored and alive. *)
Theorem exit_of_replaced_process_clears_instance_across_transports :
  (forall (exitCode : nat) (signal : option nat),
     let s := boot config pidOf Dispatch (boot config pidOf Interact init) in
     instance s = Some {| pid := pidOf 1; mode := Dispatch |}
     /\ childProcess s = Some 1
     /\ ptyProcess s = Some 0
     /\ instance (onPtyExit 0 exitCode signal s) = None
     /\ childProcess (onPtyExit 0 exitCode signal s) = Some 1)
  /\ (forall (code : option nat) (signal : option string),
        let s := boot config pidOf Interact (boot config pidOf Dispatch init) in
        instance s = Some {| pid := pidOf 1; mode := Interact |}
        /\ ptyProcess s = Some 1
        /\ childProcess s = Some 0
        /\ instance (onChildExit 0 code signal s) = None
        /\ ptyProcess (onChildExit 0 code signal s) = Some 1).
Proof. split; intros; repeat split. Qed.

(** ** The guards of ask, act and write *)

(** C9 (calls in the wrong state).  On a handle without instance, as it
    is before any boot, [ask], [act] and [terminal.write] throw the error
    that names the absence of a live process; on a handle whose instance
    is in interact mode, [ask] and [act] throw the error that names the
    mode.  In each case the handle is left as it was: nothing is added to
    its effects, so no message is written, and its series is the same. *)
Theorem calls_in_wrong_state_throw_and_change_nothing :
  forall (s : Supervisor) (userPrompt data : string) (events : list StreamEvent),
    instance init = None
    /\ (instance s = None ->
        ask config pidOf JSON_stringify userPrompt events s
        = Threw "cannot ask: no live process. call executor.boot first" s
        /\ act config pidOf JSON_stringify userPrompt events s
           = Threw "cannot act: no live process. call executor.boot first" s
        /\ write data s = Threw "cannot write: no live process" s)
    /\ (forall inst,
          instance s = Some inst ->
          mode inst = Interact ->
          ask config pidOf JSON_stringify userPrompt events s
          = Threw "cannot ask: handle is in interact mode. boot dispatch first" s
          /\ act config pidOf JSON_stringify userPrompt events s
             = Threw "cannot act: handle is in interact mode. boot dispatch first" s).
Proof.
  intros s userPrompt data events. split; [reflexivity|]. split.
  - intros H. unfold ask, act, write. rewrite H. auto.
  - intros inst H M. unfold ask, act. rewrite H, M. auto.
Qed.

End HandleFacts.

End GenBrainCliFacts.

(* ================================================================== *)
(** * Concrete runs on the reference platform *)

Module Runs.
Import Reference.

(** ** Evaluations *)

Example tplNat_decimal : tplNat 0 = "0" /\ tplNat 1 = "1" /\ tplNat 12 = "12".
Proof. vm_compute. repeat split. Qed.

Example split_LF_keeps_rest :
  split_LF ("ab" +++ newline +++ "cd" +++ newline +++ "e") = ["ab"; "cd"; "e"]
  /\ split_LF ("ab" +++ newline) = ["ab"; ""]
  /\ split_LF "" = [""].
Proof. vm_compute. repeat split. Qed.

Example price_of_currency_string :
  getOneNumericFromIsoPrice "$0.000005" = Some (1 # 200000)%Q
  /\ getOneNumericFromIsoPrice "USD 12.50" = Some (25 # 2)%Q
  /\ getOneNumericFromIsoPrice "free" = Some 0%Q
  /\ getOneIsoPrice (Some (3 # 1000)%Q) = "$0.0030000000".
Proof. vm_compute. repeat split. Qed.

(** the example of the specification: one [result] line, no prior series *)
Example result_line_alone :
  resolvedWith (decode decodeInput [Data (Text (lineResult +++ newline))] decoderInit)
  = [Some (JStr "the answer is 4", Some "sess-abc-123", [1], JNum "1234",
           "$0.0030000000")].
Proof. vm_compute. reflexivity. Qed.

(** the same line in a Buffer *)
Example result_line_in_buffer :
  resolvedWith
    (decode decodeInput [Data (Buffer (bytesOf (lineResult +++ newline)))] decoderInit)
  = [Some (JStr "the answer is 4", Some "sess-abc-123", [1], JNum "1234",
           "$0.0030000000")].
Proof. vm_compute. reflexivity. Qed.

(** text arrives in pieces, the stream ends without a result *)
Example partial_output_alone :
  resolvedWith
    (decode decodeInput
       [Data (Text (lineSystem +++ newline +++ "{"));
        Data (Text (substring 1 200 lineAssistant)); End]
       decoderInit)
  = [Some (JStr "partial output", Some "sess-abc-123", [1], JNum "0",
           "$0.0000000000")].
Proof. vm_compute. reflexivity. Qed.

(** tokens without a vendor cost: the total is derived from the rates *)
Example derived_cost :
  resolvedWith
    (decode decodeInput [Data (Text (lineUsage +++ newline)); End] decoderInit)
  = [Some (JStr "", None, [1], JNum "0", "$0.0030000000")].
Proof. vm_compute. reflexivity. Qed.

(** a content block that is null: the text before it is kept, the text
    after it and the session id of the envelope are lost *)
Example null_block_in_content :
  threw (onDataHandler decodeInput (Text (lineNullBlock +++ newline)) decoderInit) = true
  /\ resolvedWith
       (decode decodeInput [Data (Text (lineNullBlock +++ newline)); End] decoderInit)
     = [Some (JStr "kept", None, [1], JNum "0", "$0.0000000000")].
Proof. vm_compute. split; reflexivity. Qed.

(** a cost that is a string: [finalize] marks the decoder resolved,
    detaches the listeners, throws in [toFixed], and the promise is never
    settled *)
Example cost_that_is_a_string :
  threw (onDataHandler decodeInput (Text (lineTextCost +++ newline)) decoderInit) = true
  /\ settled
       (decode decodeInput [Data (Text (lineTextCost +++ newline)); End; Error "late"]
          decoderInit)
     = []
  /\ resolved (decode decodeInput [Data (Text (lineTextCost +++ newline))] decoderInit)
     = true
  /\ detachCalls (decode decodeInput [Data (Text (lineTextCost +++ newline))] decoderInit)
     = 1.
Proof. vm_compute. repeat split. Qed.

Example compaction_split_value :
  series_episodes (series (Some seriesSame) (Some "sess-same") true exchangeTwo)
  = [episodeSame;
     {| episode_hash := "sha256(sess-same:exchange-2-hash)";
        episode_exid := Some "sess-same/1";
        episode_exchanges := [exchangeTwo] |}].
Proof. vm_compute. reflexivity. Qed.

Example continuation_value :
  series_episodes (series (Some seriesSame) (Some "sess-same") false exchangeTwo)
  = [ {| episode_hash := "sha256(sess-same:exchange-1-hash:exchange-2-hash)";
         episode_exid := Some "sess-same";
         episode_exchanges := [exchangeOne; exchangeTwo] |} ].
Proof. vm_compute. reflexivity. Qed.

Example new_window_value :
  series_episodes (series (Some seriesSame) (Some "sess-new") false exchangeTwo)
  = [episodeSame;
     {| episode_hash := "sha256(sess-new:exchange-2-hash)";
        episode_exid := Some "sess-new";
        episode_exchanges := [exchangeTwo] |}].
Proof. vm_compute. reflexivity. Qed.

(** ** The claims the decoder does not meet *)

(** C1 fails on the code.  One chunk of data holds the line [null] and
    then a [result] envelope: [JSON.parse] returns null, the access to
    [event.type] throws outside the try block, the loop over the lines of
    the chunk is left and the [result] line is never read.  The promise is
    not settled and the listeners stay attached; when the stream then
    ends, the promise is resolved with an empty output and no session id
    instead of the result.  Delivered in two chunks, the same text is
    finalized by the [result] envelope. *)
Theorem result_after_null_line_is_not_finalized :
  isResultLine lineResult = true
  /\ completeLines (lineNull +++ newline +++ lineResult +++ newline)
     = [lineNull; lineResult]
  /\ threw (onDataHandler decodeInput
              (Text (lineNull +++ newline +++ lineResult +++ newline)) decoderInit)
     = true
  /\ (let d := decode decodeInput
                 [Data (Text (lineNull +++ newline +++ lineResult +++ newline))]
                 decoderInit in
      resolved d = false /\ settled d = [] /\ detachCalls d = 0 /\ buffer d = "")
  /\ resolvedWith
       (decode decodeInput
          [Data (Text (lineNull +++ newline +++ lineResult +++ newline)); End]
          decoderInit)
     = [Some (JStr "", None, [1], JNum "0", "$0.0000000000")]
  /\ resolvedWith
       (decode decodeInput
          [Data (Text (lineNull +++ newline)); Data (Text (lineResult +++ newline))]
          decoderInit)
     = [Some (JStr "the answer is 4", Some "sess-abc-123", [1], JNum "1234",
              "$0.0030000000")].
Proof. vm_compute. repeat split. Qed.

(** C6 fails on the code.  A stream whose unfinished last line is [null]
    ends: the end handler gives the buffer to [processLine], which throws
    at [event.type], and [finalize] is not reached; the promise is never
    settled.  A stream that holds the line [null] and then an [assistant]
    envelope in one chunk and ends is finalized without the text of that
    envelope. *)
Theorem stream_end_after_null_line_does_not_finalize :
  existsb isResultLine (split_LF lineNull) = false
  /\ threw (onEndHandler decodeInput
              (decode decodeInput [Data (Text lineNull)] decoderInit))
     = true
  /\ (let d := decode decodeInput [Data (Text lineNull); End] decoderInit in
      resolved d = false /\ settled d = [] /\ detachCalls d = 0)
  /\ existsb isResultLine
       (split_LF (lineNull +++ newline +++ lineAssistant +++ newline)) = false
  /\ textOfLines (split_LF (lineNull +++ newline +++ lineAssistant +++ newline))
     = "partial output"
  /\ resolvedWith
       (decode decodeInput
          [Data (Text (lineNull +++ newline +++ lineAssistant +++ newline)); End]
          decoderInit)
     = [Some (JStr "", None, [1], JNum "0", "$0.0000000000")].
Proof. vm_compute. repeat split. Qed.

(** C5, as the specification states it, fails: the total of the output is
    a price with ten decimals, so a vendor-reported cost is not kept
    exactly.  A result envelope reports the cost 0.00000000004; the total
    of the output is the price of zero, and the number that the code reads
    back from that price is not the reported one. *)
Lemma total_cost_is_not_exactly_the_vendor_cost :
  costUsd (takeResult envelopeTinyCost decoderInit) = Some (JNum "0.00000000004")
  /\ resolvedWith
       (decode decodeInput [Data (Text (lineTinyCost +++ newline))] decoderInit)
     = [Some (JStr "done", None, [1], JNum "0", "$0.0000000000")]
  /\ getOneNumericFromIsoPrice "$0.0000000000" <> num_of_json "0.00000000004".
Proof.
  split; [vm_compute; reflexivity|]. split; [vm_compute; reflexivity|].
  intros H. vm_compute in H. discriminate H.
Qed.

(** ** Instances of the theorems *)

Lemma compaction_split_run :
  lastOpt (series_episodes seriesSame) = Some episodeSame
  /\ episode_exid episodeSame = Some "sess-same"
  /\ length (series_episodes (series (Some seriesSame) (Some "sess-same") true exchangeTwo))
     = length (series_episodes seriesSame) + 1.
Proof.
  split; [reflexivity|]. split; [reflexivity|].
  apply (compaction_split_appends_suffixed_episode
           seriesSame (sid := "sess-same") exchangeTwo
           eq_refl eq_refl (or_introl eq_refl)).
Defined.

Lemma continuation_run :
  lastOpt (series_episodes seriesSame) = Some episodeSame
  /\ episode_exid episodeSame = Some "sess-same"
  /\ length (series_episodes (series (Some seriesSame) (Some "sess-same") false exchangeTwo))
     = length (series_episodes seriesSame).
Proof.
  split; [reflexivity|]. split; [reflexivity|].
  apply (continuation_extends_latest_episode
           seriesSame (sid := "sess-same") exchangeTwo eq_refl eq_refl).
Defined.


Lemma total_cost_run :
  resolved (decode decodeInput [Data (Text (lineUsage +++ newline))] decoderInit) = false
  /\ settled
       (after (finalize decodeInput
                 (decode decodeInput [Data (Text (lineUsage +++ newline))] decoderInit)))
     = settled (decode decodeInput [Data (Text (lineUsage +++ newline))] decoderInit)
       ++ [Resolved
             (outputOf
                (decode decodeInput [Data (Text (lineUsage +++ newline)); End]
                   decoderInit))]
  /\ isPrefixedDecimal "$" "0.000005" = true
  /\ isPrefixedDecimal "$" "0.000025" = true
  /\ isPrefixedDecimal "$" "0.0000005" = true
  /\ isPrefixedDecimal "$" "0.00000625" = true
  /\ cost_cash_deets_input
       (metrics
          (outputOf
             (decode decodeInput [Data (Text (lineUsage +++ newline)); End] decoderInit)))
     = "$0.0025000000"
  /\ cost_cash_total
       (metrics
          (outputOf
             (decode decodeInput [Data (Text (lineUsage +++ newline)); End] decoderInit)))
     = "$0.0030000000".
Proof.
  assert (R : resolved
                (decode decodeInput [Data (Text (lineUsage +++ newline))] decoderInit)
              = false)
    by (vm_compute; reflexivity).
  assert (S : settled
                (after (finalize decodeInput
                          (decode decodeInput [Data (Text (lineUsage +++ newline))]
                             decoderInit)))
              = settled
                  (decode decodeInput [Data (Text (lineUsage +++ newline))] decoderInit)
                ++ [Resolved
                      (outputOf
                         (decode decodeInput
                            [Data (Text (lineUsage +++ newline)); End] decoderInit))])
    by (vm_compute; reflexivity).
  assert (PI : isPrefixedDecimal "$" "0.000005" = true) by reflexivity.
  assert (PO : isPrefixedDecimal "$" "0.000025" = true) by reflexivity.
  assert (PG : isPrefixedDecimal "$" "0.0000005" = true) by reflexivity.
  assert (PS : isPrefixedDecimal "$" "0.00000625" = true) by reflexivity.
  do 6 (split; [assumption|]).
  pose proof (total_cost_is_price_of_vendor_cost_or_derived_sum decodeInput
                (decode decodeInput [Data (Text (lineUsage +++ newline))] decoderInit)
                (outputOf
                   (decode decodeInput [Data (Text (lineUsage +++ newline)); End]
                      decoderInit))
                "$" "0.000005" "$" "0.000025" "$" "0.0000005" "$" "0.00000625"
                R S eq_refl eq_refl eq_refl eq_refl PI PO PG PS)
    as (cI & cO & cG & cS & TI & TO & TG & TS & DI & _ & _ & _ & _ & T).
  vm_compute in TI, TO, TG, TS.
  injection TI as <-. injection TO as <-. injection TG as <-. injection TS as <-.
  split.
  - rewrite DI. vm_compute. reflexivity.
  - rewrite (T eq_refl). vm_compute. reflexivity.
Defined.

Lemma session_id_never_reset_run :
  sessionId (decode decodeInput [Data (Text (lineSystem +++ newline))] decoderInit)
  = Some (JStr "sess-abc-123")
  /\ (exists latest,
        sessionId
          (decode decodeInput [Data (Text (lineAssistant +++ newline)); End]
             (decode decodeInput [Data (Text (lineSystem +++ newline))] decoderInit))
        = Some latest
        /\ (JStr "sess-abc-123" <> JNull -> latest <> JNull))
  /\ (forall line,
        lacksSessionId line = true ->
        sessionId
          (after (processLine decodeInput line
                    (decode decodeInput [Data (Text (lineSystem +++ newline))]
                       decoderInit)))
        = Some (JStr "sess-abc-123")).
Proof.
  assert (H : sessionId
                (decode decodeInput [Data (Text (lineSystem +++ newline))] decoderInit)
              = Some (JStr "sess-abc-123"))
    by (vm_compute; reflexivity).
  split; [exact H|].
  exact (session_id_never_reset decodeInput
           [Data (Text (lineAssistant +++ newline)); End]
           (decode decodeInput [Data (Text (lineSystem +++ newline))] decoderInit)
           H).
Defined.

(** the session id of the run above after the assistant line, which has
    none, and the end of the stream *)
Example session_id_kept_value :
  sessionId
    (decode decodeInput [Data (Text (lineAssistant +++ newline)); End]
       (decode decodeInput [Data (Text (lineSystem +++ newline))] decoderInit))
  = Some (JStr "sess-abc-123")
  /\ lacksSessionId lineAssistant = true.
Proof. vm_compute. split; reflexivity. Qed.

End Runs.

Module HandleRuns.
Import Reference GenBrainCli GenBrainCliFacts.


Lemma calls_in_wrong_state_run :
  instance init = None
  /\ write "hello" init = Threw "cannot write: no live process" init.
Proof.
  split; [reflexivity|].
  apply (calls_in_wrong_state_throw_and_change_nothing haikuConfig pidOf stringifyUser
           init "hello" "hello" [Data (Text (lineResult +++ newline))]).
  reflexivity.
Defined.

(** ** The claim about boot that the code does not meet *)


(** the history in which the exit is delivered before the next boot does
    satisfy the reading *)
Example boot_after_notified_exit :
  awaitsExits []
    (effects (run haikuConfig pidOf
                [CallBoot Dispatch; CallKill; ChildExit 0 None (Some "SIGTERM");
                 CallBoot Dispatch] init))
  = true.
Proof. vm_compute. reflexivity. Qed.

(** the failing run of C8 in full: after the reboot from interact to
    dispatch, the exit of the pty clears the instance and [ask] throws,
    although the dispatch process was spawned and never exited *)
Example ask_after_exit_of_replaced_pty :
  ask haikuConfig pidOf stringifyUser "hello" [Data (Text (lineResult +++ newline))]
    (run haikuConfig pidOf
       [CallBoot Interact; CallBoot Dispatch; PtyExit 0 0 None] init)
  = Threw "cannot ask: no live process. call executor.boot first"
      (run haikuConfig pidOf
         [CallBoot Interact; CallBoot Dispatch; PtyExit 0 0 None] init).
Proof. vm_compute. reflexivity. Qed.

End HandleRuns.

(* ================================================================== *)
(** * More about the reconciliation *)

Section ReconciliationMore.
Context {digest : Digest}.

Lemma length_append (a b : string) :
  String.length (a +++ b) = String.length a + String.length b.
Proof. induction a as [|c a IH]; simpl; [reflexivity | now rewrite IH]. Qed.

Lemma suffixed_differs (sid rest : string) :
  String.eqb (sid +++ "/" +++ rest) sid = false.
Proof.
  apply String.eqb_neq. intros E.
  apply (f_equal String.length) in E. rewrite !length_append in E. simpl in E. lia.
Qed.




(** the episode built for the exchange closes the episodes of the series *)
Lemma series_last_episode (prior : option BrainSeries) (sid : option string)
  (compaction : bool) (exchange : BrainExchange) :
  lastOpt (series_episodes (series prior sid compaction exchange))
  = Some (episode prior sid compaction exchange).
Proof.
  unfold series, episodesForSeries. simpl.
  destruct (isSameContextWindow prior sid compaction); apply lastOpt_app.
Qed.

(** The episode returned with the output is the current one.  It is the
    last episode of the series returned, its last exchange is the new
    exchange, and the series is named by the observed session id. *)
Theorem returned_episode_is_last_of_series :
  forall (prior : option BrainSeries) (sid : option string) (compaction : bool)
         (exchange : BrainExchange),
    lastOpt (series_episodes (series prior sid compaction exchange))
    = Some (episode prior sid compaction exchange)
    /\ lastOpt (episode_exchanges (episode prior sid compaction exchange))
       = Some exchange
    /\ series_exid (series prior sid compaction exchange) = sid.
Proof.
  intros prior sid compaction exchange. split; [|split; [|reflexivity]].
  - apply series_last_episode.
  - unfold episode. destruct (isSameContextWindow prior sid compaction); simpl.
    + destruct (episodeLatest prior); [apply lastOpt_app | reflexivity].
    + reflexivity.
Qed.

(** Two turns of one session share an episode.  When a turn with a
    session id was not a compaction split, the next turn that observes the
    same session id without compaction extends the episode of the first
    turn by its exchange and adds no episode. *)
Theorem next_turn_of_session_continues_episode :
  forall (prior : option BrainSeries) (sid : string) (compaction : bool)
         (first second : BrainExchange),
    isCompactionSplit prior (Some sid) compaction = false ->
    let after := series prior (Some sid) compaction first in
    let current := episode prior (Some sid) compaction first in
    let next := series (Some after) (Some sid) false second in
    isSameContextWindow (Some after) (Some sid) false = true
    /\ length (series_episodes next) = length (series_episodes after)
    /\ episode_exid (episode (Some after) (Some sid) false second) = Some sid
    /\ episode_exchanges (episode (Some after) (Some sid) false second)
       = episode_exchanges current ++ [second]
    /\ series_episodes next
       = sliceInit (series_episodes after)
         ++ [episode (Some after) (Some sid) false second].
Proof.
  intros prior sid compaction first second H after current next.
  pose proof (series_last_episode prior (Some sid) compaction first) as L.
  fold after current in L.
  assert (X : episode_exid current = Some sid).
  { subst current. unfold episode, episodeExid. rewrite H.
    destruct (isSameContextWindow prior (Some sid) compaction); reflexivity. }
  assert (S : isSameContextWindow (Some after) (Some sid) false = true).
  { unfold isSameContextWindow, episodeLatest, episodesPrior. rewrite L, X. simpl.
    apply String.eqb_refl. }
  assert (N : series_episodes next
              = sliceInit (series_episodes after)
                ++ [episode (Some after) (Some sid) false second]).
  { subst next. unfold series, episodesForSeries. simpl. now rewrite S. }
  split; [exact S|]. split.
  { rewrite N. now apply length_sliceInit_snoc with (x := current). }
  split.
  { unfold episode, episodeExid, isCompactionSplit. now rewrite S. }
  split; [|exact N].
  unfold episode at 1. rewrite S. unfold episodeLatest, episodesPrior. now rewrite L.
Qed.

(** After a compaction split the session does not continue the suffixed
    episode.  When a turn was a compaction split, its episode is named
    session id, slash, count; the next turn that observes the same session
    id without compaction finds no episode of that name and appends a new
    episode, named by the session id alone, that holds only its
    exchange. *)
Theorem turn_after_compaction_split_opens_new_episode :
  forall (prior : option BrainSeries) (sid : string) (compaction : bool)
         (first second : BrainExchange),
    isCompactionSplit prior (Some sid) compaction = true ->
    let after := series prior (Some sid) compaction first in
    let next := series (Some after) (Some sid) false second in
    episode_exid (episode prior (Some sid) compaction first)
    = Some (sid +++ "/" +++ tplNat (length (episodesPrior prior)))
    /\ isSameContextWindow (Some after) (Some sid) false = false
    /\ series_episodes next
       = series_episodes after
         ++ [ {| episode_hash := sha256 (sid +++ ":" +++ exchange_hash second);
                 episode_exid := Some sid;
                 episode_exchanges := [second] |} ].
Proof.
  intros prior sid compaction first second H after next.
  pose proof (series_last_episode prior (Some sid) compaction first) as L.
  fold after in L.
  assert (X : episode_exid (episode prior (Some sid) compaction first)
              = Some (sid +++ "/" +++ tplNat (length (episodesPrior prior)))).
  { unfold episode, episodeExid. rewrite H.
    destruct (isSameContextWindow prior (Some sid) compaction); reflexivity. }
  assert (S : isSameContextWindow (Some after) (Some sid) false = false).
  { unfold isSameContextWindow, episodeLatest, episodesPrior. rewrite L, X. simpl.
    apply suffixed_differs. }
  split; [exact X|]. split; [exact S|].
  subst next. unfold series, episodesForSeries, episode, episodeExid, isCompactionSplit.
  simpl. rewrite S. reflexivity.
Qed.

End ReconciliationMore.

(* ================================================================== *)
(** * More about the stream decoder *)

Section DecoderMore.
Context {number : Type} {jsNumber : JsNumber number}.
Context {digest : Digest} {codec : JsonCodec number}.
Variable input : DecodeInput.

(** ** A stream that ends, and the lines of its text *)

Lemma quiet_app (l1 l2 : list string) : quiet (l1 ++ l2) = quiet l1 && quiet l2.
Proof. apply forallb_app. Qed.

Lemma decode_snoc (events : list StreamEvent) (e : StreamEvent) (d : Decoder number) :
  decode input (events ++ [e]) d = deliver input (decode input events d) e.
Proof. unfold decode. now rewrite fold_left_app. Qed.

Lemma decode_app (events stray : list StreamEvent) (d : Decoder number) :
  decode input (events ++ stray) d = decode input stray (decode input events d).
Proof. unfold decode. apply fold_left_app. Qed.

(** a stream of data that ends, whose complete lines are quiet, settles
    what its lines settle, the unfinished last line included *)
Lemma decode_end_lines (chunks : list Chunk) :
  let text := streamText (map Data chunks) in
  quiet (completeLines text) = true ->
  let d := decode input (map Data chunks ++ [End]) decoderInit in
  let s := settleLines input (split_LF text) decoderInit in
  resolved d = resolved s /\ settled d = settled s /\ detachCalls d = detachCalls s.
Proof.
  intros text Q d s. subst d s.
  pose proof (decode_data_lines input chunks) as K. cbn zeta in K. fold text in K.
  pose proof (processLines_quiet input (completeLines text) decoderInit Q eq_refl) as H.
  destruct (K H) as [U V]. clear K.
  rewrite decode_snoc. unfold settleLines.
  rewrite (split_LF_frames text). fold (completeLines text) (trailingLine text).
  rewrite processLines_app by reflexivity.
  set (t := trailingLine text) in *.
  destruct (processLines input (completeLines text) decoderInit) as [p|p] eqn:C;
    cbn [after threw andThen] in *.
  - destruct (resolved p) eqn:R.
    + destruct (V eq_refl) as (V1 & V2 & V3). cbn [andThen after]. rewrite R. cbn [after].
      destruct (deliver_advance input (decode input (map Data chunks) decoderInit) End)
        as [(A1 & A2 & A3) | (A1 & _)]; [|congruence].
      repeat split; congruence.
    + rewrite (U eq_refl). unfold deliver. cbn [handle processLines]. unfold onEndHandler.
      change (buffer (set_buffer t p)) with t.
      assert (P : (if truthyStr (trim t)
                   then processLine input t (set_buffer t p)
                   else Returns (set_buffer t p))
                  = withBuffer t (processLine input t p)).
      { rewrite processLine_set_buffer.
        destruct (truthyStr (trim t)) eqn:T; [reflexivity|].
        now rewrite processLine_blank. }
      rewrite P. destruct (processLine input t p) as [q|q]; cbn [withBuffer andThen after].
      * change (resolved (set_buffer t q)) with (resolved q).
        destruct (resolved q) eqn:RQ; cbn [negb andThen after]; rewrite ?RQ; cbn [after].
        -- repeat split.
        -- rewrite finalize_set_buffer, withBuffer_after. repeat split.
      * repeat split.
  - specialize (H eq_refl). destruct (V H) as (V1 & V2 & V3).
    destruct (deliver_advance input (decode input (map Data chunks) decoderInit) End)
      as [(A1 & A2 & A3) | (A1 & _)]; [|congruence].
    repeat split; congruence.
Qed.

(** The outcome depends on the text, not on the chunks.  Two streams of
    data that end, whose chunks, each read by [toString], concatenate to
    the same text, and none of whose complete lines makes [processLine]
    throw outside the [result] branch, settle the promise in the same
    way: both resolve it with the same output, or both leave it
    unsettled.  The text is that of the chunks as decoded one by one: a
    Buffer cut inside a character decodes to another text than the whole,
    and a line that throws ends the loop over the lines of its chunk
    only, so neither hypothesis can be left out. *)
Theorem outcome_independent_of_chunking :
  forall (chunks chunks' : list Chunk),
    concatAll (map chunkText chunks) = concatAll (map chunkText chunks') ->
    quiet (completeLines (concatAll (map chunkText chunks))) = true ->
    settled (decode input (map Data chunks ++ [End]) decoderInit)
    = settled (decode input (map Data chunks' ++ [End]) decoderInit).
Proof.
  intros chunks chunks' E Q.
  destruct (decode_end_lines chunks) as (_ & S & _);
    [now rewrite streamText_chunks|].
  destruct (decode_end_lines chunks') as (_ & S' & _);
    [now rewrite streamText_chunks, <- E|].
  rewrite S, S', !streamText_chunks, E. reflexivity.
Qed.

(** ** Noise *)

Lemma processLine_noise (line : string) (d : Decoder number) :
  isNoise line = true -> processLine input line d = Returns d.
Proof.
  unfold isNoise. rewrite processLine_envelope. intros H.
  destruct (envelopeOf line) as [event|]; [|reflexivity].
  assert (N : event <> JNull) by (intros ->; discriminate).
  rewrite (processEvent_takeEvent input d N).
  assert (K : knownKind event = false) by (destruct event; try congruence; now apply negb_true_iff).
  unfold knownKind, kindIs in K.
  repeat (apply orb_false_iff in K; destruct K as [K ?]).
  unfold takeEvent.
  repeat match goal with L : isStr _ _ = false |- _ => rewrite L; clear L end.
  reflexivity.
Qed.

Lemma noise_quiet (line : string) : isNoise line = true -> lineThrows line = false.
Proof.
  unfold isNoise, lineThrows. destruct (envelopeOf line) as [event|]; [|reflexivity].
  intros H.
  assert (N : event <> JNull) by (intros ->; discriminate).
  assert (K : knownKind event = false)
    by (destruct event; try congruence; now apply negb_true_iff).
  rewrite (eventThrows_branch N). unfold knownKind in K.
  repeat (apply orb_false_iff in K; destruct K as [K ?]).
  unfold branchThrows.
  repeat match goal with L : kindIs _ _ = false |- _ => rewrite L; clear L end.
  reflexivity.
Qed.

Lemma processLines_without_noise (lines : list string) (d : Decoder number) :
  resolved d = false ->
  processLines input (filter (fun line => negb (isNoise line)) lines) d
  = processLines input lines d.
Proof.
  revert d. induction lines as [|line lines IH]; intros d R; simpl; [reflexivity|].
  destruct (isNoise line) eqn:N; simpl.
  - rewrite (processLine_noise line d N). cbn [andThen]. rewrite R. now apply IH.
  - destruct (processLine input line d) as [d1|d1]; cbn [andThen]; [|reflexivity].
    destruct (resolved d1) eqn:R1; [reflexivity | now apply IH].
Qed.

Lemma quiet_without_noise (lines : list string) :
  quiet (filter (fun line => negb (isNoise line)) lines) = quiet lines.
Proof.
  induction lines as [|line lines IH]; simpl; [reflexivity|].
  destruct (isNoise line) eqn:N; simpl.
  - now rewrite (noise_quiet line N), IH.
  - now rewrite IH.
Qed.

Lemma quiet_complete (text : string) :
  quiet (split_LF text) = true -> quiet (completeLines text) = true.
Proof.
  rewrite (split_LF_frames text) at 1. rewrite quiet_app. intros H.
  now apply andb_true_iff in H.
Qed.

(** Noise does not change the outcome.  Two streams of data that end and
    whose lines, once the blank lines, the lines that are not JSON and the
    values that are not null and of no known kind are left out, are the
    same lines in the same order, none of which makes [processLine] throw
    outside the [result] branch, settle the promise in the same way. *)
Theorem noise_lines_do_not_change_outcome :
  forall (chunks chunks' : list Chunk),
    filter (fun line => negb (isNoise line))
      (split_LF (concatAll (map chunkText chunks)))
    = filter (fun line => negb (isNoise line))
        (split_LF (concatAll (map chunkText chunks'))) ->
    quiet (filter (fun line => negb (isNoise line))
             (split_LF (concatAll (map chunkText chunks)))) = true ->
    settled (decode input (map Data chunks ++ [End]) decoderInit)
    = settled (decode input (map Data chunks' ++ [End]) decoderInit).
Proof.
  intros chunks chunks' E Q.
  assert (Q' : quiet (filter (fun line => negb (isNoise line))
                        (split_LF (concatAll (map chunkText chunks')))) = true)
    by now rewrite <- E.
  rewrite quiet_without_noise in Q, Q'.
  destruct (decode_end_lines chunks) as (_ & S & _);
    [rewrite streamText_chunks; now apply quiet_complete|].
  destruct (decode_end_lines chunks') as (_ & S' & _);
    [rewrite streamText_chunks; now apply quiet_complete|].
  rewrite S, S', !streamText_chunks. unfold settleLines.
  rewrite <- (processLines_without_noise
                (split_LF (concatAll (map chunkText chunks))) decoderInit eq_refl).
  rewrite <- (processLines_without_noise
                (split_LF (concatAll (map chunkText chunks'))) decoderInit eq_refl).
  now rewrite E.
Qed.

(** ** A stream error *)

(** A stream error before any result rejects.  When the data delivered so
    far, in chunks of either kind, holds no complete [result] line and the
    stream emits an error, the promise is rejected, once, with the stream
    error message of the decoder and the message of the error, also when
    a data handler threw before; nothing the stream delivers afterwards
    settles it again. *)
Theorem stream_error_before_result_rejects :
  forall (chunks : list Chunk) (message : string) (stray : list StreamEvent),
    existsb isResultLine (completeLines (streamText (map Data chunks))) = false ->
    let d := decode input (map Data chunks ++ Error message :: stray) decoderInit in
    settled d = [Rejected "stream error while read of brain output" message]
    /\ finalizedOnce d.
Proof.
  intros chunks message stray H d.
  destruct (data_unresolved input chunks decoderInit eq_refl eq_refl H)
    as (R & S & D & _).
  set (dn := decode input (map Data chunks) decoderInit) in *.
  assert (E : d = decode input stray (after (onErrorHandler message dn))).
  { subst d. now rewrite decode_app. }
  assert (A : after (onErrorHandler message dn)
              = onReject "stream error while read of brain output" message
                  (detachListeners (set_resolved true dn))).
  { unfold onErrorHandler. now rewrite R. }
  destruct (resolved_stays input stray (after (onErrorHandler message dn)))
    as (K1 & K2 & K3); [now rewrite A|].
  rewrite <- E in K1, K2, K3. rewrite A in K2, K3. cbn in K2, K3.
  rewrite S in K2. rewrite D in K3.
  split; [exact K2|]. repeat split; [exact K1 | now rewrite K2 | exact K3].
Qed.

(** ** The text and the session id of quiet lines *)

Lemma textOf_quiet (cond : bool) (text : option Json) (d : Decoder number) :
  textThrows cond text = false ->
  takeText cond text d
  = Returns (set_textAccumulated (textAccumulated d +++ textOf cond text) d).
Proof.
  unfold textThrows, takeText, textOf. destruct text as [v|].
  - destruct (cond && truthy (Some v)); simpl.
    + destruct (toPlus v); [reflexivity | discriminate].
    + intros _. rewrite append_empty_r. now destruct d.
  - intros _. rewrite append_empty_r. now destruct d.
Qed.

Lemma set_textAccumulated_same (d : Decoder number) :
  set_textAccumulated (textAccumulated d) d = d.
Proof. now destruct d. Qed.

Lemma takeBlocks_quiet (blocks : list Json) (d : Decoder number) :
  existsb blockThrows blocks = false ->
  takeBlocks blocks d
  = Returns (set_textAccumulated
               (textAccumulated d +++ concatAll (map blockText blocks)) d).
Proof.
  revert d. induction blocks as [|block blocks IH]; intros d H; simpl in *.
  - now rewrite append_empty_r, set_textAccumulated_same.
  - apply orb_false_iff in H. destruct H as [H1 H2].
    assert (B : takeBlock block d
                = Returns (set_textAccumulated
                             (textAccumulated d +++ blockText block) d)).
    { destruct block; try (apply textOf_quiet; exact H1). discriminate. }
    rewrite B. cbn [andThen]. rewrite (IH _ H2). cbn. now rewrite append_assoc.
Qed.

Lemma takeContent_quiet (message : option Json) (d : Decoder number) :
  contentThrows message = false ->
  takeContent message d
  = Returns (set_textAccumulated (textAccumulated d +++ contentText message) d).
Proof.
  unfold contentThrows, takeContent, contentText.
  destruct (optChain message "content") as [content|];
    [|intros _; now rewrite append_empty_r, set_textAccumulated_same].
  destruct (truthy (Some content)); simpl;
    [|intros _; now rewrite append_empty_r, set_textAccumulated_same].
  destruct (iterate content) as [blocks|]; [|discriminate].
  apply takeBlocks_quiet.
Qed.

Lemma takeUsageOpt_text (usage : option Json) (d : Decoder number) :
  textAccumulated (takeUsageOpt usage d) = textAccumulated d.
Proof. unfold takeUsageOpt, takeUsage, whenTruthy. by_cases. Qed.

(** what a quiet line that is not a [result] envelope does to the text
    and to the session id *)
Lemma takeEvent_quiet (event : Json) (d : Decoder number) :
  kindIs event "result" = false ->
  branchThrows event = false ->
  exists d',
    takeEvent input event d = Returns d'
    /\ textAccumulated d' = textAccumulated d +++ eventText event
    /\ sessionId d' = coalesce (eventSessionId event) (sessionId d).
Proof.
  intros T Q. unfold branchThrows in Q. rewrite T in Q.
  unfold takeEvent, eventText, eventSessionId. rewrite T. unfold kindIs in *. rewrite T.
  cbn [orb].
  destruct (isStr (getProp event "type") "assistant") eqn:A.
  { unfold takeAssistant. rewrite (takeContent_quiet _ d Q). cbn [andThen].
    eexists. split; [reflexivity|]. cbn.
    rewrite takeUsageOpt_text, takeUsageOpt_sessionId. split; reflexivity. }
  destruct (isStr (getProp event "type") "stream_event") eqn:S.
  { destruct (isStr (getProp event "type") "system") eqn:Y.
    { exfalso. unfold isStr in S, Y. destruct (getProp event "type") as [[]|];
        try discriminate. apply String.eqb_eq in S, Y. congruence. }
    cbn [orb]. destruct (getProp event "event") as [inner|].
    - destruct (truthy (Some inner)); cbn [andb] in Q.
      + unfold processStreamEvent, innerText. unfold innerThrows in Q.
        destruct (isStr (getProp inner "type") "message_start").
        { eexists. split; [reflexivity|]. split.
          - unfold whenTruthy. rewrite append_empty_r. by_cases.
          - unfold whenTruthy. by_cases. }
        destruct (isStr (getProp inner "type") "content_block_delta").
        { rewrite (textOf_quiet _ _ d Q). eexists. split; [reflexivity|].
          split; reflexivity. }
        destruct (isStr (getProp inner "type") "message_delta");
          eexists; (split; [reflexivity|]); rewrite append_empty_r;
          rewrite ?takeUsageOpt_text, ?takeUsageOpt_sessionId; split; reflexivity.
      + eexists. split; [reflexivity|]. rewrite append_empty_r. split; reflexivity.
    - eexists. split; [reflexivity|]. rewrite append_empty_r. split; reflexivity. }
  destruct (isStr (getProp event "type") "system") eqn:Y.
  { destruct (isStr (getProp event "subtype") "compact_boundary");
      eexists; (split; [reflexivity|]); rewrite append_empty_r; split; reflexivity. }
  destruct (isStr (getProp event "type") "compact_boundary");
    eexists; (split; [reflexivity|]); rewrite append_empty_r; split; reflexivity.
Qed.

Lemma processLine_quiet_line (line : string) (d : Decoder number) :
  isResultLine line = false ->
  lineThrows line = false ->
  exists d',
    processLine input line d = Returns d'
    /\ textAccumulated d' = textAccumulated d +++ lineText line
    /\ sessionId d' = coalesce (lineSessionId line) (sessionId d).
Proof.
  intros I Q. rewrite processLine_envelope.
  unfold isResultLine, lineThrows, lineText, lineSessionId in *.
  destruct (envelopeOf line) as [event|].
  - assert (N : event <> JNull) by (intros ->; discriminate).
    rewrite (processEvent_takeEvent input d N).
    rewrite (eventThrows_branch N) in Q. now apply takeEvent_quiet.
  - exists d. rewrite append_empty_r. repeat split.
Qed.

Lemma absorb_quiet (lines : list string) (d : Decoder number) :
  existsb isResultLine lines = false ->
  quiet lines = true ->
  textAccumulated (absorb input lines d) = textAccumulated d +++ textOfLines lines
  /\ sessionId (absorb input lines d) = sessionIdAfter lines (sessionId d).
Proof.
  unfold absorb, textOfLines, sessionIdAfter.
  revert d. induction lines as [|line lines IH]; intros d H Q; simpl in *.
  - now rewrite append_empty_r.
  - apply orb_false_iff in H. destruct H as [H1 H2].
    apply andb_true_iff in Q. destruct Q as [Q1 Q2]. apply negb_true_iff in Q1.
    destruct (processLine_quiet_line line d H1 Q1) as (d' & E & T & S).
    rewrite E. cbn [after]. destruct (IH d' H2 Q2) as [IT IS].
    rewrite IT, IS, T, S, append_assoc. split; reflexivity.
Qed.

(** ** The first result envelope *)

Lemma takeResult_text (event : Json) (d : Decoder number) :
  textAccumulated (takeResult event d) = textAccumulated d.
Proof.
  unfold takeResult. set (d4 := set_resultText _ _).
  assert (H : textAccumulated (takeUsageOpt (getProp event "usage") d4)
              = textAccumulated d) by (rewrite takeUsageOpt_text; reflexivity).
  destruct (negb _ && _); exact H.
Qed.

Lemma takeUsageOpt_resultText (usage : option Json) (d : Decoder number) :
  resultText (takeUsageOpt usage d) = resultText d.
Proof. unfold takeUsageOpt, takeUsage, whenTruthy. by_cases. Qed.

Lemma takeResult_resultText (event : Json) (d : Decoder number) :
  resultText (takeResult event d) = coalesce (getProp event "result") (resultText d).
Proof.
  unfold takeResult. set (d4 := set_resultText _ _).
  assert (H : resultText (takeUsageOpt (getProp event "usage") d4)
              = coalesce (getProp event "result") (resultText d))
    by (rewrite takeUsageOpt_resultText; reflexivity).
  destruct (negb _ && _); exact H.
Qed.

(** the output and the series id of a built output, from the variables *)
Lemma brainOutput_reads (d : Decoder number) (out : BrainOutput number) :
  brainOutput input d = Some out ->
  output out = outputText d
  /\ option_map JStr (series_exid (output_series out)) = coalesce (sessionId d) None.
Proof.
  unfold brainOutput. destruct (decoderMetrics input d); [|discriminate].
  destruct (decoderExchange input d); [|discriminate].
  destruct (sessionOf d) as [sid|] eqn:S; [|discriminate].
  intros [= <-]. cbn. split; [reflexivity|].
  unfold sessionOf in S. destruct (coalesce (sessionId d) None) as [[]|];
    try discriminate; injection S as <-; reflexivity.
Qed.

Lemma coalesce_none (v : option Json) (other : option Json) :
  coalesce (coalesce v other) None = coalesce v (coalesce other None).
Proof. unfold coalesce. destruct v as [[]|]; simpl; try reflexivity. Qed.

(** The first result envelope decides.  When the complete lines of the
    data are quiet lines without a [result] envelope, then a [result]
    envelope, then any lines, the decoder is finalized by that envelope,
    whatever the stream delivers after that data.  If the output can be
    built, the promise is resolved with it, once: the output is the
    result of the envelope, or, when it has none, the text accumulated
    over the lines before it; the series is named by the session id of
    the envelope, or, when it has none, by the one last observed before
    it; the lines after the envelope contribute nothing.  If the
    construction of the output throws, the decoder is marked resolved, the
    listeners are detached and the promise is never settled. *)
Theorem first_result_envelope_decides :
  forall (chunks : list Chunk) (stray : list StreamEvent)
         (before rest : list string) (line : string) (event : Json),
    completeLines (streamText (map Data chunks)) = before ++ line :: rest ->
    existsb isResultLine before = false ->
    quiet before = true ->
    envelopeOf line = Some event ->
    kindIs event "result" = true ->
    let d := decode input (map Data chunks ++ stray) decoderInit in
    resolved d = true /\ detachCalls d = 1
    /\ match brainOutput input (takeResult event (absorb input before decoderInit)) with
       | Some out =>
           settled d = [Resolved out]
           /\ finalizedOnce d
           /\ output out
              = match coalesce (getProp event "result") None with
                | Some text => text
                | None => JStr (textOfLines before)
                end
           /\ option_map JStr (series_exid (output_series out))
              = coalesce (getProp event "session_id")
                  (coalesce (sessionIdAfter before None) None)
       | None => settled d = []
       end.
Proof.
  intros chunks stray before rest line event L H Q E T d.
  set (seen := absorb input before decoderInit) in *.
  destruct (absorb_other input before decoderInit H) as (R & S & D & _ & RT & _).
  fold seen in R, S, D, RT. cbn in R, S, D, RT.
  destruct (absorb_quiet before decoderInit H Q) as [AT AS]. fold seen in AT, AS.
  cbn in AT, AS.
  assert (RR : resolved (takeResult event seen) = false).
  { destruct (takeResult_flow event seen) as (C & _). congruence. }
  destruct (finalize_leaves input (takeResult event seen) RR) as (F1 & F2 & _ & F4 & F5).
  assert (SR : settled (takeResult event seen) = []).
  { destruct (takeResult_flow event seen) as (_ & C & _). congruence. }
  assert (DR : detachCalls (takeResult event seen) = 0).
  { destruct (takeResult_flow event seen) as (_ & _ & C & _). congruence. }
  rewrite SR in F4. rewrite DR in F2.
  pose proof (decode_data_lines input chunks) as K. cbn zeta in K. rewrite L in K.
  assert (P : processLines input (before ++ line :: rest) decoderInit
              = finalize input (takeResult event seen)).
  { rewrite processLines_app by reflexivity.
    rewrite (processLines_absorb input before decoderInit eq_refl H Q). fold seen.
    cbn [andThen]. rewrite R. cbn [processLines].
    rewrite (processLine_result input line seen E T).
    destruct (finalize input (takeResult event seen)) as [p|p]; cbn [andThen];
      [|reflexivity].
    cbn in F1. now rewrite F1. }
  rewrite P in K. destruct K as [_ V]; [intros _; exact F1|].
  destruct (V F1) as (V1 & V2 & V3).
  destruct (resolved_stays input stray (decode input (map Data chunks) decoderInit) V1)
    as (W1 & W2 & W3).
  assert (Ed : d = decode input stray (decode input (map Data chunks) decoderInit))
    by (subst d; apply decode_app).
  rewrite <- Ed in W1, W2, W3.
  split; [exact W1|]. split; [congruence|].
  destruct (brainOutput input (takeResult event seen)) as [out|] eqn:B.
  - cbn [app] in F4. assert (Sd : settled d = [Resolved out]) by congruence.
    split; [exact Sd|]. split.
    { repeat split; [exact W1 | now rewrite Sd | congruence]. }
    destruct (brainOutput_reads _ B) as [O Z]. split.
    + rewrite O. unfold outputText.
      rewrite takeResult_resultText, RT, takeResult_text, AT, coalesce_none.
      reflexivity.
    + rewrite Z, takeResult_sessionId, AS. apply coalesce_none.
  - congruence.
Qed.

(** A stream that ends without a result, line by line.  When the lines
    of a stream of data that ends are quiet and hold no [result]
    envelope, the decoder is finalized by the end of the stream.  If the
    output can be built, the promise is resolved with it, once; the
    output is the text accumulated over all lines, the unfinished last
    one included, and the series is named by the session id last
    observed, null when none was.  If the construction of the output
    throws, the promise is never settled. *)
Theorem quiet_stream_end_without_result_finalizes :
  forall (chunks : list Chunk),
    let lines := split_LF (streamText (map Data chunks)) in
    existsb isResultLine lines = false ->
    quiet lines = true ->
    let d := decode input (map Data chunks ++ [End]) decoderInit in
    resolved d = true /\ detachCalls d = 1
    /\ match brainOutput input (absorb input lines decoderInit) with
       | Some out =>
           settled d = [Resolved out]
           /\ output out = JStr (textOfLines lines)
           /\ option_map JStr (series_exid (output_series out))
              = coalesce (sessionIdAfter lines None) None
       | None => settled d = []
       end.
Proof.
  intros chunks lines H Q d.
  destruct (decode_end_lines chunks) as (E1 & E2 & E3);
    [now apply quiet_complete|].
  fold lines d in E1, E2, E3. unfold settleLines in E1, E2, E3.
  rewrite (processLines_absorb input lines decoderInit eq_refl H Q) in E1, E2, E3.
  cbn [andThen] in E1, E2, E3.
  set (seen := absorb input lines decoderInit) in *.
  destruct (absorb_other input lines decoderInit H) as (R & S & D & _ & RT & _).
  fold seen in R, S, D, RT. cbn in R, S, D, RT.
  destruct (absorb_quiet lines decoderInit H Q) as [AT AS]. fold seen in AT, AS.
  cbn in AT, AS.
  rewrite R in E1, E2, E3.
  destruct (finalize_leaves input seen R) as (F1 & F2 & _ & F4 & _).
  rewrite S in F4. rewrite D in F2.
  split; [congruence|]. split; [congruence|].
  destruct (brainOutput input seen) as [out|] eqn:B; [|congruence].
  cbn [app] in F4. split; [congruence|].
  destruct (brainOutput_reads _ B) as [O Z]. split.
  - rewrite O. unfold outputText. rewrite RT. cbn. now rewrite AT.
  - now rewrite Z, AS.
Qed.

(** ** A line that throws *)

(** A line that throws hides the rest of its chunk.  When the complete
    lines that a chunk of data brings are quiet lines without a [result]
    envelope and then a line on which [processLine] throws outside the
    [result] branch, the data handler throws: nothing is settled or
    detached, the decoder stays unresolved, the buffer holds the text
    after the last line feed, and the lines of the chunk after that line,
    a [result] envelope among them or not, have no effect on the
    decoder. *)
Theorem throwing_line_hides_rest_of_chunk :
  forall (chunk : Chunk) (d : Decoder number) (before rest : list string)
         (line : string) (tail : string),
    resolved d = false ->
    split_LF (buffer d +++ chunkText chunk) = before ++ line :: rest ++ [tail] ->
    existsb isResultLine before = false ->
    quiet before = true ->
    isResultLine line = false ->
    lineThrows line = true ->
    let d' := after (onDataHandler input chunk d) in
    threw (onDataHandler input chunk d) = true
    /\ resolved d' = false /\ settled d' = settled d /\ detachCalls d' = detachCalls d
    /\ buffer d' = tail
    /\ d' = set_buffer tail (after (processLine input line (absorb input before d))).
Proof.
  intros chunk d before rest line tail R L H Q I T d'.
  assert (C : completeLines (buffer d +++ chunkText chunk) = before ++ line :: rest).
  { unfold completeLines. rewrite L.
    change (before ++ line :: rest ++ [tail]) with (before ++ (line :: rest) ++ [tail]).
    rewrite app_assoc, removelast_last. reflexivity. }
  assert (B : trailingLine (buffer d +++ chunkText chunk) = tail).
  { unfold trailingLine. rewrite L.
    change (before ++ line :: rest ++ [tail]) with (before ++ (line :: rest) ++ [tail]).
    rewrite app_assoc. apply last_last. }
  pose proof (onDataHandler_aborts input chunk d before rest line R C H Q I T) as E.
  rewrite B in E. subst d'. rewrite E. cbn [after threw].
  destruct (absorb_other input before d H) as (A1 & A2 & A3 & _).
  destruct (processLine_other input line (absorb input before d) I)
    as [(P1 & P2 & P3 & _) _].
  repeat split; cbn; congruence.
Qed.

(** ** What was observed stays observed *)

Ltac kept := unfold observedKept; repeat split; intros; simpl in *; auto.

Lemma observedKept_refl (d : Decoder number) : observedKept d d.
Proof. kept. Qed.

Lemma observedKept_trans (a b c : Decoder number) :
  observedKept a b -> observedKept b c -> observedKept a c.
Proof.
  unfold observedKept. intros (H1 & H2 & H3 & H4 & H5) (K1 & K2 & K3 & K4 & K5).
  repeat split; auto.
Qed.

Lemma whenTruthy_kept (n : option Json) (d : Decoder number) :
  observedKept d (whenTruthy n (@set_tokensInput number) d)
  /\ observedKept d (whenTruthy n (@set_tokensOutput number) d)
  /\ observedKept d (whenTruthy n (@set_tokensCacheSet number) d)
  /\ observedKept d (whenTruthy n (@set_tokensCacheGet number) d).
Proof.
  unfold whenTruthy. destruct n as [v|]; [|repeat split; apply observedKept_refl].
  destruct (truthy (Some v)) eqn:T; [|repeat split; apply observedKept_refl].
  repeat split; kept.
Qed.

Lemma takeUsageOpt_kept (usage : option Json) (d : Decoder number) :
  observedKept d (takeUsageOpt usage d).
Proof.
  unfold takeUsageOpt, takeUsage. destruct usage as [u|]; [|apply observedKept_refl].
  destruct (truthy (Some u)); [|apply observedKept_refl].
  eapply observedKept_trans; [|apply whenTruthy_kept].
  eapply observedKept_trans; [|apply whenTruthy_kept].
  eapply observedKept_trans; [|apply whenTruthy_kept].
  apply whenTruthy_kept.
Qed.

Lemma takeText_kept (cond : bool) (text : option Json) (d : Decoder number) :
  observedKept d (after (takeText cond text d)).
Proof. unfold takeText. repeat break_match; kept. Qed.

Lemma takeBlocks_kept (blocks : list Json) (d : Decoder number) :
  observedKept d (after (takeBlocks blocks d)).
Proof.
  revert d. induction blocks as [|block blocks IH]; intros d; simpl.
  - apply observedKept_refl.
  - rewrite after_andThen.
    assert (H : observedKept d (after (takeBlock block d)))
      by (destruct block; try apply takeText_kept; apply observedKept_refl).
    destruct (takeBlock block d) as [d1|d1]; simpl in H; [|exact H].
    exact (observedKept_trans H (IH d1)).
Qed.

Lemma set_sessionId_kept (v : option Json) (d : Decoder number) :
  observedKept d (set_sessionId v d).
Proof. kept. Qed.

Lemma takeAssistant_kept (event : Json) (d : Decoder number) :
  observedKept d (after (takeAssistant event d)).
Proof.
  unfold takeAssistant, takeContent. rewrite after_andThen.
  set (c := match optChain _ _ with Some _ => _ | None => _ end).
  assert (H : observedKept d (after c)).
  { subst c. repeat break_match; try apply observedKept_refl. apply takeBlocks_kept. }
  destruct c as [d1|d1]; simpl in H; [|exact H]. cbn [after].
  eapply observedKept_trans; [exact H|].
  eapply observedKept_trans; [apply takeUsageOpt_kept | apply set_sessionId_kept].
Qed.

Lemma processStreamEvent_kept (inner : Json) (d : Decoder number) :
  observedKept d (after (processStreamEvent inner d)).
Proof.
  unfold processStreamEvent.
  repeat break_match; cbn [after]; try apply observedKept_refl;
    try apply takeUsageOpt_kept; try apply whenTruthy_kept; apply takeText_kept.
Qed.

Lemma takeResult_kept (event : Json) (d : Decoder number) :
  observedKept d (takeResult event d).
Proof.
  unfold takeResult. set (d4 := set_resultText _ _).
  assert (H4 : observedKept d d4) by kept.
  pose proof (observedKept_trans H4 (takeUsageOpt_kept (getProp event "usage") d4)) as H5.
  destruct (negb _ && _); [|exact H5].
  eapply observedKept_trans; [exact H5 | kept].
Qed.

Lemma finalize_kept (d : Decoder number) : observedKept d (after (finalize input d)).
Proof. unfold finalize. repeat break_match; kept. Qed.

Lemma takeEvent_kept (event : Json) (d : Decoder number) :
  observedKept d (after (takeEvent input event d)).
Proof.
  unfold takeEvent. repeat break_match; cbn [after]; try apply observedKept_refl;
    try apply processStreamEvent_kept; try apply takeAssistant_kept;
    try (kept; fail).
  eapply observedKept_trans; [apply takeResult_kept | apply finalize_kept].
Qed.

Lemma processLine_kept (line : string) (d : Decoder number) :
  observedKept d (after (processLine input line d)).
Proof.
  unfold processLine, processEvent. repeat break_match; try apply observedKept_refl;
    apply takeEvent_kept.
Qed.

Lemma processLines_kept (lines : list string) (d : Decoder number) :
  observedKept d (after (processLines input lines d)).
Proof.
  revert d. induction lines as [|line lines IH]; intros d; simpl.
  - apply observedKept_refl.
  - rewrite after_andThen. pose proof (processLine_kept line d) as H.
    destruct (processLine input line d) as [d1|d1]; simpl in H; [|exact H].
    destruct (resolved d1); [exact H|].
    exact (observedKept_trans H (IH d1)).
Qed.

Lemma deliver_kept (d : Decoder number) (e : StreamEvent) :
  observedKept d (deliver input d e).
Proof.
  unfold deliver. destruct e as [chunk| |message]; simpl.
  - unfold onDataHandler. destruct (resolved d); [apply observedKept_refl|].
    eapply observedKept_trans; [|apply processLines_kept]. kept.
  - unfold onEndHandler. rewrite after_andThen.
    set (c := if truthyStr (trim (buffer d)) then _ else _).
    assert (H1 : observedKept d (after c)).
    { subst c. destruct (truthyStr _); [apply processLine_kept | apply observedKept_refl]. }
    destruct c as [d1|d1]; simpl in H1; [|exact H1].
    destruct (resolved d1); simpl; [exact H1|].
    eapply observedKept_trans; [exact H1 | apply finalize_kept].
  - unfold onErrorHandler. destruct (resolved d); kept.
Qed.

(** What was observed stays observed.  Whatever the stream delivers, also
    when a handler throws, a compaction flag that is set stays set, and a
    token counter (input, output, cache read, cache write) that is truthy
    does not become falsy: a later usage report of zero for a category
    does not erase the count observed before. *)
Theorem observations_are_never_cleared :
  forall (events : list StreamEvent) (d : Decoder number),
    let d' := decode input events d in
    (compactionDetected d = true -> compactionDetected d' = true)
    /\ (truthy (Some (tokensInput d)) = true -> truthy (Some (tokensInput d')) = true)
    /\ (truthy (Some (tokensOutput d)) = true -> truthy (Some (tokensOutput d')) = true)
    /\ (truthy (Some (tokensCacheGet d)) = true
        -> truthy (Some (tokensCacheGet d')) = true)
    /\ (truthy (Some (tokensCacheSet d)) = true
        -> truthy (Some (tokensCacheSet d')) = true).
Proof.
  intros events d d'. subst d'. unfold decode. revert d.
  induction events as [|e events IH]; intros d; simpl.
  - apply observedKept_refl.
  - exact (observedKept_trans (deliver_kept d e) (IH (deliver input d e))).
Qed.

End DecoderMore.

(* ================================================================== *)
(** * Facts about brain slugs and the routing *)

Lemma indexOf_app_absent (c : ascii) (a b : string) :
  indexOf c a = None -> indexOf c (a +++ String c b) = Some (String.length a).
Proof.
  induction a as [|x a IH]; simpl; intros H.
  - now rewrite Ascii.eqb_refl.
  - destruct (Ascii.eqb x c); [discriminate|].
    destruct (indexOf c a); [discriminate|]. now rewrite IH.
Qed.

Lemma indexOf_app_none (c : ascii) (a b : string) :
  indexOf c a = None -> indexOf c b = None -> indexOf c (a +++ b) = None.
Proof.
  induction a as [|x a IH]; simpl; intros Ha Hb; [assumption|].
  destruct (Ascii.eqb x c); [discriminate|].
  destruct (indexOf c a); [discriminate|]. now rewrite IH.
Qed.

Lemma sliceFrom_app (a b : string) (c : ascii) :
  sliceFrom (String.length a + 1) (a +++ String c b) = b.
Proof. induction a as [|x a IH]; simpl; [reflexivity | exact IH]. Qed.

Lemma sliceTo_app (a b : string) : sliceTo (String.length a) (a +++ b) = a.
Proof.
  induction a as [|x a IH]; simpl; [now destruct b | now rewrite IH].
Qed.

(** the first occurrence of a character cuts the string in two *)
Lemma indexOf_cut (c : ascii) (s : string) (i : nat) :
  indexOf c s = Some i ->
  s = sliceTo i s +++ String c (sliceFrom (i + 1) s)
  /\ indexOf c (sliceTo i s) = None.
Proof.
  revert i. induction s as [|x s IH]; simpl; intros i H; [discriminate|].
  destruct (Ascii.eqb x c) eqn:E.
  - injection H as <-. apply Ascii.eqb_eq in E. subst. simpl. auto.
  - destruct (indexOf c s) as [j|]; [|discriminate]. injection H as <-.
    destruct (IH j eq_refl) as [H1 H2]. simpl. rewrite E, H2. split; [|reflexivity].
    now rewrite <- H1.
Qed.

Lemma sliceFrom_all (s : string) : sliceFrom (String.length s) s = "".
Proof. induction s as [|x s IH]; simpl; [reflexivity | exact IH]. Qed.

(** A well-formed slug is read back.  For a slug made of a name without
    [@], an [@], a supplier without slash, a slash and a path, the supplier
    slug is that supplier and the atom slug is that path. *)
Theorem slug_parts_are_read_back :
  forall (name supplier path : string),
    indexOf "@" name = None ->
    indexOf "/" supplier = None ->
    let slug := name +++ "@" +++ supplier +++ "/" +++ path in
    getOneSupplierSlugFromBrainSlug slug = Passed supplier
    /\ getOneAtomSlug slug = path.
Proof.
  intros name supplier path Hn Hs slug. subst slug.
  change ("@" +++ supplier +++ "/" +++ path)
    with (String "@" (supplier +++ String "/" path)).
  unfold getOneSupplierSlugFromBrainSlug, getOneAtomSlug, indexAfter.
  rewrite (indexOf_app_absent _ _ _ Hn), sliceFrom_app.
  rewrite (indexOf_app_absent _ _ _ Hs), sliceFrom_app, sliceTo_app. auto.
Qed.

(** The reading of a slug, in full.  The supplier slug is returned
    exactly for the slugs that hold an [@] and, after the first one, a
    slash: the slug is then a name without [@], the [@], the supplier
    returned, which holds no slash, a slash and the atom slug.  A slug
    without [@] and a slug without slash after its first [@] are refused
    with the message for that case. *)
Theorem supplier_slug_reading :
  forall (slug : string),
    match getOneSupplierSlugFromBrainSlug slug with
    | Passed supplier =>
        exists name,
          slug = name +++ "@" +++ supplier +++ "/" +++ getOneAtomSlug slug
          /\ indexOf "@" name = None
          /\ indexOf "/" supplier = None
    | BadRequestError message =>
        (message = "invalid brain slug: no @ separator" /\ indexOf "@" slug = None)
        \/ (message = "invalid brain slug: no / after supplier"
            /\ exists name rest,
                 slug = name +++ "@" +++ rest
                 /\ indexOf "@" name = None
                 /\ indexOf "/" rest = None)
    end.
Proof.
  intros slug. unfold getOneSupplierSlugFromBrainSlug.
  destruct (indexOf "@" slug) as [atIndex|] eqn:A; [|left; auto].
  destruct (indexOf_cut _ _ A) as [C1 C2].
  set (name := sliceTo atIndex slug) in *.
  set (afterAt := sliceFrom (atIndex + 1) slug) in *.
  destruct (indexOf "/" afterAt) as [slashIndex|] eqn:B.
  - destruct (indexOf_cut _ _ B) as [D1 D2].
    exists name. split; [|split; assumption].
    assert (G : getOneAtomSlug slug = sliceFrom (slashIndex + 1) afterAt).
    { unfold getOneAtomSlug, indexAfter. rewrite A. fold afterAt. now rewrite B. }
    rewrite G. rewrite C1 at 1. rewrite D1 at 1. reflexivity.
  - right. split; [reflexivity|]. exists name, afterAt. auto.
Qed.

Module BrainCliConfigFacts.
Import GenBrainCli BrainCliConfig.

Section ConfigFacts.
Variable CONFIG_BY_ATOM_SLUG : string -> AtomConfig.

Lemma existsb_eqb_In (slug : string) (l : list string) :
  existsb (String.eqb slug) l = true <-> In slug l.
Proof.
  rewrite existsb_exists. split.
  - intros (x & H & E). apply String.eqb_eq in E. now subst.
  - intros H. exists slug. split; [assumption | apply String.eqb_refl].
Qed.

(** The routing and the table of configs agree.  The router returns a
    handle exactly for the seven slugs of the table, each bound to the
    config built from it, whose atom slug is what follows the binary and
    the supplier; every other slug is refused with a BadRequestError.  On
    every handle returned the tools of [ask] hold none of Edit, Write and
    Bash, and are all among the tools of [act]. *)
Theorem router_accepts_exactly_the_configured_slugs :
  forall (slug : string),
    (In slug cliSlugs ->
     genBrainCli CONFIG_BY_ATOM_SLUG slug = Passed (getOneConfig CONFIG_BY_ATOM_SLUG slug)
     /\ slug = "claude@anthropic/" +++ getOneAtomSlug slug)
    /\ (~ In slug cliSlugs ->
        exists message, genBrainCli CONFIG_BY_ATOM_SLUG slug = BadRequestError message)
    /\ (forall config,
          genBrainCli CONFIG_BY_ATOM_SLUG slug = Passed config ->
          config_slug config = slug
          /\ ~ In "Edit" (config_tools config Ask)
          /\ ~ In "Write" (config_tools config Ask)
          /\ ~ In "Bash" (config_tools config Ask)
          /\ incl (config_tools config Ask) (config_tools config Act)).
Proof.
  intros slug.
  assert (K : forall config,
            genBrainCli CONFIG_BY_ATOM_SLUG slug = Passed config ->
            In slug cliSlugs /\ config = getOneConfig CONFIG_BY_ATOM_SLUG slug).
  { intros config. unfold genBrainCli, genAnthropicBrainCli, CONFIG_BY_CLI_SLUG.
    destruct (getOneSupplierSlugFromBrainSlug slug) as [supplier|]; [|discriminate].
    destruct (String.eqb supplier "anthropic"); [|discriminate].
    destruct (existsb (String.eqb slug) cliSlugs) eqn:E; [|discriminate].
    intros [= <-]. split; [now apply existsb_eqb_In | reflexivity]. }
  split; [|split].
  - intros H. simpl in H.
    repeat (destruct H as [<- | H]; [split; reflexivity|]). contradiction.
  - intros H.
    destruct (genBrainCli CONFIG_BY_ATOM_SLUG slug) as [config|message] eqn:G.
    + destruct (K config eq_refl) as [I _]. contradiction.
    + now exists message.
  - intros config G. destruct (K config G) as [_ ->]. simpl.
    split; [reflexivity|].
    repeat split; try (intros H; simpl in H; intuition discriminate).
    intros tool H. simpl in H. simpl. intuition.
Qed.

End ConfigFacts.

End BrainCliConfigFacts.

(* ================================================================== *)
(** * More about the handle *)

Module GenBrainCliMoreFacts.
Import GenBrainCli HandleReach GenBrainCliFacts.

Section HandleMore.
Context {number : Type} {jsNumber : JsNumber number}.
Context {digest : Digest} {codec : JsonCodec number}.
Variable config : Config.
Variable pidOf : nat -> nat.
Variable JSON_stringify : UserMessage -> string.

(** ** What the lifecycle leaves alone *)

Lemma killCurrentProcess_frame (s : Supervisor) :
  series (killCurrentProcess s) = series s
  /\ lastTaskMode (killCurrentProcess s) = lastTaskMode s
  /\ dataListeners (killCurrentProcess s) = dataListeners s
  /\ exitListeners (killCurrentProcess s) = exitListeners s.
Proof.
  unfold killCurrentProcess, perform.
  destruct (childProcess s) eqn:C; destruct (ptyProcess s) eqn:P;
    simpl; rewrite ?P; simpl; auto.
Qed.

Lemma boot_frame (bootMode : BrainCliMode) (s : Supervisor) :
  series (boot config pidOf bootMode s) = series s
  /\ dataListeners (boot config pidOf bootMode s) = dataListeners s
  /\ exitListeners (boot config pidOf bootMode s) = exitListeners s.
Proof.
  destruct (killCurrentProcess_frame s) as (K1 & _ & K3 & K4).
  unfold boot. set (k := killCurrentProcess s) in *. clearbody k.
  destruct bootMode; cbn; auto.
Qed.

Lemma onChildExit_frame (proc : nat) (code : option nat) (signal : option string)
  (s : Supervisor) :
  series (onChildExit proc code signal s) = series s
  /\ dataListeners (onChildExit proc code signal s) = dataListeners s
  /\ exitListeners (onChildExit proc code signal s) = exitListeners s.
Proof.
  unfold onChildExit. destruct (childProcess s) as [current|]; [|auto].
  destruct (Nat.eqb current proc); cbn; auto.
Qed.

Lemma onPtyExit_frame (proc exitCode : nat) (signal : option nat) (s : Supervisor) :
  series (onPtyExit proc exitCode signal s) = series s
  /\ dataListeners (onPtyExit proc exitCode signal s) = dataListeners s
  /\ exitListeners (onPtyExit proc exitCode signal s) = exitListeners s.
Proof.
  unfold onPtyExit. destruct (ptyProcess s) as [current|]; [|auto].
  destruct (Nat.eqb current proc); cbn; auto.
Qed.

Lemma step_frame (s : Supervisor) (e : Event) :
  series (step config pidOf s e) = series s
  /\ dataListeners (step config pidOf s e) = dataListeners s
  /\ exitListeners (step config pidOf s e) = exitListeners s.
Proof.
  destruct e as [bootMode| |text|data|proc code signal|proc exitCode signal]; cbn [step].
  - apply boot_frame.
  - destruct (killCurrentProcess_frame s) as (K1 & _ & K3 & K4). unfold kill. auto.
  - cbn. auto.
  - cbn. auto.
  - apply (onChildExit_frame proc code signal (perform (ExitNotified proc) s)).
  - apply (onPtyExit_frame proc exitCode signal (perform (ExitNotified proc) s)).
Qed.

(** The series and the listeners outlive the processes.  Whatever is
    delivered to the handle (boots into either mode, kills, data and exit
    notifications of any process), the series is the same and so are the
    registered data and exit callbacks. *)
Theorem lifecycle_keeps_series_and_listeners :
  forall (history : list Event) (s : Supervisor),
    series (run config pidOf history s) = series s
    /\ dataListeners (run config pidOf history s) = dataListeners s
    /\ exitListeners (run config pidOf history s) = exitListeners s.
Proof.
  unfold run. induction history as [|e history IH]; intros s; simpl; [auto|].
  destruct (IH (step config pidOf s e)) as (H1 & H2 & H3).
  destruct (step_frame s e) as (F1 & F2 & F3).
  repeat split; congruence.
Qed.

Lemma run_listeners (history : list Event) (s : Supervisor) :
  dataListeners (run config pidOf history s) = dataListeners s.
Proof.
  unfold run. revert s. induction history as [|e history IH]; intros s; simpl; [auto|].
  rewrite IH. apply step_frame.
Qed.

(** A data callback registered once hears every later process.  After
    [terminal.onData], and whatever is delivered afterwards, reboots
    included, each chunk of data of the child or of the pty is given
    exactly once to each callback, the new one after those registered
    before it. *)
Theorem registered_data_callback_receives_every_chunk :
  forall (s : Supervisor) (cb : nat) (history : list Event) (text : string),
    let s' := run config pidOf history (onData cb s) in
    effects (step config pidOf s' (ChildData text))
    = effects s' ++ map (fun c => DataCallback c text) (dataListeners s ++ [cb])
    /\ effects (step config pidOf s' (PtyData text))
       = effects s' ++ map (fun c => DataCallback c text) (dataListeners s ++ [cb]).
Proof.
  intros s cb history text s'.
  assert (L : dataListeners s' = dataListeners s ++ [cb])
    by (subst s'; now rewrite run_listeners).
  split; cbn; now rewrite L.
Qed.

(** ** Kill, then the exit *)

Lemma onChildExit_current (proc : nat) (code : option nat) (signal : option string)
  (s : Supervisor) :
  childProcess s = Some proc ->
  instance (onChildExit proc code signal s) = None
  /\ childProcess (onChildExit proc code signal s) = None
  /\ ptyProcess (onChildExit proc code signal s) = ptyProcess s
  /\ effects (onChildExit proc code signal s)
     = effects s
       ++ map (fun cb => ExitCallback cb {| code := nullishOr code 1; signal := signal |})
            (exitListeners s).
Proof.
  intros C. unfold onChildExit. rewrite C, Nat.eqb_refl. cbn.
  destruct signal; auto.
Qed.

Lemma onPtyExit_current (proc exitCode : nat) (signal : option nat) (s : Supervisor) :
  ptyProcess s = Some proc ->
  instance (onPtyExit proc exitCode signal s) = None
  /\ ptyProcess (onPtyExit proc exitCode signal s) = None
  /\ childProcess (onPtyExit proc exitCode signal s) = childProcess s
  /\ effects (onPtyExit proc exitCode signal s)
     = effects s
       ++ map (fun cb =>
                 ExitCallback cb {| code := exitCode; signal := option_map tplNat signal |})
            (exitListeners s).
Proof.
  intros P. unfold onPtyExit. rewrite P, Nat.eqb_refl. cbn. auto.
Qed.

(** Kill, then one exit notification for the listeners.  When the stored
    dispatch process is killed and its exit notification arrives, the
    handle has sent the termination requests, each exit callback is called
    exactly once, with the exit code, or 1 when the code is null, and the
    signal; the instance and the stored process are cleared.  The same
    notification delivered again calls nothing, and a later kill sends no
    signal to that process.  The same holds for the stored pty process,
    with its exit code and its signal as a string. *)
Theorem kill_then_exit_notifies_listeners_once :
  forall (s : Supervisor) (proc : nat),
    (childProcess s = Some proc ->
     forall (code : option nat) (signal : option string),
       let s' := run config pidOf [CallKill; ChildExit proc code signal] s in
       instance s' = None
       /\ childProcess s' = None
       /\ effects s'
          = effects s ++ killRequests s ++ [ExitNotified proc]
            ++ map (fun cb =>
                      ExitCallback cb {| code := nullishOr code 1; signal := signal |})
                 (exitListeners s)
       /\ (forall code' signal', onChildExit proc code' signal' s' = s')
       /\ ~ In (Kill proc "SIGTERM") (killRequests s'))
    /\ (ptyProcess s = Some proc ->
        forall (exitCode : nat) (signal : option nat),
          let s' := run config pidOf [CallKill; PtyExit proc exitCode signal] s in
          instance s' = None
          /\ ptyProcess s' = None
          /\ effects s'
             = effects s ++ killRequests s ++ [ExitNotified proc]
               ++ map (fun cb =>
                         ExitCallback cb
                           {| code := exitCode; signal := option_map tplNat signal |})
                    (exitListeners s)
          /\ (forall exitCode' signal', onPtyExit proc exitCode' signal' s' = s')
          /\ ~ In (PtyKill proc) (killRequests s')).
Proof.
  intros s proc.
  destruct (killCurrentProcess_processes s) as (Kc & Kp & _).
  destruct (killCurrentProcess_frame s) as (_ & _ & _ & Ke).
  pose proof (killCurrentProcess_effects s) as Kf.
  split.
  - intros C code signal s'. subst s'. cbn [run fold_left step]. unfold kill.
    set (k := perform (ExitNotified proc) (killCurrentProcess s)).
    assert (Ck : childProcess k = Some proc)
      by (change (childProcess (killCurrentProcess s) = Some proc); congruence).
    assert (Ek : effects k = effects (killCurrentProcess s) ++ [ExitNotified proc])
      by reflexivity.
    assert (Lk : exitListeners k = exitListeners (killCurrentProcess s))
      by reflexivity.
    destruct (@onChildExit_current proc code signal k Ck) as (H1 & H2 & H3 & H4).
    split; [exact H1|]. split; [exact H2|]. split.
    { rewrite H4, Ek, Lk, Kf, Ke, <- !app_assoc. reflexivity. }
    split.
    { intros code' signal'. apply onChildExit_other. rewrite H2. discriminate. }
    unfold killRequests. rewrite H2. simpl.
    destruct (ptyProcess (onChildExit proc code signal k)); simpl;
      intuition discriminate.
  - intros P exitCode signal s'. subst s'. cbn [run fold_left step]. unfold kill.
    set (k := perform (ExitNotified proc) (killCurrentProcess s)).
    assert (Pk : ptyProcess k = Some proc)
      by (change (ptyProcess (killCurrentProcess s) = Some proc); congruence).
    assert (Ek : effects k = effects (killCurrentProcess s) ++ [ExitNotified proc])
      by reflexivity.
    assert (Lk : exitListeners k = exitListeners (killCurrentProcess s))
      by reflexivity.
    destruct (@onPtyExit_current proc exitCode signal k Pk) as (H1 & H2 & H3 & H4).
    split; [exact H1|]. split; [exact H2|]. split.
    { rewrite H4, Ek, Lk, Kf, Ke, <- !app_assoc. reflexivity. }
    split.
    { intros exitCode' signal'. apply onPtyExit_other. rewrite H2. discriminate. }
    unfold killRequests. rewrite H2.
    destruct (childProcess (onPtyExit proc exitCode signal k)); simpl;
      intuition discriminate.
Qed.

End HandleMore.

End GenBrainCliMoreFacts.

(* ================================================================== *)
(** * Tools and sessions of the dispatch process *)

Module GenBrainCliToolFacts.
Import GenBrainCli HandleReach GenBrainCliFacts.

Section HandleTools.
Context {number : Type} {jsNumber : JsNumber number}.
Context {digest : Digest} {codec : JsonCodec number}.
Variable config : Config.
Variable pidOf : nat -> nat.
Variable JSON_stringify : UserMessage -> string.

Lemma killCurrentProcess_lastTaskMode (s : Supervisor) :
  lastTaskMode (killCurrentProcess s) = lastTaskMode s
  /\ series (killCurrentProcess s) = series s.
Proof.
  unfold killCurrentProcess, perform.
  destruct (childProcess s) eqn:C; destruct (ptyProcess s) eqn:P;
    simpl; rewrite ?P; simpl; auto.
Qed.


(** what a boot into dispatch mode leaves *)
Lemma boot_dispatch_tools (s : Supervisor) :
  let s1 := boot config pidOf Dispatch s in
  let taskMode := nullishOr (lastTaskMode s) Ask in
  exists proc,
    childProcess s1 = Some proc
    /\ instance s1 = Some {| pid := pidOf proc; mode := Dispatch |}
    /\ lastTaskMode s1 = Some taskMode
    /\ series s1 = series s
    /\ In (Spawn proc (config_binary config)
             (getOneDispatchArgs config taskMode (series s)))
          (effects s1).
Proof.
  destruct (killCurrentProcess_lastTaskMode s) as [L R].
  unfold boot, spawnDispatch. set (k := killCurrentProcess s) in *. clearbody k.
  cbn -[getOneDispatchArgs]. exists (spawnCount k). rewrite L, R.
  repeat (split; [reflexivity|]). apply in_or_app. right. left. reflexivity.
Qed.









(** relaying the stream to the data callbacks only adds effects *)
Lemma relay_frame (events : list StreamEvent) (s : Supervisor) :
  let s' := fold_left relay events s in
  instance s' = instance s
  /\ childProcess s' = childProcess s
  /\ lastTaskMode s' = lastTaskMode s
  /\ series s' = series s
  /\ incl (effects s) (effects s').
Proof.
  revert s. induction events as [|e events IH]; intros s; simpl.
  - repeat split; auto using incl_refl.
  - destruct (IH (relay s e)) as (H1 & H2 & H3 & H4 & H5).
    destruct e as [chunk| |message]; simpl in *; auto.
    repeat split; auto.
    intros x Hx. apply H5. apply in_or_app. left. exact Hx.
Qed.










(** ** The session of a returned task *)

Lemma resumeArgs_truthy (sr : BrainSeries) (sid : string) :
  series_exid sr = Some sid -> truthyStr sid = true ->
  resumeArgs (Some sr) = ["--resume"; sid].
Proof. intros E T. unfold resumeArgs. now rewrite E, T. Qed.

Lemma collect_returned (userPrompt : string) (events : list StreamEvent)
  (s s' : Supervisor) (out : BrainOutput number) :
  collect config userPrompt events s = Returned out s' ->
  series s' = Some (output_series out) /\ lastTaskMode s' = lastTaskMode s.
Proof.
  destruct (relay_frame events s) as (_ & _ & L & _ & _).
  unfold collect. destruct (settled _) as [|[o|message err] rest]; [discriminate| |discriminate].
  intros [= <- <-]. cbn. auto.
Qed.

Lemma collect_unreturned (userPrompt : string) (events : list StreamEvent)
  (s : Supervisor) :
  match collect config userPrompt events s with
  | Returned _ _ => True
  | Threw _ s' => series s' = series s
  | Pending s' => series s' = series s
  end.
Proof.
  destruct (relay_frame events s) as (_ & _ & _ & R & _).
  unfold collect. destruct (settled _) as [|[o|message err] rest]; auto.
Qed.

(** what the next boot does with the series a task left *)
Lemma boot_resumes (s : Supervisor) (sr : BrainSeries) (sid : string)
  (taskMode : TaskMode) :
  series s = Some sr -> series_exid sr = Some sid -> truthyStr sid = true ->
  lastTaskMode s = Some taskMode ->
  (exists proc,
      childProcess (boot config pidOf Dispatch s) = Some proc
      /\ In (Spawn proc (config_binary config)
               (getOneDispatchArgs config taskMode None ++ ["--resume"; sid]))
            (effects (boot config pidOf Dispatch s)))
  /\ (exists proc,
         ptyProcess (boot config pidOf Interact s) = Some proc
         /\ In (PtySpawn proc (config_binary config)
                  ["--model"; config_model config; "--resume"; sid])
               (effects (boot config pidOf Interact s))).
Proof.
  intros Sr E T L. split.
  - destruct (boot_dispatch_tools s) as (proc & C & _ & _ & _ & Sp).
    exists proc. split; [exact C|].
    rewrite L, Sr in Sp. cbn [nullishOr] in Sp.
    unfold getOneDispatchArgs in *. rewrite (resumeArgs_truthy sr E T) in Sp.
    cbn [resumeArgs]. rewrite app_nil_r, <- !app_assoc. exact Sp.
  - destruct (killCurrentProcess_lastTaskMode s) as [_ R].
    unfold boot, spawnInteract. set (k := killCurrentProcess s) in *. clearbody k.
    exists (spawnCount k). cbn -[getOneInteractArgs]. split; [reflexivity|].
    apply in_or_app. right. left.
    unfold getOneInteractArgs. rewrite R, Sr, (resumeArgs_truthy sr E T). reflexivity.
Qed.

Lemma ask_lastTaskMode (s s' : Supervisor) (userPrompt : string)
  (events : list StreamEvent) (out : BrainOutput number) :
  ask config pidOf JSON_stringify userPrompt events s = Returned out s' ->
  series s' = Some (output_series out) /\ lastTaskMode s' = Some Ask.
Proof.
  unfold ask. destruct (instance s) as [inst|]; [|discriminate].
  destruct (mode inst); [|discriminate].
  set (s1 := match lastTaskMode s with Some Ask => s | _ => _ end).
  assert (L1 : lastTaskMode s1 = Some Ask).
  { subst s1. destruct (lastTaskMode s) as [[|]|] eqn:L; [exact L| |];
      destruct (boot_dispatch_tools (set_lastTaskMode (Some Ask) s))
        as (p & _ & _ & Lb & _ & _); exact Lb. }
  clearbody s1. destruct (childProcess s1) as [proc|]; [|discriminate].
  intros H. apply collect_returned in H. destruct H as [H1 H2].
  split; [exact H1|]. rewrite H2. exact L1.
Qed.

Lemma act_lastTaskMode (s s' : Supervisor) (userPrompt : string)
  (events : list StreamEvent) (out : BrainOutput number) :
  act config pidOf JSON_stringify userPrompt events s = Returned out s' ->
  series s' = Some (output_series out) /\ lastTaskMode s' = Some Act.
Proof.
  unfold act. destruct (instance s) as [inst|]; [|discriminate].
  destruct (mode inst); [|discriminate].
  set (s1 := match lastTaskMode s with Some Act => s | _ => _ end).
  assert (L1 : lastTaskMode s1 = Some Act).
  { subst s1. destruct (lastTaskMode s) as [[|]|] eqn:L; [|exact L|];
      destruct (boot_dispatch_tools (set_lastTaskMode (Some Act) s))
        as (p & _ & _ & Lb & _ & _); exact Lb. }
  clearbody s1. destruct (childProcess s1) as [proc|]; [|discriminate].
  intros H. apply collect_returned in H. destruct H as [H1 H2].
  split; [exact H1|]. rewrite H2. exact L1.
Qed.

(** The session of a returned task is the one the next process resumes.
    When [ask] (or [act]) returns an output, the handle stores the series
    of that output; if the series has a non-empty session id, the next
    boot into dispatch mode spawns the binary with the arguments of the
    task mode followed by [--resume <id>], and the next boot into interact
    mode spawns the pty with [--model <model> --resume <id>]. *)
Theorem returned_task_session_is_resumed_by_next_boot :
  forall (s s' : Supervisor) (userPrompt : string) (events : list StreamEvent)
         (out : BrainOutput number) (taskMode : TaskMode),
    match taskMode with
    | Ask => ask config pidOf JSON_stringify userPrompt events s
    | Act => act config pidOf JSON_stringify userPrompt events s
    end = Returned out s' ->
    series s' = Some (output_series out)
    /\ forall sid : string,
         series_exid (output_series out) = Some sid -> truthyStr sid = true ->
         (exists proc,
             childProcess (boot config pidOf Dispatch s') = Some proc
             /\ In (Spawn proc (config_binary config)
                      (getOneDispatchArgs config taskMode None ++ ["--resume"; sid]))
                   (effects (boot config pidOf Dispatch s')))
         /\ (exists proc,
                ptyProcess (boot config pidOf Interact s') = Some proc
                /\ In (PtySpawn proc (config_binary config)
                         ["--model"; config_model config; "--resume"; sid])
                      (effects (boot config pidOf Interact s'))).
Proof.
  intros s s' userPrompt events out taskMode H.
  assert (G : series s' = Some (output_series out) /\ lastTaskMode s' = Some taskMode).
  { destruct taskMode; [exact (ask_lastTaskMode _ _ _ H) | exact (act_lastTaskMode _ _ _ H)]. }
  destruct G as [G1 G2]. split; [exact G1|].
  intros sid E T. exact (boot_resumes s' G1 E T G2).
Qed.

Lemma ask_unreturned (s : Supervisor) (userPrompt : string) (events : list StreamEvent) :
  match ask config pidOf JSON_stringify userPrompt events s with
  | Returned _ _ => True
  | Threw _ s' => series s' = series s
  | Pending s' => series s' = series s
  end.
Proof.
  unfold ask. destruct (instance s) as [inst|]; [|reflexivity].
  destruct (mode inst); [|reflexivity].
  assert (B : series (boot config pidOf Dispatch (set_lastTaskMode (Some Ask) s))
              = series s)
    by (destruct (boot_dispatch_tools (set_lastTaskMode (Some Ask) s))
          as (p & _ & _ & _ & R & _); exact R).
  set (s1 := match lastTaskMode s with Some Ask => s | _ => _ end).
  assert (S1 : series s1 = series s)
    by (subst s1; destruct (lastTaskMode s) as [[|]|]; auto).
  clearbody s1. destruct (childProcess s1) as [proc|]; [|exact S1].
  pose proof (collect_unreturned userPrompt events
                (perform (StdinWrite proc (userLine JSON_stringify userPrompt s1)) s1)) as U.
  destruct (collect _ _ _ _); auto; rewrite U; exact S1.
Qed.

Lemma act_unreturned (s : Supervisor) (userPrompt : string) (events : list StreamEvent) :
  match act config pidOf JSON_stringify userPrompt events s with
  | Returned _ _ => True
  | Threw _ s' => series s' = series s
  | Pending s' => series s' = series s
  end.
Proof.
  unfold act. destruct (instance s) as [inst|]; [|reflexivity].
  destruct (mode inst); [|reflexivity].
  assert (B : series (boot config pidOf Dispatch (set_lastTaskMode (Some Act) s))
              = series s)
    by (destruct (boot_dispatch_tools (set_lastTaskMode (Some Act) s))
          as (p & _ & _ & _ & R & _); exact R).
  set (s1 := match lastTaskMode s with Some Act => s | _ => _ end).
  assert (S1 : series s1 = series s)
    by (subst s1; destruct (lastTaskMode s) as [[|]|]; auto).
  clearbody s1. destruct (childProcess s1) as [proc|]; [|exact S1].
  pose proof (collect_unreturned userPrompt events
                (perform (StdinWrite proc (userLine JSON_stringify userPrompt s1)) s1)) as U.
  destruct (collect _ _ _ _); auto; rewrite U; exact S1.
Qed.

(** A task that does not return an output leaves the series as it was.
    Whether [ask] or [act] throws (a guard, a stream error, a stream that
    is not readable) or has not settled, the series of the handle is the
    one before the call, also when the call rebooted the process. *)
Theorem unreturned_task_keeps_series :
  forall (s : Supervisor) (userPrompt : string) (events : list StreamEvent)
         (taskMode : TaskMode),
    match
      match taskMode with
      | Ask => ask config pidOf JSON_stringify userPrompt events s
      | Act => act config pidOf JSON_stringify userPrompt events s
      end
    with
    | Returned _ _ => True
    | Threw _ s' => series s' = series s
    | Pending s' => series s' = series s
    end.
Proof.
  intros s userPrompt events [|]; [apply ask_unreturned | apply act_unreturned].
Qed.

End HandleTools.

End GenBrainCliToolFacts.

(* ================================================================== *)
(** * More instances of the theorems *)

Module MoreRuns.
Import Reference.

Lemma next_turn_of_session_continues_episode_run :
  isCompactionSplit None (Some "sess-a") false = false
  /\ isSameContextWindow (Some (series None (Some "sess-a") false exchangeOne))
       (Some "sess-a") false = true
  /\ length
       (series_episodes
          (series (Some (series None (Some "sess-a") false exchangeOne))
             (Some "sess-a") false exchangeTwo))
     = length (series_episodes (series None (Some "sess-a") false exchangeOne))
  /\ episode_exchanges
       (episode (Some (series None (Some "sess-a") false exchangeOne))
          (Some "sess-a") false exchangeTwo)
     = episode_exchanges (episode None (Some "sess-a") false exchangeOne)
       ++ [exchangeTwo].
Proof.
  split; [reflexivity|].
  pose proof (next_turn_of_session_continues_episode
                None "sess-a" false exchangeOne exchangeTwo eq_refl)
    as (H1 & H2 & _ & H4 & _).
  split; [exact H1|]. split; [exact H2 | exact H4].
Defined.

Lemma turn_after_compaction_split_opens_new_episode_run :
  isCompactionSplit (Some seriesSame) (Some "sess-same") true = true
  /\ episode_exid (episode (Some seriesSame) (Some "sess-same") true exchangeOne)
     = Some ("sess-same" +++ "/" +++ tplNat (length (episodesPrior (Some seriesSame))))
  /\ isSameContextWindow
       (Some (series (Some seriesSame) (Some "sess-same") true exchangeOne))
       (Some "sess-same") false = false.
Proof.
  split; [reflexivity|].
  pose proof (turn_after_compaction_split_opens_new_episode
                (Some seriesSame) "sess-same" true exchangeOne exchangeTwo eq_refl)
    as (H1 & H2 & _).
  split; [exact H1 | exact H2].
Defined.

(** the episodes after a split and one more turn of the session *)
Example episodes_after_split_and_turn :
  map episode_exid
    (series_episodes
       (series (Some (series (Some seriesSame) (Some "sess-same") true exchangeOne))
          (Some "sess-same") false exchangeTwo))
  = [Some "sess-same"; Some "sess-same/1"; Some "sess-same"].
Proof. vm_compute. reflexivity. Qed.

Lemma outcome_independent_of_chunking_run :
  concatAll
    (map chunkText
       [Text (lineAssistant +++ newline +++ substring 0 10 lineResult);
        Buffer (bytesOf (substring 10 200 lineResult));
        Text newline])
  = concatAll
      (map chunkText [Text (lineAssistant +++ newline +++ lineResult +++ newline)])
  /\ quiet
       (completeLines
          (concatAll
             (map chunkText
                [Text (lineAssistant +++ newline +++ substring 0 10 lineResult);
                 Buffer (bytesOf (substring 10 200 lineResult));
                 Text newline])))
     = true
  /\ settled
       (decode decodeInput
          (map Data
             [Text (lineAssistant +++ newline +++ substring 0 10 lineResult);
              Buffer (bytesOf (substring 10 200 lineResult));
              Text newline]
           ++ [End])
          decoderInit)
     = settled
         (decode decodeInput
            (map Data [Text (lineAssistant +++ newline +++ lineResult +++ newline)]
             ++ [End])
            decoderInit).
Proof.
  assert (E : concatAll
                (map chunkText
                   [Text (lineAssistant +++ newline +++ substring 0 10 lineResult);
                    Buffer (bytesOf (substring 10 200 lineResult));
                    Text newline])
              = concatAll
                  (map chunkText
                     [Text (lineAssistant +++ newline +++ lineResult +++ newline)]))
    by (vm_compute; reflexivity).
  assert (Q : quiet
                (completeLines
                   (concatAll
                      (map chunkText
                         [Text (lineAssistant +++ newline +++ substring 0 10 lineResult);
                          Buffer (bytesOf (substring 10 200 lineResult));
                          Text newline])))
              = true)
    by (vm_compute; reflexivity).
  split; [exact E|]. split; [exact Q|].
  exact (outcome_independent_of_chunking decodeInput _ _ E Q).
Defined.

(** the two streams of the run above resolve, with the same values *)
Example one_chunk_or_three :
  resolvedWith
    (decode decodeInput
       (map Data
          [Text (lineAssistant +++ newline +++ substring 0 10 lineResult);
           Buffer (bytesOf (substring 10 200 lineResult));
           Text newline]
        ++ [End])
       decoderInit)
  = [Some (JStr "the answer is 4", Some "sess-abc-123", [1], JNum "1234",
           "$0.0030000000")].
Proof. vm_compute. reflexivity. Qed.

Lemma noise_lines_do_not_change_outcome_run :
  filter (fun line => negb (isNoise line))
    (split_LF
       (concatAll
          (map chunkText
             [Text (lineSystem +++ newline +++ "npm warn");
              Text (newline +++ newline +++ lineResult); Text newline])))
  = filter (fun line => negb (isNoise line))
      (split_LF
         (concatAll
            (map chunkText [Text (lineSystem +++ newline +++ lineResult +++ newline)])))
  /\ quiet
       (filter (fun line => negb (isNoise line))
          (split_LF
             (concatAll
                (map chunkText
                   [Text (lineSystem +++ newline +++ "npm warn");
                    Text (newline +++ newline +++ lineResult); Text newline]))))
     = true
  /\ settled
       (decode decodeInput
          (map Data
             [Text (lineSystem +++ newline +++ "npm warn");
              Text (newline +++ newline +++ lineResult); Text newline]
           ++ [End])
          decoderInit)
     = settled
         (decode decodeInput
            (map Data [Text (lineSystem +++ newline +++ lineResult +++ newline)]
             ++ [End])
            decoderInit).
Proof.
  assert (E : filter (fun line => negb (isNoise line))
                (split_LF
                   (concatAll
                      (map chunkText
                         [Text (lineSystem +++ newline +++ "npm warn");
                          Text (newline +++ newline +++ lineResult); Text newline])))
              = filter (fun line => negb (isNoise line))
                  (split_LF
                     (concatAll
                        (map chunkText
                           [Text (lineSystem +++ newline +++ lineResult +++ newline)]))))
    by (vm_compute; reflexivity).
  assert (Q : quiet
                (filter (fun line => negb (isNoise line))
                   (split_LF
                      (concatAll
                         (map chunkText
                            [Text (lineSystem +++ newline +++ "npm warn");
                             Text (newline +++ newline +++ lineResult);
                             Text newline]))))
              = true)
    by (vm_compute; reflexivity).
  split; [exact E|]. split; [exact Q|].
  exact (noise_lines_do_not_change_outcome decodeInput _ _ E Q).
Defined.

(** a line that holds the JSON value null is not noise: it is left out of
    neither stream, and the theorem does not speak of streams with it *)
Example null_line_is_not_noise :
  isNoise lineNull = false /\ lineThrows lineNull = true
  /\ isNoise "npm warn" = true /\ isNoise lineSystem = false.
Proof. vm_compute. repeat split. Qed.

Lemma stream_error_before_result_rejects_run :
  existsb isResultLine
    (completeLines
       (streamText (map Data [Text (lineSystem +++ newline); Text lineResult])))
  = false
  /\ (let d := decode decodeInput
                 (map Data [Text (lineSystem +++ newline); Text lineResult]
                  ++ Error "EPIPE" :: [Data (Text newline); End])
                 decoderInit in
      settled d = [Rejected "stream error while read of brain output" "EPIPE"]
      /\ finalizedOnce d).
Proof.
  assert (H : existsb isResultLine
                (completeLines
                   (streamText
                      (map Data [Text (lineSystem +++ newline); Text lineResult])))
              = false)
    by (vm_compute; reflexivity).
  split; [exact H|].
  exact (stream_error_before_result_rejects decodeInput
           [Text (lineSystem +++ newline); Text lineResult] "EPIPE"
           [Data (Text newline); End] H).
Defined.

(** an error after a data handler threw on a null line rejects as well *)
Example stream_error_after_null_line :
  settled
    (decode decodeInput
       [Data (Text (lineNull +++ newline +++ lineResult +++ newline)); Error "EPIPE"]
       decoderInit)
  = [Rejected "stream error while read of brain output" "EPIPE"].
Proof. vm_compute. reflexivity. Qed.

Lemma first_result_envelope_decides_run :
  completeLines
    (streamText
       (map Data [Text (lineAssistant +++ newline +++ lineResult);
                  Buffer (bytesOf (newline +++ lineAssistant +++ newline))]))
  = [lineAssistant] ++ lineResult :: [lineAssistant]
  /\ existsb isResultLine [lineAssistant] = false
  /\ quiet [lineAssistant] = true
  /\ envelopeOf lineResult = Some envelopeResult
  /\ kindIs envelopeResult "result" = true
  /\ (let d := decode decodeInput
                 (map Data [Text (lineAssistant +++ newline +++ lineResult);
                            Buffer (bytesOf (newline +++ lineAssistant +++ newline))]
                  ++ [End; Error "late"])
                 decoderInit in
      resolved d = true /\ detachCalls d = 1
      /\ match brainOutput decodeInput
                 (takeResult envelopeResult
                    (absorb decodeInput [lineAssistant] decoderInit)) with
         | Some out =>
             settled d = [Resolved out]
             /\ finalizedOnce d
             /\ output out
                = match coalesce (getProp envelopeResult "result") None with
                  | Some text => text
                  | None => JStr (textOfLines [lineAssistant])
                  end
             /\ option_map JStr (series_exid (output_series out))
                = coalesce (getProp envelopeResult "session_id")
                    (coalesce (sessionIdAfter [lineAssistant] None) None)
         | None => settled d = []
         end).
Proof.
  assert (L : completeLines
                (streamText
                   (map Data [Text (lineAssistant +++ newline +++ lineResult);
                              Buffer (bytesOf (newline +++ lineAssistant +++ newline))]))
              = [lineAssistant] ++ lineResult :: [lineAssistant])
    by (vm_compute; reflexivity).
  assert (B : existsb isResultLine [lineAssistant] = false) by (vm_compute; reflexivity).
  assert (Q : quiet [lineAssistant] = true) by (vm_compute; reflexivity).
  assert (E : envelopeOf lineResult = Some envelopeResult) by (vm_compute; reflexivity).
  assert (T : kindIs envelopeResult "result" = true) by (vm_compute; reflexivity).
  split; [exact L|]. split; [exact B|]. split; [exact Q|]. split; [exact E|].
  split; [exact T|].
  exact (first_result_envelope_decides decodeInput
           [Text (lineAssistant +++ newline +++ lineResult);
            Buffer (bytesOf (newline +++ lineAssistant +++ newline))]
           [End; Error "late"] [lineAssistant] [lineAssistant] lineResult L B Q E T).
Defined.

(** the values of the run above: the result of the envelope, not the text
    of the assistant lines before and after it *)
Example first_result_envelope_values :
  resolvedWith
    (decode decodeInput
       (map Data [Text (lineAssistant +++ newline +++ lineResult);
                  Buffer (bytesOf (newline +++ lineAssistant +++ newline))]
        ++ [End; Error "late"])
       decoderInit)
  = [Some (JStr "the answer is 4", Some "sess-abc-123", [1], JNum "1234",
           "$0.0030000000")]
  /\ option_map (@output number)
       (brainOutput decodeInput
          (takeResult envelopeResult (absorb decodeInput [lineAssistant] decoderInit)))
     = Some (JStr "the answer is 4")
  /\ option_map (@output number)
       (brainOutput decodeInput
          (takeResult envelopeTextCost (absorb decodeInput [lineAssistant] decoderInit)))
     = None.
Proof. vm_compute. repeat split. Qed.

Lemma quiet_stream_end_without_result_finalizes_run :
  existsb isResultLine
    (split_LF
       (streamText
          (map Data [Text (lineSystem +++ newline); Buffer (bytesOf lineAssistant)])))
  = false
  /\ quiet
       (split_LF
          (streamText
             (map Data [Text (lineSystem +++ newline); Buffer (bytesOf lineAssistant)])))
     = true
  /\ (let lines :=
        split_LF
          (streamText
             (map Data [Text (lineSystem +++ newline); Buffer (bytesOf lineAssistant)])) in
      let d := decode decodeInput
                 (map Data [Text (lineSystem +++ newline);
                            Buffer (bytesOf lineAssistant)]
                  ++ [End])
                 decoderInit in
      resolved d = true /\ detachCalls d = 1
      /\ match brainOutput decodeInput (absorb decodeInput lines decoderInit) with
         | Some out =>
             settled d = [Resolved out]
             /\ output out = JStr (textOfLines lines)
             /\ option_map JStr (series_exid (output_series out))
                = coalesce (sessionIdAfter lines None) None
         | None => settled d = []
         end).
Proof.
  assert (H : existsb isResultLine
                (split_LF
                   (streamText
                      (map Data [Text (lineSystem +++ newline);
                                 Buffer (bytesOf lineAssistant)])))
              = false)
    by (vm_compute; reflexivity).
  assert (Q : quiet
                (split_LF
                   (streamText
                      (map Data [Text (lineSystem +++ newline);
                                 Buffer (bytesOf lineAssistant)])))
              = true)
    by (vm_compute; reflexivity).
  split; [exact H|]. split; [exact Q|].
  exact (quiet_stream_end_without_result_finalizes decodeInput
           [Text (lineSystem +++ newline); Buffer (bytesOf lineAssistant)] H Q).
Defined.

(** the values of the run above: the text of the unfinished assistant
    line and the session id of the system line *)
Example stream_end_values :
  resolvedWith
    (decode decodeInput
       (map Data [Text (lineSystem +++ newline); Buffer (bytesOf lineAssistant)]
        ++ [End])
       decoderInit)
  = [Some (JStr "partial output", Some "sess-abc-123", [1], JNum "0", "$0.0000000000")].
Proof. vm_compute. reflexivity. Qed.

Lemma throwing_line_hides_rest_of_chunk_run :
  resolved (@decoderInit number) = false
  /\ split_LF
       (buffer (@decoderInit number)
        +++ chunkText (Text (lineAssistant +++ newline +++ lineNull +++ newline
                             +++ lineResult +++ newline)))
     = [lineAssistant] ++ lineNull :: [lineResult] ++ [EmptyString]
  /\ existsb isResultLine [lineAssistant] = false
  /\ quiet [lineAssistant] = true
  /\ isResultLine lineNull = false
  /\ lineThrows lineNull = true
  /\ (let chunk := Text (lineAssistant +++ newline +++ lineNull +++ newline
                         +++ lineResult +++ newline) in
      let d' := after (onDataHandler decodeInput chunk decoderInit) in
      threw (onDataHandler decodeInput chunk decoderInit) = true
      /\ resolved d' = false /\ settled d' = settled (@decoderInit number)
      /\ detachCalls d' = detachCalls (@decoderInit number)
      /\ buffer d' = EmptyString
      /\ d' = set_buffer EmptyString
                (after (processLine decodeInput lineNull
                          (absorb decodeInput [lineAssistant] decoderInit)))).
Proof.
  assert (L : split_LF
                (buffer (@decoderInit number)
                 +++ chunkText (Text (lineAssistant +++ newline +++ lineNull +++ newline
                                      +++ lineResult +++ newline)))
              = [lineAssistant] ++ lineNull :: [lineResult] ++ [EmptyString])
    by (vm_compute; reflexivity).
  assert (H : existsb isResultLine [lineAssistant] = false) by (vm_compute; reflexivity).
  assert (Q : quiet [lineAssistant] = true) by (vm_compute; reflexivity).
  assert (I : isResultLine lineNull = false) by (vm_compute; reflexivity).
  assert (T : lineThrows lineNull = true) by (vm_compute; reflexivity).
  split; [reflexivity|]. split; [exact L|]. split; [exact H|]. split; [exact Q|].
  split; [exact I|]. split; [exact T|].
  exact (throwing_line_hides_rest_of_chunk decodeInput
           (Text (lineAssistant +++ newline +++ lineNull +++ newline
                  +++ lineResult +++ newline))
           decoderInit [lineAssistant] [lineResult] lineNull EmptyString
           eq_refl L H Q I T).
Defined.

Lemma observations_are_never_cleared_run :
  truthy
    (Some (tokensInput
             (decode decodeInput [Data (Text (lineUsage +++ newline))] decoderInit)))
  = true
  /\ truthy
       (Some (tokensInput
                (decode decodeInput [Data (Text (lineAssistant +++ newline)); End]
                   (decode decodeInput [Data (Text (lineUsage +++ newline))]
                      decoderInit))))
     = true.
Proof.
  assert (H : truthy
                (Some (tokensInput
                         (decode decodeInput [Data (Text (lineUsage +++ newline))]
                            decoderInit)))
              = true)
    by (vm_compute; reflexivity).
  split; [exact H|].
  pose proof (observations_are_never_cleared decodeInput
                [Data (Text (lineAssistant +++ newline)); End]
                (decode decodeInput [Data (Text (lineUsage +++ newline))] decoderInit))
    as (_ & K & _).
  exact (K H).
Defined.

Lemma slug_parts_are_read_back_run :
  indexOf "@" "claude" = None
  /\ indexOf "/" "anthropic" = None
  /\ getOneSupplierSlugFromBrainSlug
       ("claude" +++ "@" +++ "anthropic" +++ "/" +++ "claude/haiku/v4.5")
     = Passed "anthropic"
  /\ getOneAtomSlug ("claude" +++ "@" +++ "anthropic" +++ "/" +++ "claude/haiku/v4.5")
     = "claude/haiku/v4.5".
Proof.
  split; [reflexivity|]. split; [reflexivity|].
  apply (slug_parts_are_read_back "claude" "anthropic" "claude/haiku/v4.5");
    reflexivity.
Defined.

(** the readings the tests of the router expect *)
Example supplier_slug_values :
  getOneSupplierSlugFromBrainSlug "claude@anthropic/claude/opus/v4.5" = Passed "anthropic"
  /\ getOneSupplierSlugFromBrainSlug "opencode@opencode/some-model" = Passed "opencode"
  /\ getOneSupplierSlugFromBrainSlug "claude-no-at"
     = BadRequestError "invalid brain slug: no @ separator"
  /\ getOneSupplierSlugFromBrainSlug "claude@anthropic"
     = BadRequestError "invalid brain slug: no / after supplier".
Proof. vm_compute. repeat split. Qed.

End MoreRuns.

Module HandleMoreRuns.
Import Reference GenBrainCli HandleReach BrainCliConfig.
Import BrainCliConfigFacts GenBrainCliMoreFacts GenBrainCliToolFacts.

Lemma router_accepts_exactly_the_configured_slugs_run :
  In "claude@anthropic/claude/sonnet/v4.5" cliSlugs
  /\ BrainCliConfig.genBrainCli demoAtomConfigs "claude@anthropic/claude/sonnet/v4.5"
     = Passed (getOneConfig demoAtomConfigs "claude@anthropic/claude/sonnet/v4.5")
  /\ "claude@anthropic/claude/sonnet/v4.5"
     = "claude@anthropic/" +++ getOneAtomSlug "claude@anthropic/claude/sonnet/v4.5".
Proof.
  split; [vm_compute; tauto|].
  apply (router_accepts_exactly_the_configured_slugs demoAtomConfigs
           "claude@anthropic/claude/sonnet/v4.5").
  vm_compute; tauto.
Defined.

(** the refusals the tests of the router expect *)
Example router_refusals :
  BrainCliConfig.genBrainCli demoAtomConfigs "opencode@opencode/some-model"
  = BadRequestError
      "unsupported brain supplier: 'opencode' (from slug 'opencode@opencode/some-model')"
  /\ BrainCliConfig.genBrainCli demoAtomConfigs "claude@anthropic/claude/unknown"
     = BadRequestError "unrecognized anthropic brain CLI slug"
  /\ BrainCliConfig.genBrainCli demoAtomConfigs "invalid-slug"
     = BadRequestError "invalid brain slug: no @ separator".
Proof. vm_compute. repeat split. Qed.

Lemma kill_then_exit_notifies_listeners_once_run :
  childProcess (run haikuConfig pidOf [CallBoot Dispatch] (onExit 7 init)) = Some 0
  /\ effects
       (run haikuConfig pidOf [CallKill; ChildExit 0 None (Some "SIGTERM")]
          (run haikuConfig pidOf [CallBoot Dispatch] (onExit 7 init)))
     = effects (run haikuConfig pidOf [CallBoot Dispatch] (onExit 7 init))
       ++ killRequests (run haikuConfig pidOf [CallBoot Dispatch] (onExit 7 init))
       ++ [ExitNotified 0]
       ++ map (fun cb =>
                 ExitCallback cb {| code := nullishOr None 1; signal := Some "SIGTERM" |})
            (exitListeners (run haikuConfig pidOf [CallBoot Dispatch] (onExit 7 init))).
Proof.
  split; [reflexivity|].
  pose proof (proj1 (kill_then_exit_notifies_listeners_once haikuConfig pidOf
                       (run haikuConfig pidOf [CallBoot Dispatch] (onExit 7 init)) 0)
                eq_refl None (Some "SIGTERM"))
    as (_ & _ & H & _).
  exact H.
Defined.

(** the run of the test: one callback, one kill, one exit *)
Example exit_callback_fired_once :
  effects
    (run haikuConfig pidOf
       [CallBoot Dispatch; CallKill; ChildExit 0 None (Some "SIGTERM");
        ChildExit 0 None (Some "SIGTERM"); CallKill]
       (onExit 7 init))
  = [Spawn 0 "claude"
       ["-p"; "--model"; "claude-haiku-4-5"; "--output-format"; "stream-json";
        "--input-format"; "stream-json"; "--verbose";
        "--allowedTools"; "Read,Grep,Glob,WebSearch,WebFetch"];
     Kill 0 "SIGTERM";
     ExitNotified 0;
     ExitCallback 7 {| code := 1; signal := Some "SIGTERM" |};
     ExitNotified 0].
Proof. vm_compute. reflexivity. Qed.


(** the effects of an [act] after a boot that defaulted to the ask tools:
    the process is replaced by one with the act tools, which gets the
    line *)
Example act_after_default_boot :
  effects
    (callState
       (act haikuConfig pidOf stringifyUser "fix it" [Data (Text (lineResult +++ newline))]
          (step haikuConfig pidOf init (CallBoot Dispatch))))
  = [Spawn 0 "claude"
       ["-p"; "--model"; "claude-haiku-4-5"; "--output-format"; "stream-json";
        "--input-format"; "stream-json"; "--verbose";
        "--allowedTools"; "Read,Grep,Glob,WebSearch,WebFetch"];
     Kill 0 "SIGTERM";
     Spawn 1 "claude"
       ["-p"; "--model"; "claude-haiku-4-5"; "--output-format"; "stream-json";
        "--input-format"; "stream-json"; "--verbose";
        "--allowedTools"; "Read,Grep,Glob,Edit,Write,Bash,WebSearch,WebFetch"];
     StdinWrite 1
       (jsonObject
          [jsonField "type" (jsonString "user");
           jsonField "message"
             (jsonObject [jsonField "role" (jsonString "user");
                          jsonField "content" (jsonString "fix it")])]
        +++ newline)].
Proof. vm_compute. reflexivity. Qed.

Lemma returned_task_session_is_resumed_by_next_boot_run :
  ask haikuConfig pidOf stringifyUser "what is 2+2?"
    [Data (Text (lineResult +++ newline))]
    (step haikuConfig pidOf init (CallBoot Dispatch))
  = Returned outputResult
      (callState
         (ask haikuConfig pidOf stringifyUser "what is 2+2?"
            [Data (Text (lineResult +++ newline))]
            (step haikuConfig pidOf init (CallBoot Dispatch))))
  /\ series_exid
       (output_series outputResult)
     = Some "sess-abc-123"
  /\ truthyStr "sess-abc-123" = true
  /\ exists proc,
       ptyProcess
         (boot haikuConfig pidOf Interact
            (callState
               (ask haikuConfig pidOf stringifyUser "what is 2+2?"
                  [Data (Text (lineResult +++ newline))]
                  (step haikuConfig pidOf init (CallBoot Dispatch)))))
       = Some proc
       /\ In (PtySpawn proc (config_binary haikuConfig)
                ["--model"; config_model haikuConfig; "--resume"; "sess-abc-123"])
            (effects
               (boot haikuConfig pidOf Interact
                  (callState
                     (ask haikuConfig pidOf stringifyUser "what is 2+2?"
                        [Data (Text (lineResult +++ newline))]
                        (step haikuConfig pidOf init (CallBoot Dispatch)))))).
Proof.
  assert (H : ask haikuConfig pidOf stringifyUser "what is 2+2?"
                [Data (Text (lineResult +++ newline))]
                (step haikuConfig pidOf init (CallBoot Dispatch))
              = Returned outputResult
                  (callState
                     (ask haikuConfig pidOf stringifyUser "what is 2+2?"
                        [Data (Text (lineResult +++ newline))]
                        (step haikuConfig pidOf init (CallBoot Dispatch)))))
    by (vm_compute; reflexivity).
  split; [exact H|]. split; [vm_compute; reflexivity|]. split; [reflexivity|].
  assert (E : series_exid
                (output_series
                   outputResult)
              = Some "sess-abc-123")
    by (vm_compute; reflexivity).
  pose proof (returned_task_session_is_resumed_by_next_boot
                haikuConfig pidOf stringifyUser
                (step haikuConfig pidOf init (CallBoot Dispatch))
                "what is 2+2?" [Data (Text (lineResult +++ newline))] Ask H)
    as (_ & K).
  exact (proj2 (K "sess-abc-123" E eq_refl)).
Defined.

End HandleMoreRuns.

